(** * Azure ML primer notebooks: a shallow embedding of the cells and scripts

    The notebooks are sequences of calls into the Azure ML SDK.  Every
    call into the SDK (or into pandas, scikit-learn, the file system,
    the network) is an external call: it is recorded in a trace and its
    failure is decided by an oracle.  What the notebooks themselves
    decide (which handler catches what, which call follows which, the
    arguments, the strings written) is ordinary code and is translated
    as such. *)

From Stdlib Require Import String Ascii List Bool Arith ZArith Lia PrimFloat.
From Stdlib Require Import Permutation DecimalString.
Import ListNotations.
Set Warnings "-inexact-float".
Set Warnings "-register-all".
Local Open Scope string_scope.
Local Open Scope list_scope.

(** ** Python exceptions *)

(** An exception object, as far as the notebooks look at it: the classes
    it is an instance of (the method resolution order of its class, most
    specific first) and its [message] attribute, which Python 3
    exceptions only have when their class defines one. *)
Record exn : Type := mkExn {
  exn_mro : list string;
  exn_message : option string
}.

(** [except C] catches [e] when [isinstance(e, C)]. *)
Definition isinstance (e : exn) (cls : string) : bool :=
  existsb (String.eqb cls) (exn_mro e).

Definition builtin_exn (mro : list string) : exn :=
  mkExn (mro ++ ["BaseException"; "object"]) None.

Definition IndexError : exn := builtin_exn ["IndexError"; "LookupError"; "Exception"].
Definition KeyError : exn := builtin_exn ["KeyError"; "LookupError"; "Exception"].
Definition ValueError : exn := builtin_exn ["ValueError"; "Exception"].
Definition AttributeError : exn := builtin_exn ["AttributeError"; "Exception"].
Definition NameError : exn := builtin_exn ["NameError"; "Exception"].
Definition ZeroDivisionError : exn :=
  builtin_exn ["ZeroDivisionError"; "ArithmeticError"; "Exception"].
Definition SystemExit : exn := builtin_exn ["SystemExit"].
Definition KeyboardInterrupt : exn := builtin_exn ["KeyboardInterrupt"].

Inductive result (A : Type) : Type :=
| Ok (a : A)
| Raise (e : exn).
Arguments Ok {A} a.
Arguments Raise {A} e.

Definition is_ok {A} (r : result A) : bool :=
  match r with Ok _ => true | Raise _ => false end.

(** ** Values the notebooks hand to the platform *)

Inductive workspace : Type :=
| FoundWorkspace (name subscription_id resource_group : string)
| CreatedWorkspace (name subscription_id resource_group location : string).

Record provisioning_config : Type := mkProvisioning {
  vm_size : string;
  vm_priority : string;
  max_nodes : nat
}.

Inductive compute : Type :=
| ExistingCompute (name : string)
| CreatedCompute (name : string) (cfg : provisioning_config).

(** A Python scalar: what is logged, sent as JSON, or read from JSON. *)
Inductive pyval : Type :=
| VNone
| VInt (n : Z)
| VFloat (x : float)
| VStr (s : string).

(** A dictionary with string keys, held in insertion order. *)
Definition dict (A : Type) : Type := list (string * A).

(** A reference to data on a datastore: interim storage passed between
    pipeline steps, or a path that already exists. *)
Inductive data_ref : Type :=
| PipelineData (name datastore : string)
| DataReference (datastore data_reference_name path_on_datastore mode : string).

(** An element of the [arguments] list of a pipeline step. *)
Inductive step_arg : Type :=
| SStr (s : string)
| SFloat (x : float)
| SData (d : data_ref).

Record python_script_step : Type := mkStep {
  step_name : string;
  source_directory : string;
  script_name : string;
  arguments : list step_arg;
  inputs : list data_ref;
  outputs : list data_ref;
  compute_target : compute;
  allow_reuse : option bool
}.

(** [BanditPolicy(...)]: a keyword that is not passed is [None]. *)
Record bandit_policy : Type := mkBandit {
  evaluation_interval : option nat;
  slack_factor : option float;
  slack_amount : option float;
  delay_evaluation : option nat
}.

Inductive primary_metric_goal : Type := MAXIMIZE | MINIMIZE.

Record sklearn_estimator : Type := mkSKLearn {
  est_source_directory : string;
  est_compute_target : compute;
  est_conda_packages : list string;
  est_pip_packages : list string;
  est_entry_script : string
}.

(** [HyperDriveConfig(...)]; the sampling is the dictionary handed to
    [GridParameterSampling], each entry the values of a [choice]. *)
Record hyperdrive_config : Type := mkHyperDrive {
  hd_estimator : sklearn_estimator;
  hyperparameter_sampling : dict (list float);
  policy : bandit_policy;
  primary_metric_name : string;
  primary_metric_goal_ : primary_metric_goal;
  max_total_runs : nat;
  max_concurrent_runs : nat
}.

(** ** External calls *)

Inductive event : Type :=
(* azureml.core.Workspace *)
| EWorkspace (workspace_name subscription_id resource_group : string)
| EWorkspaceCreate (name subscription_id resource_group : string)
    (create_resource_group : bool) (location : string)
| EWriteConfig (ws : workspace)
(* azureml.core.compute *)
| EComputeTarget (ws : workspace) (name : string)
| EProvisioningConfiguration (vm_size vm_priority : string) (max_nodes : nat)
| EComputeTargetCreate (ws : workspace) (name : string) (cfg : provisioning_config)
| EWaitForCompletion (c : compute)
(* azureml.core.Run *)
| ERunGetContext
| ERunLog (name : string) (value : pyval)
| ERunLogImage (name : string)
| ERunLogRow (name : string) (kwargs : dict pyval)
| ERunUploadFile (name path : string)
| ERunComplete
(* scikit-learn, joblib, azureml.core.Model *)
| ELogisticRegression (C : float) (solver : string)
| EJoblibDump (filename : string)
| EJoblibLoad (filename : string)
| EModelRegister (model_path model_name : string)
(* files *)
| EMakedirs (path : string)
| EOpenW (path : string)
| EWrite (path data : string)
| EFlush (path : string)
| EClose (path : string)
| EToFile (path data : string)
(* experiments *)
| ESubmitHyperDrive (cfg : hyperdrive_config)
| ESubmitPipeline (steps : list python_script_step)
(* requests, authentication *)
| EGetAuthenticationHeader
| EHttpPost (url : string) (headers : dict string) (body : dict pyval)
(* any other library call, by name *)
| ECall (name : string).

Definition trace := list event.

(** The run-logging operations of a script, and its completion signal. *)
Definition is_run_op (ev : event) : bool :=
  match ev with
  | ERunLog _ _ | ERunLogImage _ | ERunLogRow _ _ | ERunUploadFile _ _ | ERunComplete => true
  | _ => false
  end.

Definition is_complete (ev : event) : bool :=
  match ev with ERunComplete => true | _ => false end.

(** ** The monad of a cell

    [oracle]: the k-th external call of what remains of the run raises
    [e] ([Some e]) or returns ([None]).  A computation reads the oracle,
    reads and writes a store [V] of variables, and yields the calls it
    made, the final store and its result.  An exception leaves the
    store as it was when it was raised. *)

Definition oracle := nat -> option exn.

Definition shift (n : nat) (o : oracle) : oracle := fun k => o (n + k).

Definition no_failure : oracle := fun _ => None.

(** The oracle under which the k-th call, and only it, raises [e]. *)
Definition fail_at (k : nat) (e : exn) : oracle :=
  fun i => if Nat.eqb i k then Some e else None.

Definition M (V A : Type) : Type := oracle -> V -> trace * V * result A.

Definition ret {V A} (a : A) : M V A := fun _ v => ([], v, Ok a).

Definition raise {V A} (e : exn) : M V A := fun _ v => ([], v, Raise e).

Definition bind {V A B} (c : M V A) (f : A -> M V B) : M V B :=
  fun o v =>
    match c o v with
    | (t1, v1, Ok a) =>
        match f a (shift (length t1) o) v1 with
        | (t2, v2, r) => (t1 ++ t2, v2, r)
        end
    | (t1, v1, Raise e) => (t1, v1, Raise e)
    end.

Declare Scope cell_scope.
Delimit Scope cell_scope with cell.
Notation "x <- c ;; k" := (bind c (fun x => k))
  (at level 61, c at next level, right associativity) : cell_scope.
Notation "c ;; k" := (bind c (fun _ => k))
  (at level 61, right associativity) : cell_scope.
Local Open Scope cell_scope.

(** An external call that returns [a] when the platform lets it return. *)
Definition call {V A} (ev : event) (a : A) : M V A :=
  fun o v => ([ev], v, match o 0 with Some e => Raise e | None => Ok a end).

Definition get {V} : M V V := fun _ v => ([], v, Ok v).
Definition put {V} (v : V) : M V unit := fun _ _ => ([], v, Ok tt).

Definition lift_result {V A} (r : result A) : M V A := fun _ v => ([], v, r).

(** [try: body except cls as ex: handler ex] *)
Definition try_except {V A} (body : M V A) (cls : string) (handler : exn -> M V A)
  : M V A :=
  fun o v =>
    match body o v with
    | (t1, v1, Ok a) => (t1, v1, Ok a)
    | (t1, v1, Raise e) =>
        if isinstance e cls then
          match handler e (shift (length t1) o) v1 with
          | (t2, v2, r) => (t1 ++ t2, v2, r)
          end
        else (t1, v1, Raise e)
    end.

(** [try: body finally: fin]: [fin] always runs; an exception of [fin]
    replaces the pending outcome. *)
Definition try_finally {V A} (body : M V A) (fin : M V unit) : M V A :=
  fun o v =>
    match body o v with
    | (t1, v1, r) =>
        match fin (shift (length t1) o) v1 with
        | (t2, v2, Ok _) => (t1 ++ t2, v2, r)
        | (t2, v2, Raise e) => (t1 ++ t2, v2, Raise e)
        end
    end.

(** [for x in xs: body x] *)
Fixpoint for_each {V A} (xs : list A) (body : A -> M V unit) : M V unit :=
  match xs with
  | [] => ret tt
  | x :: rest => body x ;; for_each rest body
  end.

(** [[f(x) for x in xs]] *)
Fixpoint list_comp {V A B} (xs : list A) (f : A -> M V B) : M V (list B) :=
  match xs with
  | [] => ret []
  | x :: rest => y <- f x ;; ys <- list_comp rest f ;; ret (y :: ys)
  end.

(** Running a cell or a script that keeps no store. *)
Definition exec {A} (c : M unit A) (o : oracle) : trace * result A :=
  match c o tt with (t, _, r) => (t, r) end.

(** ** Python built-ins used by the notebooks *)

(** [xs[i]] *)
Definition py_index {A} (xs : list A) (i : nat) : result A :=
  match nth_error xs i with
  | Some x => Ok x
  | None => Raise IndexError
  end.

(** [range(n)] *)
Definition range (n : nat) : list nat := seq 0 n.

(** [str(n)] for a non-negative integer. *)
Definition str_of_nat (n : nat) : string := NilEmpty.string_of_uint (Nat.to_uint n).

(** [x / y] on floats: Python raises where IEEE would give an infinity. *)
Definition py_truediv (x y : float) : result float :=
  if PrimFloat.eqb y 0%float then Raise ZeroDivisionError else Ok (x / y)%float.

(** [d[key]] *)
Fixpoint dict_get {A} (d : dict A) (key : string) : result A :=
  match d with
  | [] => Raise KeyError
  | (k, x) :: rest => if String.eqb k key then Ok x else dict_get rest key
  end.

(** ** posixpath *)

Definition slash : ascii := "/"%char.

Fixpoint rfind_from (c : ascii) (s : string) (pos last : Z) : Z :=
  match s with
  | EmptyString => last
  | String a rest => rfind_from c rest (pos + 1) (if Ascii.eqb a c then pos else last)
  end.

(** [s.rfind(c)]: the index of the last [c] in [s], or -1. *)
Definition rfind (c : ascii) (s : string) : Z := rfind_from c s 0 (-1).

(** [s[:i]] and [s[i:]] for [0 <= i]. *)
Fixpoint str_take (i : nat) (s : string) : string :=
  match i, s with
  | S j, String a rest => String a (str_take j rest)
  | _, _ => EmptyString
  end.

Fixpoint str_drop (i : nat) (s : string) : string :=
  match i, s with
  | S j, String _ rest => str_drop j rest
  | _, _ => s
  end.

Fixpoint all_slashes (s : string) : bool :=
  match s with
  | EmptyString => true
  | String a rest => Ascii.eqb a slash && all_slashes rest
  end.

(** [s.rstrip('/')] *)
Fixpoint rstrip_slash (s : string) : string :=
  match s with
  | EmptyString => EmptyString
  | String a rest => if all_slashes s then EmptyString else String a (rstrip_slash rest)
  end.

(** [os.path.split(p)]: [p] cut after its last slash; the head loses
    its trailing slashes unless it is made of slashes only. *)
Definition os_path_split (p : string) : string * string :=
  let i := Z.to_nat (rfind slash p + 1) in
  let head := str_take i p in
  let tail := str_drop i p in
  let head := if all_slashes head then head else rstrip_slash head in
  (head, tail).

Definition starts_with_slash (s : string) : bool :=
  match s with
  | String a _ => Ascii.eqb a slash
  | EmptyString => false
  end.

Fixpoint ends_with_slash (s : string) : bool :=
  match s with
  | EmptyString => false
  | String a EmptyString => Ascii.eqb a slash
  | String _ rest => ends_with_slash rest
  end.

(** [os.path.join(a, b)] *)
Definition os_path_join (a b : string) : string :=
  if starts_with_slash b then b
  else if (String.eqb a "" || ends_with_slash a)%bool then a ++ b
  else a ++ "/" ++ b.

Fixpoint has_slash (s : string) : bool :=
  match s with
  | EmptyString => false
  | String a rest => Ascii.eqb a slash || has_slash rest
  end.

(** ** argparse

    The command line as the script sees it once argparse has applied
    the [type=] of each option: a flat list of option names and values.
    A pipeline step lists the same tokens before the platform replaces
    each data reference by the folder it is mounted at. *)

Inductive arg : Type :=
| AStr (s : string)
| AFloat (x : float).

Fixpoint parse_pairs (argv : list arg) : option (dict arg) :=
  match argv with
  | [] => Some []
  | AStr flag :: v :: rest =>
      match parse_pairs rest with
      | Some ps => Some ((flag, v) :: ps)
      | None => None
      end
  | _ => None
  end.

(** [parser.parse_args()] for a parser that knows the options [known]:
    an unknown option or a missing value ends the script. *)
Definition parse_args (known : list string) (argv : list arg) : result (dict arg) :=
  match parse_pairs argv with
  | Some ps =>
      if forallb (fun p => existsb (String.eqb (fst p)) known) ps
      then Ok ps else Raise SystemExit
  | None => Raise SystemExit
  end.

(** The value given last for [flag], if any. *)
Definition last_value (ps : dict arg) (flag : string) : option arg :=
  match find (fun p => String.eqb (fst p) flag) (rev ps) with
  | Some (_, v) => Some v
  | None => None
  end.

(** [add_argument(flag, type=float, default=d)] *)
Definition arg_float (ps : dict arg) (flag : string) (default : float) : result float :=
  match last_value ps flag with
  | Some (AFloat x) => Ok x
  | Some (AStr _) => Raise SystemExit
  | None => Ok default
  end.

(** [add_argument(flag, type=str, default=d)]; [None] when no default
    is declared and the option is absent. *)
Definition arg_str (ps : dict arg) (flag : string) (default : option string)
  : result (option string) :=
  match last_value ps flag with
  | Some (AStr s) => Ok (Some s)
  | Some (AFloat _) => Raise SystemExit
  | None => Ok default
  end.

(** ** pandas *)

Record dataframe : Type := mkDataFrame {
  df_columns : list string;
  df_rows : list (list float)
}.

Fixpoint column_index (cols : list string) (c : string) : option nat :=
  match cols with
  | [] => None
  | c' :: rest =>
      if String.eqb c' c then Some 0
      else match column_index rest c with
           | Some i => Some (S i)
           | None => None
           end
  end.

(** The value of column [c] in [row]; a short row reads as NaN. *)
Definition cell (cols : list string) (row : list float) (c : string) : float :=
  match column_index cols c with
  | Some i => nth i row nan
  | None => nan
  end.

(** [df[[c1, ..., cn]]]: the listed columns in the listed order. *)
Definition df_select (wanted : list string) (df : dataframe) : result dataframe :=
  if forallb (fun c => match column_index (df_columns df) c with
                       | Some _ => true | None => false end) wanted
  then Ok (mkDataFrame wanted
             (map (fun row => map (cell (df_columns df) row) wanted) (df_rows df)))
  else Raise KeyError.

(** [df.sample(n)]: [n] rows without replacement, in the order the
    random generator drew them.  [drawn] is the permutation of the row
    positions the generator produced. *)
Definition df_sample (n : nat) (drawn : list nat) (df : dataframe) : result dataframe :=
  if (List.length (df_rows df) <? n)%nat then Raise ValueError
  else Ok (mkDataFrame (df_columns df)
             (map (fun i => nth i (df_rows df) []) (firstn n drawn))).

(** The feature columns named, in this order, by every script. *)
Definition feature_columns : list string :=
  ["Pregnancies"; "PlasmaGlucose"; "DiastolicBloodPressure"; "TricepsThickness";
   "SerumInsulin"; "BMI"; "DiabetesPedigree"; "Age"].

Definition TypeError : exn := builtin_exn ["TypeError"; "Exception"].

(** A run of library calls none of whose results the cell looks at. *)
Definition calls {V} (names : list string) : M V unit :=
  for_each names (fun n => call (ECall n) tt).

(** Reading the module name [name] in a script whose import statements
    bind the names [imports]: [NameError] when none of them binds it.
    A script is run on its own, so what the notebook has imported does
    not count. *)
Definition name_lookup {V} (imports : list string) (name : string) : M V unit :=
  if existsb (String.eqb name) imports then ret tt else raise NameError.

(** ** The block every training script ends with

    From [# Separate features and labels] to [run.complete()], the five
    versions of [diabetes_training.py] are the same text; they differ in
    what they import, and only one of them imports [os].  [acc] and
    [auc] are what [np.average] and [roc_auc_score] return, [imports]
    the names the script's import statements bind. *)
Module Training.
Section Block.
Variables acc auc : float.

Definition train_and_evaluate (imports : list string) (reg : float) : M unit unit :=
  (* Separate features and labels *)
  calls ["diabetes[features].values"; "diabetes['Diabetic'].values"] ;;
  (* Split data into training set and test set *)
  call (ECall "train_test_split") tt ;;
  (* Train a logistic regression model *)
  call (ERunLog "Regularization Rate" (VFloat reg)) tt ;;
  C <- lift_result (py_truediv 1 reg) ;;
  call (ELogisticRegression C "liblinear") tt ;;
  call (ECall "LogisticRegression.fit") tt ;;
  (* calculate accuracy *)
  call (ECall "model.predict") tt ;;
  acc <- call (ECall "np.average") acc ;;
  call (ERunLog "Accuracy" (VFloat acc)) tt ;;
  (* calculate AUC *)
  call (ECall "model.predict_proba") tt ;;
  auc <- call (ECall "roc_auc_score") auc ;;
  call (ERunLog "AUC" (VFloat auc)) tt ;;
  (* plot ROC curve *)
  calls ["roc_curve"; "plt.figure"; "plt.plot"; "plt.plot";
         "plt.xlabel"; "plt.ylabel"; "plt.title"] ;;
  call (ERunLogImage "ROC") tt ;;
  call (ECall "plt.show") tt ;;
  name_lookup imports "os" ;;
  call (EMakedirs "outputs") tt ;;
  call (EJoblibDump "outputs/diabetes_model.pkl") tt ;;
  call ERunComplete tt.

(** The head the parameterised versions share: the one option
    [--regularization], a float defaulting to 0.01. *)
Definition parse_regularization (argv : list arg) : result float :=
  match parse_args ["--regularization"] argv with
  | Ok ps => arg_float ps "--regularization" 0.01
  | Raise e => Raise e
  end.

End Block.
End Training.

(** ** Exercise 1: Setting up Your Environment *)
Module Ex1.
Section Cells.
(* the constants the reader fills in at the top of the cell *)
Variables SUBSCRIPTION_ID RESOURCE_GROUP_NAME WORKSPACE_NAME REGION : string.

Definition sign_in_cell : M unit unit :=
  calls ["authentication.InteractiveLoginAuthentication"].

(** [print(ex.message)]: reading the attribute fails when the exception
    has none. *)
Definition print_message {V} (ex : exn) : M V unit :=
  match exn_message ex with
  | Some _ => ret tt
  | None => raise AttributeError
  end.

(** Task 3.  The store is the variable [ws]. *)
Definition workspace_cell : M (option workspace) unit :=
  put None ;;
  try_finally
    (try_except
       ((* Find existing workspace *)
        ws <- call (EWorkspace WORKSPACE_NAME SUBSCRIPTION_ID RESOURCE_GROUP_NAME)
                (FoundWorkspace WORKSPACE_NAME SUBSCRIPTION_ID RESOURCE_GROUP_NAME) ;;
        put (Some ws))
       "Exception"
       (fun ex =>
          (* If workspace not found, create it *)
          print_message ex ;;
          ws <- call (EWorkspaceCreate WORKSPACE_NAME SUBSCRIPTION_ID
                        RESOURCE_GROUP_NAME true REGION)
                  (CreatedWorkspace WORKSPACE_NAME SUBSCRIPTION_ID
                     RESOURCE_GROUP_NAME REGION) ;;
          put (Some ws)))
    ((* Save the workspace configuration for later *)
     ws <- get ;;
     match ws with
     | Some w => call (EWriteConfig w) tt
     | None => ret tt
     end).

(** The cell that reads the saved configuration back: a [with] block
    over the open file. *)
Definition read_config_cell : M unit unit :=
  call (ECall "open ./.azureml/config.json") tt ;;
  try_finally
    (calls ["f.read"; "json.loads"; "json.dumps"])
    ((* leaving the [with] block closes the file *)
     call (EClose "./.azureml/config.json") tt).

Definition from_config_cell : M unit unit :=
  calls ["Workspace.from_config"].

End Cells.
End Ex1.

(** ** Exercise 2: Getting Started with Experiments *)
Module Ex2.
Section Cells.
(* what [pd.read_csv] and the group-by return *)
Variable data : dataframe.
Variable mean_by_age : list (Z * float).

(** The experiment, as the inline cell and the script both have it. *)
Definition experiment_body : M unit unit :=
  (* load the diabetes dataset *)
  data <- call (ECall "pd.read_csv") data ;;
  (* Count the rows and log the result *)
  let row_count := List.length (df_rows data) in
  call (ERunLog "observations" (VInt (Z.of_nat row_count))) tt ;;
  (* Create box plots for each feature variable and log them *)
  let num_cols := removelast (df_columns data) in
  for_each num_cols (fun col =>
    calls ["plt.figure"; "fig.gca"; "data.boxplot"; "ax.set_title"; "ax.set_ylabel"] ;;
    call (ERunLogImage col) tt) ;;
  call (ECall "plt.show") tt ;;
  (* Create a list of mean diabetes pedigree per age and log it *)
  mean_by_age <- call (ECall "data.groupby.mean.reset_index") mean_by_age ;;
  let ages := map fst mean_by_age in
  let pedigrees := map snd mean_by_age in
  for_each (range (List.length ages)) (fun index =>
    age <- lift_result (py_index ages index) ;;
    pedigree <- lift_result (py_index pedigrees index) ;;
    call (ERunLogRow "Mean Diabetes Pedigree by Age"
            [("Age", VInt age); ("Diabetes_Pedigree", VFloat pedigree)]) tt) ;;
  (* Save a sample of the data and upload it to the experiment output *)
  calls ["data.sample"; "to_csv"] ;;
  call (ERunUploadFile "outputs/sample.csv" "./sample.csv") tt ;;
  (* Complete tracking *)
  call ERunComplete tt.

Definition from_config_cell : M unit unit :=
  calls ["Workspace.from_config"].

(** Task 2: the experiment run inline. *)
Definition inline_experiment_cell : M unit unit :=
  calls ["Experiment"; "experiment.start_logging"] ;;
  experiment_body.

Definition run_details_cell : M unit unit :=
  calls ["run.get_details"; "run.get_metrics"; "json.dumps";
         "run.get_file_names"; "json.dumps"].

Definition folder_cell : M unit unit :=
  calls ["os.makedirs"; "shutil.copy"].

(** [diabetes_experiment.py] *)
Definition diabetes_experiment : M unit unit :=
  (* Get the experiment run context *)
  call ERunGetContext tt ;;
  experiment_body.

Definition submit_cell : M unit unit :=
  calls ["RunConfiguration"; "Environment"; "CondaDependencies.create";
         "ScriptRunConfig"; "Experiment"; "experiment.submit";
         "run.wait_for_completion"].

Definition metrics_cell : M unit unit :=
  calls ["run.get_metrics"; "json.dumps"; "run.get_file_names"; "json.dumps"].

End Cells.
End Ex2.

(** ** Exercise 3: From Data to Model *)
Module Ex3.
Section Cells.
Variables acc auc : float.

Definition from_config_cell : M unit unit := calls ["Workspace.from_config"].

Definition datastore_cell : M unit unit := calls ["ws.get_default_datastore"].

Definition upload_cell : M unit unit := calls ["default_ds.upload_files"].

Definition dataset_cell : M unit unit :=
  calls ["Dataset.Tabular.from_delimited_files"; "data_set.take"; "to_pandas_dataframe"].

Definition register_dataset_cell : M unit unit := calls ["data_set.register"].

Definition experiment_cell : M unit unit := calls ["Experiment"; "os.makedirs"].

(** Task 3: [diabetes_training.py] with the regularization rate fixed;
    the command line is not read. *)
Definition diabetes_training_fixed (argv : list arg) : M unit unit :=
  (* Import libraries *)
  let imports := ["Workspace"; "Dataset"; "Experiment"; "Run"; "pd"; "np"; "joblib";
                  "plt"; "train_test_split"; "LogisticRegression"; "roc_auc_score";
                  "roc_curve"] in
  (* Set regularization rate *)
  let reg := 0.01%float in
  (* Get the experiment run context *)
  call ERunGetContext tt ;;
  (* load the diabetes dataset *)
  calls ["Dataset.get_by_name"; "to_pandas_dataframe"] ;;
  Training.train_and_evaluate acc auc imports reg.

Definition script_run_cell : M unit unit :=
  calls ["RunConfiguration"; "Environment"; "CondaDependencies.create";
         "diabetes_env.register"; "Environment.get"; "ScriptRunConfig";
         "experiment.submit"; "run.wait_for_completion"].

Definition get_metrics_cell : M unit unit := calls ["run.get_metrics"].

Definition get_file_names_cell : M unit unit := calls ["run.get_file_names"].

Definition register_model_cell : M unit unit :=
  calls ["run.get_metrics"; "run.get_metrics"; "run.register_model"].

Definition list_models_cell : M unit unit := calls ["Model.list"].

(** Task 4: [diabetes_training.py] with the rate as a parameter and the
    data taken from the estimator input. *)
Definition diabetes_training_estimator (argv : list arg) : M unit unit :=
  (* Import libraries *)
  let imports := ["argparse"; "Workspace"; "Dataset"; "Experiment"; "Run"; "pd"; "np";
                  "joblib"; "plt"; "train_test_split"; "LogisticRegression";
                  "roc_auc_score"; "roc_curve"] in
  (* Set regularization parameter *)
  reg <- lift_result (Training.parse_regularization argv) ;;
  (* Get the experiment run context *)
  call ERunGetContext tt ;;
  (* load the diabetes dataset *)
  calls ["run.input_datasets['diabetes']"; "to_pandas_dataframe"] ;;
  Training.train_and_evaluate acc auc imports reg.

Definition estimator_cell : M unit unit :=
  calls ["ws.datasets.get"; "Environment.get"; "diabetes_ds.as_named_input";
         "Estimator"; "experiment.submit"; "run.wait_for_completion"].

Definition metrics_cell : M unit unit :=
  calls ["run.get_metrics"; "json.dumps"; "run.get_file_names"; "json.dumps"].

Definition register_and_list_cell : M unit unit :=
  calls ["run.get_metrics"; "run.get_metrics"; "run.register_model"; "Model.list"].

Definition data_ref_cell : M unit unit :=
  calls ["default_ds.path"; "as_download"].

(** Task 5: [diabetes_training.py] reading the data from a folder. *)
Definition diabetes_training_datafolder (argv : list arg) : M unit unit :=
  (* Import libraries *)
  let imports := ["os"; "argparse"; "Workspace"; "Dataset"; "Experiment"; "Run"; "pd";
                  "np"; "joblib"; "plt"; "train_test_split"; "LogisticRegression";
                  "roc_auc_score"; "roc_curve"] in
  (* Get parameters *)
  ps <- lift_result (parse_args ["--regularization"; "--data-folder"] argv) ;;
  reg <- lift_result (arg_float ps "--regularization" 0.01) ;;
  data_folder <- lift_result (arg_str ps "--data-folder" None) ;;
  (* Get the experiment run context *)
  call ERunGetContext tt ;;
  (* load the diabetes data from the data reference *)
  name_lookup imports "os" ;;
  path <- match data_folder with
          | Some d => ret (os_path_join d "diabetes.csv")
          | None => raise TypeError
          end ;;
  call (ECall "pd.read_csv") tt ;;
  Training.train_and_evaluate acc auc imports reg.

Definition datafolder_estimator_cell : M unit unit :=
  calls ["Environment.get"; "Estimator"; "experiment.submit"; "run.wait_for_completion"].

End Cells.
End Ex3.

(** ** Exercise 4: Compute Contexts *)
Module Ex4.
Section Cells.
Variables acc auc : float.
Variable ws : workspace.

Definition from_config_cell : M unit workspace :=
  call (ECall "Workspace.from_config") ws.

(** Task 2: Create Compute *)
Definition cpu_cluster_cell : M unit compute :=
  (* Choose a name for your CPU cluster *)
  let cpu_cluster_name := "cpu-cluster" in
  (* Verify that cluster does not exist already *)
  cpu_cluster <-
    try_except
      (call (EComputeTarget ws cpu_cluster_name) (ExistingCompute cpu_cluster_name))
      "ComputeTargetException"
      (fun _ =>
         (* Create an AzureMl Compute resource (a container cluster) *)
         compute_config <-
           call (EProvisioningConfiguration "STANDARD_D2_V2" "lowpriority" 4)
             (mkProvisioning "STANDARD_D2_V2" "lowpriority" 4) ;;
         call (EComputeTargetCreate ws cpu_cluster_name compute_config)
           (CreatedCompute cpu_cluster_name compute_config)) ;;
  call (EWaitForCompletion cpu_cluster) tt ;;
  ret cpu_cluster.

Definition compute_targets_cell : M unit unit := calls ["ws.compute_targets"].

Definition experiment_cell : M unit unit := calls ["Experiment"; "os.makedirs"].

(** Task 3: [diabetes_training.py] *)
Definition diabetes_training (argv : list arg) : M unit unit :=
  (* Import libraries *)
  let imports := ["argparse"; "joblib"; "Workspace"; "Dataset"; "Experiment"; "Run";
                  "pd"; "np"; "plt"; "train_test_split"; "LogisticRegression";
                  "roc_auc_score"; "roc_curve"] in
  (* Set regularization parameter *)
  reg <- lift_result (Training.parse_regularization argv) ;;
  (* Get the experiment run context *)
  call ERunGetContext tt ;;
  (* load the diabetes dataset *)
  calls ["run.input_datasets['diabetes']"; "to_pandas_dataframe"] ;;
  Training.train_and_evaluate acc auc imports reg.

Definition estimator_cell : M unit unit :=
  calls ["Environment"; "CondaDependencies.create"; "ws.datasets.get";
         "diabetes_ds.as_named_input"; "Estimator"; "experiment.submit";
         "run.wait_for_completion"].

Definition metrics_cell : M unit unit :=
  calls ["run.get_metrics"; "json.dumps"; "run.get_file_names"; "json.dumps"].

Definition register_and_list_cell : M unit unit :=
  calls ["run.get_metrics"; "run.get_metrics"; "run.register_model"; "Model.list"].

Definition sklearn_estimator_cell : M unit unit :=
  calls ["ws.datasets.get"; "diabetes_ds.as_named_input"; "SKLearn";
         "experiment.submit"; "run.wait_for_completion"].

End Cells.
End Ex4.

(** [add_argument(flag, type=str, default=d)] with a default. *)
Definition arg_str_default (ps : dict arg) (flag default : string) : result string :=
  match arg_str ps flag (Some default) with
  | Ok (Some s) => Ok s
  | Ok None => Ok default
  | Raise e => Raise e
  end.

(** ** Exercise 5: Optimizing Model Training *)
Module Ex5.
Section Cells.
Variables acc auc : float.
Variable ws : workspace.

Definition from_config_cell : M unit workspace :=
  call (ECall "Workspace.from_config") ws.

Definition cpu_cluster_cell : M unit compute :=
  (* Choose a name for your CPU cluster *)
  let cpu_cluster_name := "cpu-cluster" in
  (* Verify that cluster does not exist already *)
  cpu_cluster <-
    try_except
      (call (EComputeTarget ws cpu_cluster_name) (ExistingCompute cpu_cluster_name))
      "ComputeTargetException"
      (fun _ =>
         (* Create an AzureMl Compute resource (a container cluster) *)
         compute_config <-
           call (EProvisioningConfiguration "STANDARD_D2_V2" "lowpriority" 4)
             (mkProvisioning "STANDARD_D2_V2" "lowpriority" 4) ;;
         call (EComputeTargetCreate ws cpu_cluster_name compute_config)
           (CreatedCompute cpu_cluster_name compute_config)) ;;
  call (EWaitForCompletion cpu_cluster) tt ;;
  ret cpu_cluster.

Definition experiment_name : string := "diabetes_training".
Definition experiment_folder : string := "./" ++ experiment_name.

Definition experiment_cell : M unit unit := calls ["Experiment"; "os.makedirs"].

(** Task 2: [diabetes_training.py] *)
Definition diabetes_training (argv : list arg) : M unit unit :=
  (* Import libraries *)
  let imports := ["argparse"; "joblib"; "Workspace"; "Dataset"; "Experiment"; "Run";
                  "pd"; "np"; "plt"; "train_test_split"; "LogisticRegression";
                  "roc_auc_score"; "roc_curve"] in
  (* Set regularization parameter *)
  reg <- lift_result (Training.parse_regularization argv) ;;
  (* Get the experiment run context *)
  call ERunGetContext tt ;;
  (* load the diabetes dataset *)
  calls ["Dataset.get_by_name"; "to_pandas_dataframe"] ;;
  Training.train_and_evaluate acc auc imports reg.

(* Sample a range of parameter values *)
Definition params : dict (list float) :=
  [("--regularization", [0.001; 0.005; 0.01; 0.05; 0.1; 1.0]%float)].

(* Set evaluation policy to stop poorly performing training runs early *)
Definition policy : bandit_policy :=
  mkBandit (Some 2) (Some 0.1%float) None None.

(* Create an estimator that uses the remote compute *)
Definition hyper_estimator (cpu_cluster : compute) : sklearn_estimator :=
  mkSKLearn experiment_folder cpu_cluster
    ["pandas"; "ipykernel"; "matplotlib"]
    ["azureml-sdk"; "argparse"; "pyarrow"]
    "diabetes_training.py".

(* Configure hyperdrive settings *)
Definition hyperdrive (cpu_cluster : compute) : hyperdrive_config :=
  mkHyperDrive (hyper_estimator cpu_cluster) params policy "AUC" MAXIMIZE 6 4.

Definition hyperdrive_cell (cpu_cluster : compute) : M unit unit :=
  calls ["choice"; "GridParameterSampling"; "BanditPolicy"; "SKLearn"; "HyperDriveConfig"] ;;
  (* Run the experiment *)
  call (ESubmitHyperDrive (hyperdrive cpu_cluster)) tt ;;
  (* Show the status in the notebook as the experiment runs *)
  calls ["RunDetails"; "show"].

Definition best_run_cell : M unit unit :=
  calls ["run.get_best_run_by_primary_metric"; "best_run.get_metrics";
         "best_run.get_details"].

Definition register_and_list_cell : M unit unit :=
  calls ["best_run.register_model"; "Model.list"].

Definition automl_folder_cell : M unit unit :=
  calls ["os.path.exists"; "os.makedirs"].

(** [get_data.py], the data script of the Auto ML run. *)
Definition get_data : M unit unit :=
  calls ["Run.get_context"; "Dataset.get_by_name"; "to_pandas_dataframe";
         "diabetes[features].values"; "diabetes['Diabetic'].values";
         "train_test_split"].

Definition automl_config_cell : M unit unit :=
  calls ["RunConfiguration"; "time.time"; "AutoMLConfig"].

Definition automl_submit_cell : M unit unit :=
  calls ["Experiment"; "automl_experiment.submit"; "RunDetails"; "show"].

Definition automl_output_cell : M unit unit :=
  calls ["automl_run.get_output"; "best_run.get_metrics"].

Definition explanation_cell : M unit unit :=
  calls ["ExplanationClient.from_run"; "client.download_model_explanation";
         "get_feature_importance_dict"].

End Cells.
End Ex5.

(** ** Exercise 7: Automating ML Workflows with Pipelines *)
Module Ex7.
Section Cells.
Variable ws : workspace.
(* what [ws.get_default_datastore()] returns *)
Variable default_datastore : string.

Definition from_config_cell : M unit workspace :=
  call (ECall "Workspace.from_config") ws.

Definition experiment_name : string := "diabetes_pipeline".
Definition experiment_folder : string := "./" ++ experiment_name.

Definition folder_cell : M unit unit := calls ["os.makedirs"].

(** [train_diabetes.py] *)
Definition train_diabetes (argv : list arg) : M unit unit :=
  (* Import libraries *)
  let imports := ["argparse"; "joblib"; "Workspace"; "Dataset"; "Experiment"; "Run";
                  "pd"; "np"; "train_test_split"; "LogisticRegression"] in
  (* Get parameters *)
  ps <- lift_result
          (parse_args ["--dataset_name"; "--regularization"; "--output_folder"] argv) ;;
  dataset_name <- lift_result (arg_str_default ps "--dataset_name" "Diabetes Dataset") ;;
  reg <- lift_result (arg_float ps "--regularization" 0.01) ;;
  output_folder <- lift_result (arg_str_default ps "--output_folder" "diabetes_model") ;;
  (* Get the experiment run context *)
  call ERunGetContext tt ;;
  (* load the diabetes dataset *)
  calls ["Dataset.get_by_name"; "to_pandas_dataframe"] ;;
  (* Separate features and labels *)
  calls ["diabetes[features].values"; "diabetes['Diabetic'].values"] ;;
  (* Train a logistic regression model *)
  call (ERunLog "Regularization Rate" (VFloat reg)) tt ;;
  C <- lift_result (py_truediv 1 reg) ;;
  call (ELogisticRegression C "liblinear") tt ;;
  call (ECall "LogisticRegression.fit") tt ;;
  (* Save the trained model *)
  name_lookup imports "os" ;;
  call (EMakedirs output_folder) tt ;;
  let output_path := (output_folder ++ "/model.pkl")%string in
  call (EJoblibDump output_path) tt ;;
  call ERunComplete tt.

(** [register_diabetes.py] *)
Definition register_diabetes (argv : list arg) : M unit unit :=
  (* Get parameters *)
  ps <- lift_result (parse_args ["--model_folder"] argv) ;;
  model_folder <- lift_result (arg_str_default ps "--model_folder" "diabetes_model") ;;
  (* Get the experiment run context *)
  call ERunGetContext tt ;;
  (* load the model *)
  let model_file := (model_folder ++ "/model.pkl")%string in
  call (EJoblibLoad model_file) tt ;;
  call (EModelRegister model_file "diabetes_model") tt ;;
  call ERunComplete tt.

Definition cpu_cluster_cell : M unit compute :=
  (* Choose a name for your CPU cluster *)
  let cpu_cluster_name := "cpu-cluster" in
  (* Verify that cluster does not exist already *)
  cpu_cluster <-
    try_except
      (call (EComputeTarget ws cpu_cluster_name) (ExistingCompute cpu_cluster_name))
      "ComputeTargetException"
      (fun _ =>
         (* Create an AzureMl Compute resource (a container cluster) *)
         compute_config <-
           call (EProvisioningConfiguration "STANDARD_D2_V2" "lowpriority" 4)
             (mkProvisioning "STANDARD_D2_V2" "lowpriority" 4) ;;
         call (EComputeTargetCreate ws cpu_cluster_name compute_config)
           (CreatedCompute cpu_cluster_name compute_config)) ;;
  call (EWaitForCompletion cpu_cluster) tt ;;
  ret cpu_cluster.

Definition run_config_cell : M unit unit :=
  calls ["RunConfiguration"; "CondaDependencies.create"].

(* Create a PipelineData (Data Reference) for the model folder *)
Definition model_folder : data_ref := PipelineData "model_folder" default_datastore.

(* Step 1, run the training script *)
Definition train_step (cpu_cluster : compute) : python_script_step :=
  mkStep "Train Model" experiment_folder "train_diabetes.py"
    [SStr "--dataset_name"; SStr "Diabetes Dataset";
     SStr "--regularization"; SFloat 0.1;
     SStr "--output_folder"; SData model_folder]
    [] [model_folder] cpu_cluster (Some false).

(* Step 2, run the model registration script *)
Definition register_step (cpu_cluster : compute) : python_script_step :=
  mkStep "Register Model" experiment_folder "register_diabetes.py"
    [SStr "--model_folder"; SData model_folder]
    [model_folder] [] cpu_cluster (Some false).

Definition steps_cell : M unit unit :=
  calls ["ws.get_default_datastore"; "PipelineData"; "PythonScriptStep"; "PythonScriptStep"].

(* Construct the pipeline *)
Definition pipeline_steps (cpu_cluster : compute) : list python_script_step :=
  [train_step cpu_cluster; register_step cpu_cluster].

Definition pipeline_cell (cpu_cluster : compute) : M unit unit :=
  call (ECall "Pipeline") tt ;;
  (* Create an experiment and run the pipeline *)
  call (ECall "Experiment") tt ;;
  call (ESubmitPipeline (pipeline_steps cpu_cluster)) tt ;;
  calls ["RunDetails"; "show"].

Definition list_models_cell : M unit unit := calls ["Model.list"].

End Cells.

(** What the platform does with a step: each data reference among the
    arguments becomes the folder [mount] places it at, the other
    arguments pass unchanged, and the step's script runs on them. *)
Definition resolve (mount : data_ref -> string) (a : step_arg) : arg :=
  match a with
  | SStr s => AStr s
  | SFloat x => AFloat x
  | SData d => AStr (mount d)
  end.

Definition step_argv (mount : data_ref -> string) (s : python_script_step) : list arg :=
  map (resolve mount) (arguments s).

End Ex7.

Definition newline : string := String (ascii_of_nat 10) EmptyString.

(** ** Exercise 8: Batch Inferencing with Pipelines *)
Module Ex8.
Section Cells.
Variable ws : workspace.

Definition from_config_cell : M unit workspace :=
  call (ECall "Workspace.from_config") ws.

(* what [pd.read_csv('data/diabetes.csv')] returns, the row positions
   the random generator draws, and the text numpy writes for a value *)
Variable diabetes : dataframe.
Variable drawn : list nat.
Variable format_value : float -> string.

(** Task 2: Generate and Upload Batch Data *)
Definition batch_data_cell : M unit unit :=
  (* Load the diabetes data *)
  diabetes <- call (ECall "pd.read_csv") diabetes ;;
  (* Get a 100-item sample of the feature columns (not the diabetic label) *)
  features <- lift_result (df_select feature_columns diabetes) ;;
  drawn <- call (ECall "DataFrame.sample") drawn ;;
  sampled <- lift_result (df_sample 100 drawn features) ;;
  let sample := df_rows sampled in
  (* Create a folder *)
  let batch_folder := "./batch_data" in
  call (EMakedirs batch_folder) tt ;;
  (* Save each sample as a separate file *)
  for_each (range 100) (fun i =>
    let fname := (str_of_nat (i + 1) ++ ".csv")%string in
    row <- lift_result (py_index sample i) ;;
    call (EToFile (os_path_join batch_folder fname)
            (String.concat "," (map format_value row))) tt) ;;
  (* Upload the files to the default datastore *)
  calls ["ws.get_default_datastore"; "default_ds.upload"].

(** Task 3: Create Compute *)
Definition cpu_cluster_cell : M unit compute :=
  (* Choose a name for your CPU cluster *)
  let cpu_cluster_name := "cpu-cluster" in
  (* Verify that cluster does not exist already *)
  cpu_cluster <-
    try_except
      (call (EComputeTarget ws cpu_cluster_name) (ExistingCompute cpu_cluster_name))
      "ComputeTargetException"
      (fun _ =>
         (* Create an AzureMl Compute resource (a container cluster) *)
         compute_config <-
           call (EProvisioningConfiguration "STANDARD_D2_V2" "lowpriority" 4)
             (mkProvisioning "STANDARD_D2_V2" "lowpriority" 4) ;;
         call (EComputeTargetCreate ws cpu_cluster_name compute_config)
           (CreatedCompute cpu_cluster_name compute_config)) ;;
  call (EWaitForCompletion cpu_cluster) tt ;;
  ret cpu_cluster.

(** Task 4: Create a Pipeline for Batch Inferencing *)
Variable default_datastore : string.

Definition input_dir : data_ref :=
  DataReference default_datastore "batch_data" "batch_data" "download".

Definition data_reference_cell : M unit unit := calls ["DataReference"].

Definition experiment_name : string := "batch_pipeline".
Definition experiment_folder : string := "./" ++ experiment_name.

Definition folder_cell : M unit unit := calls ["os.makedirs"].

(* what the script's library calls return: the path of the registered
   model, the files the pattern matches, the record read from a file,
   the model's predictions, and the text [str] gives for a prediction *)
Variable prediction : Type.
Variable model_path : string.
Variable glob : string -> list string.
Variable genfromtxt : string -> list float.
Variable predict : list (list float) -> list prediction.
Variable str : prediction -> string.

(** [batch_diabetes.py] *)
Definition batch_diabetes (argv : list arg) : M unit unit :=
  (* Get the experiment run context *)
  call ERunGetContext tt ;;
  (* Get parameters *)
  ps <- lift_result (parse_args ["--input_dir"] argv) ;;
  input_dir <- lift_result (arg_str_default ps "--input_dir" "batch_data") ;;
  call (ERunLog "Input Folder" (VStr input_dir)) tt ;;
  (* load the model *)
  model_path <- call (ECall "Model.get_model_path") model_path ;;
  call (EJoblibLoad model_path) tt ;;
  (* Load the input data *)
  let file_path := os_path_join input_dir "*.csv" in
  file_names <- call (ECall "glob") (glob file_path) ;;
  call (ERunLog "File Count" (VInt (Z.of_nat (List.length file_names)))) tt ;;
  input_data <- list_comp file_names
                  (fun f => call (ECall "np.genfromtxt") (genfromtxt f)) ;;
  call (ECall "np.asarray") tt ;;
  (* Score the input data *)
  predictions <- call (ECall "model.predict") (predict input_data) ;;
  (* Save the results *)
  let output_dir := "outputs" in
  call (EMakedirs output_dir) tt ;;
  let output_path := os_path_join output_dir "results.txt" in
  call (EOpenW output_path) tt ;;
  try_finally
    (for_each (range (List.length predictions)) (fun i =>
       file_name <- lift_result (py_index file_names i) ;;
       p <- lift_result (py_index predictions i) ;;
       call (EWrite output_path
               (snd (os_path_split file_name) ++ ": " ++ str p ++ newline)) tt) ;;
     call (EFlush output_path) tt)
    ((* leaving the [with] block closes the file *)
     call (EClose output_path) tt) ;;
  call (EClose output_path) tt ;;
  (* We're done *)
  call ERunComplete tt.

Definition run_config_cell : M unit unit :=
  calls ["CondaDependencies.create"; "RunConfiguration"].

Definition batch_score_step (cpu_cluster : compute) : python_script_step :=
  mkStep "batch_scoring" experiment_folder "batch_diabetes.py"
    [SStr "--input_dir"; SData input_dir]
    [input_dir] [] cpu_cluster None.

Definition step_cell : M unit unit := calls ["PythonScriptStep"].

Definition pipeline_cell (cpu_cluster : compute) : M unit unit :=
  calls ["Pipeline"; "Experiment"] ;;
  call (ESubmitPipeline [batch_score_step cpu_cluster]) tt ;;
  call (ECall "pipeline_run.wait_for_completion") tt.

Definition results_cell : M unit unit :=
  calls ["pipeline_run.get_children"; "step_run.download_file"; "pd.read_csv"; "df.head"].

(** Task 5: Publish the Pipeline and use its REST Interface *)

(* the endpoint of the published pipeline, the header the sign-in
   session hands out, and the JSON the service answers with *)
Variable endpoint : string.
Variable session_header : dict string.
Variable answer : dict pyval.

(** Publishing returns the published pipeline, here its endpoint. *)
Definition publish_cell : M unit string :=
  call (ECall "pipeline_run.publish_pipeline") endpoint.

Definition auth_header_cell : M unit (dict string) :=
  call (ECall "InteractiveLoginAuthentication") tt ;;
  auth_header <- call EGetAuthenticationHeader session_header ;;
  ret auth_header.

Definition rest_cell (published_pipeline : string) (auth_header : dict string)
  : M unit pyval :=
  let rest_endpoint := published_pipeline in
  call (EHttpPost rest_endpoint auth_header
          [("ExperimentName", VStr "Batch_Pipeline_via_REST")]) tt ;;
  response_json <- call (ECall "response.json") answer ;;
  run_id <- lift_result (dict_get response_json "Id") ;;
  ret run_id.

(** The three cells in the order the notebook runs them. *)
Definition trigger_via_rest : M unit pyval :=
  published_pipeline <- publish_cell ;;
  auth_header <- auth_header_cell ;;
  rest_cell published_pipeline auth_header.

Definition run_details_cell : M unit unit :=
  calls ["ws.experiments"; "PipelineRun"; "RunDetails"; "show"].

Definition published_results_cell : M unit unit :=
  calls ["published_pipeline_run.get_children"; "step_run.get_file_names";
         "step_run.download_file"; "pd.read_csv"; "df.head"].

End Cells.
End Ex8.

(** ** Reading a trace *)

(** What a file holds after the calls of [t]: opening it for writing
    empties it, each write appends.  [None]: never opened. *)
Fixpoint file_contents (path : string) (t : trace) (acc : option string)
  : option string :=
  match t with
  | [] => acc
  | EOpenW p :: rest =>
      file_contents path rest (if String.eqb p path then Some "" else acc)
  | EWrite p data :: rest =>
      file_contents path rest
        (if String.eqb p path
         then match acc with Some s => Some (s ++ data)%string | None => None end
         else acc)
  | _ :: rest => file_contents path rest acc
  end.

(** The files written by [tofile], in order: path and contents. *)
Fixpoint files_written (t : trace) : list (string * string) :=
  match t with
  | [] => []
  | EToFile p data :: rest => (p, data) :: files_written rest
  | _ :: rest => files_written rest
  end.

(** The lines of a text: the pieces ended by a newline (and a last
    piece, if the text does not end with one). *)
Fixpoint lines_from (s : string) (cur : string) : list string :=
  match s with
  | EmptyString => match cur with EmptyString => [] | _ => [cur] end
  | String a rest =>
      if Ascii.eqb a (ascii_of_nat 10) then cur :: lines_from rest ""
      else lines_from rest (cur ++ String a EmptyString)%string
  end.

Definition lines (s : string) : list string := lines_from s "".

(** * Properties *)

(** ** The monad: how a result and its trace decompose *)

Lemma shift_0 (o : oracle) : shift 0 o = o.
Proof. reflexivity. Qed.

Lemma shift_shift (n m : nat) (o : oracle) (k : nat) :
  shift m (shift n o) k = shift (n + m) o k.
Proof. unfold shift. f_equal. lia. Qed.

Lemma bind_inv {V A B} (c : M V A) (f : A -> M V B) o v t v' r :
  bind c f o v = (t, v', r) ->
  (exists t1 v1 a t2,
      c o v = (t1, v1, Ok a) /\
      f a (shift (List.length t1) o) v1 = (t2, v', r) /\ t = t1 ++ t2)
  \/ (exists e, c o v = (t, v', Raise e) /\ r = Raise e).
Proof.
  unfold bind. destruct (c o v) as [[t1 v1] [a | e]].
  - destruct (f a (shift (List.length t1) o) v1) as [[t2 v2] r2] eqn:Hf.
    intros H. inversion H; subst. left. exists t1, v1, a, t2. auto.
  - intros H. inversion H; subst. right. exists e. auto.
Qed.

Lemma bind_ok_inv {V A B} (c : M V A) (f : A -> M V B) o v t v' b :
  bind c f o v = (t, v', Ok b) ->
  exists t1 v1 a t2,
    c o v = (t1, v1, Ok a) /\
    f a (shift (List.length t1) o) v1 = (t2, v', Ok b) /\ t = t1 ++ t2.
Proof.
  intros H. destruct (bind_inv _ _ _ _ _ _ _ H) as [H1 | [e [_ He]]]; [exact H1 | discriminate].
Qed.

Lemma call_ok_inv {V A} (ev : event) (a : A) o (v : V) t v' b :
  call ev a o v = (t, v', Ok b) -> t = [ev] /\ v' = v /\ b = a /\ o 0 = None.
Proof.
  unfold call. destruct (o 0); intros H; inversion H; subst; auto.
Qed.

Lemma lift_result_inv {V A} (x : result A) o (v : V) t v' r :
  lift_result x o v = (t, v', r) -> t = [] /\ v' = v /\ r = x.
Proof. unfold lift_result. intros H; inversion H; auto. Qed.

Lemma ret_inv {V A} (a : A) o (v : V) t v' r :
  ret a o v = (t, v', r) -> t = [] /\ v' = v /\ r = Ok a.
Proof. unfold ret. intros H; inversion H; auto. Qed.

(** The first of the calls [k], [k+1], ..., [k+n-1] that the platform
    fails, with its exception. *)
Fixpoint first_failure_from (o : oracle) (k n : nat) : option (nat * exn) :=
  match n with
  | 0 => None
  | S n' =>
      match o k with
      | Some e => Some (k, e)
      | None => first_failure_from o (S k) n'
      end
  end.

Definition first_failure (o : oracle) (n : nat) : option (nat * exn) :=
  first_failure_from o 0 n.

Lemma first_failure_from_some (o : oracle) (n k j : nat) (e : exn) :
  first_failure_from o k n = Some (j, e) ->
  k <= j < k + n /\ o j = Some e /\ forall i, k <= i < j -> o i = None.
Proof.
  revert k. induction n as [| n IH]; intros k H; simpl in H; [discriminate |].
  destruct (o k) as [e' |] eqn:Hk.
  - inversion H; subst. split; [lia |]. split; [exact Hk |]. intros i Hi. lia.
  - destruct (IH _ H) as (Hj & Hoj & Hbefore).
    split; [lia |]. split; [exact Hoj |].
    intros i Hi. destruct (Nat.eq_dec i k) as [-> | Hne]; [exact Hk |].
    apply Hbefore. lia.
Qed.

Lemma first_failure_from_none (o : oracle) (n k : nat) :
  first_failure_from o k n = None -> forall i, k <= i < k + n -> o i = None.
Proof.
  revert k. induction n as [| n IH]; intros k H i Hi; [lia |].
  simpl in H. destruct (o k) as [e' |] eqn:Hk; [discriminate |].
  destruct (Nat.eq_dec i k) as [-> | Hne]; [exact Hk |].
  apply (IH _ H). lia.
Qed.

Lemma in_prefix {A} (x : A) (n : nat) (l : list A) : In x (firstn n l) -> In x l.
Proof.
  revert n. induction l as [| y l IH]; intros [| n] Hin; simpl in Hin; try contradiction.
  destruct Hin as [-> | Hin]; [left; reflexivity | right; exact (IH _ Hin)].
Qed.

(** ** The cpu-cluster cell (Exercises 4, 5, 7 and 8) *)

(** Every notebook that obtains the compute target named cpu-cluster. *)
Definition cpu_cluster_cells (ws : workspace) : list (M unit compute) :=
  [Ex4.cpu_cluster_cell ws; Ex5.cpu_cluster_cell ws;
   Ex7.cpu_cluster_cell ws; Ex8.cpu_cluster_cell ws].

Definition ComputeTargetException : exn :=
  mkExn ["ComputeTargetException"; "AzureMLException"; "Exception";
         "BaseException"; "object"]
        (Some "ComputeTargetNotFound: Compute Target with name cpu-cluster not found").

Definition is_provisioning (ev : event) : bool :=
  match ev with
  | EProvisioningConfiguration _ _ _ | EComputeTargetCreate _ _ _ => true
  | _ => false
  end.

Lemma cpu_cluster_cells_same (ws : workspace) (cell : M unit compute) :
  In cell (cpu_cluster_cells ws) -> cell = Ex4.cpu_cluster_cell ws.
Proof.
  unfold cpu_cluster_cells. simpl.
  intros [H | [H | [H | [H | []]]]]; subst; reflexivity.
Qed.

(** C3. In each of the four notebooks that obtain cpu-cluster: when the
    lookup raises ComputeTargetException, the cell asks for a
    provisioning configuration STANDARD_D2_V2 / lowpriority / 4 nodes
    and, once it has it, creates cpu-cluster with it, the created
    cluster being the cell's cluster; when the lookup returns, the cell
    makes no provisioning call and its cluster is the existing one. *)
Theorem cpu_cluster_reused_or_created (ws : workspace) (cell : M unit compute)
    (o : oracle) (t : trace) (r : result compute) :
  In cell (cpu_cluster_cells ws) ->
  exec cell o = (t, r) ->
  let cfg := mkProvisioning "STANDARD_D2_V2" "lowpriority" 4 in
  (forall e, o 0 = Some e -> isinstance e "ComputeTargetException" = true ->
     nth_error t 0 = Some (EComputeTarget ws "cpu-cluster") /\
     nth_error t 1 = Some (EProvisioningConfiguration "STANDARD_D2_V2" "lowpriority" 4) /\
     (o 1 = None ->
        nth_error t 2 = Some (EComputeTargetCreate ws "cpu-cluster" cfg) /\
        (o 2 = None ->
           nth_error t 3 = Some (EWaitForCompletion (CreatedCompute "cpu-cluster" cfg)) /\
           (o 3 = None -> r = Ok (CreatedCompute "cpu-cluster" cfg)))))
  /\
  (o 0 = None ->
     t = [EComputeTarget ws "cpu-cluster";
          EWaitForCompletion (ExistingCompute "cpu-cluster")] /\
     existsb is_provisioning t = false /\
     (o 1 = None -> r = Ok (ExistingCompute "cpu-cluster"))).
Proof.
  intros Hin Hrun cfg. apply cpu_cluster_cells_same in Hin. subst cell.
  revert Hrun.
  unfold exec, Ex4.cpu_cluster_cell, bind, try_except, call, ret, shift; simpl.
  split.
  - intros e He Hcatch. revert Hrun. rewrite He, Hcatch. simpl.
    destruct (o 1) as [e1 |] eqn:H1; simpl;
      [| destruct (o 2) as [e2 |] eqn:H2; simpl;
         [| destruct (o 3) as [e3 |] eqn:H3; simpl]];
      intros H; inversion H; subst; simpl;
      repeat split; intros; try reflexivity; try discriminate.
  - intros H0. revert Hrun. rewrite H0. simpl.
    destruct (o 1) as [e1 |] eqn:H1; simpl;
      intros H; inversion H; subst; repeat split; intros;
      try reflexivity; try discriminate.
Qed.

Lemma cpu_cluster_reused_or_created_witness :
  let ws := FoundWorkspace "aml-workspace" "sub" "aml-resource-group" in
  let cfg := mkProvisioning "STANDARD_D2_V2" "lowpriority" 4 in
  let missing := exec (Ex5.cpu_cluster_cell ws) (fail_at 0 ComputeTargetException) in
  let present := exec (Ex5.cpu_cluster_cell ws) no_failure in
  In (Ex5.cpu_cluster_cell ws) (cpu_cluster_cells ws)
  /\ nth_error (fst missing) 2 = Some (EComputeTargetCreate ws "cpu-cluster" cfg)
  /\ snd missing = Ok (CreatedCompute "cpu-cluster" cfg)
  /\ existsb is_provisioning (fst present) = false
  /\ snd present = Ok (ExistingCompute "cpu-cluster").
Proof.
  intros ws cfg missing present.
  assert (Hin : In (Ex5.cpu_cluster_cell ws) (cpu_cluster_cells ws))
    by (right; left; reflexivity).
  destruct (cpu_cluster_reused_or_created ws (Ex5.cpu_cluster_cell ws)
              (fail_at 0 ComputeTargetException) (fst missing) (snd missing)
              Hin eq_refl) as [Hcreate _].
  destruct (cpu_cluster_reused_or_created ws (Ex5.cpu_cluster_cell ws)
              no_failure (fst present) (snd present)
              Hin eq_refl) as [_ Hreuse].
  destruct (Hcreate ComputeTargetException eq_refl eq_refl) as (_ & _ & Hmake).
  destruct (Hmake eq_refl) as (Hmade & Hwait).
  destruct (Hwait eq_refl) as (_ & Hresult).
  destruct (Hreuse eq_refl) as (_ & Hquiet & Hsame).
  split; [exact Hin |].
  split; [exact Hmade |].
  split; [exact (Hresult eq_refl) |].
  split; [exact Hquiet | exact (Hsame eq_refl)].
Defined.

(** ** The workspace setup cell (Exercise 1) *)

Section WorkspaceCell.
Variables SUBSCRIPTION_ID RESOURCE_GROUP_NAME WORKSPACE_NAME REGION : string.

Let cell := Ex1.workspace_cell SUBSCRIPTION_ID RESOURCE_GROUP_NAME WORKSPACE_NAME REGION.
Let lookup := EWorkspace WORKSPACE_NAME SUBSCRIPTION_ID RESOURCE_GROUP_NAME.
Let create := EWorkspaceCreate WORKSPACE_NAME SUBSCRIPTION_ID RESOURCE_GROUP_NAME true REGION.
Let found := FoundWorkspace WORKSPACE_NAME SUBSCRIPTION_ID RESOURCE_GROUP_NAME.
Let created := CreatedWorkspace WORKSPACE_NAME SUBSCRIPTION_ID RESOURCE_GROUP_NAME REGION.

(** Every run of the cell is one of these. *)
Lemma workspace_cell_runs (o : oracle) (v0 : option workspace) :
  match o 0 with
  | None =>
      cell o v0 = ([lookup; EWriteConfig found], Some found,
                   match o 1 with Some e => Raise e | None => Ok tt end)
  | Some e =>
      if isinstance e "Exception" then
        match exn_message e with
        | None => cell o v0 = ([lookup], None, Raise AttributeError)
        | Some _ =>
            match o 1 with
            | Some e' => cell o v0 = ([lookup; create], None, Raise e')
            | None =>
                cell o v0 = ([lookup; create; EWriteConfig created], Some created,
                             match o 2 with Some e'' => Raise e'' | None => Ok tt end)
            end
        end
      else cell o v0 = ([lookup], None, Raise e)
  end.
Proof.
  unfold cell, Ex1.workspace_cell, Ex1.print_message, bind, try_finally, try_except,
    call, put, get, ret, raise, shift; simpl.
  destruct (o 0) as [e |] eqn:H0; simpl.
  - destruct (isinstance e "Exception") eqn:Hc; simpl; [| reflexivity].
    destruct (exn_message e) as [m |] eqn:Hm; simpl; [| reflexivity].
    destruct (o 1) as [e' |] eqn:H1; simpl; [reflexivity |].
    destruct (o 2) as [e'' |] eqn:H2; simpl; reflexivity.
  - destruct (o 1) as [e' |] eqn:H1; simpl; reflexivity.
Qed.

End WorkspaceCell.

(** C6 (amended).  In the workspace setup cell the lookup is made first.
    When it returns, its workspace is the value of [ws] and is saved
    with [write_config].  When it raises an exception that is an
    instance of [Exception] and has a message to print, the creation of
    the workspace is attempted with [create_resource_group=True]: a
    creation that returns makes the created workspace the value of [ws]
    and it is saved; a creation that fails leaves [ws] at [None] and
    ends the cell with its exception.  When the lookup raises an
    exception that is not an [Exception], the lookup is the only call
    made, [ws] stays [None] and the exception ends the cell.  In every
    outcome [write_config] is called on a workspace exactly when that
    workspace is the value of [ws] at the [finally] block; when lookup
    and creation both fail, [ws] is [None] and no configuration is
    written. *)
Theorem workspace_config_written_iff_handle
    (SUBSCRIPTION_ID RESOURCE_GROUP_NAME WORKSPACE_NAME REGION : string)
    (o : oracle) (v0 : option workspace)
    (t : trace) (ws : option workspace) (r : result unit) :
  Ex1.workspace_cell SUBSCRIPTION_ID RESOURCE_GROUP_NAME WORKSPACE_NAME REGION o v0
  = (t, ws, r) ->
  let lookup := EWorkspace WORKSPACE_NAME SUBSCRIPTION_ID RESOURCE_GROUP_NAME in
  let create :=
    EWorkspaceCreate WORKSPACE_NAME SUBSCRIPTION_ID RESOURCE_GROUP_NAME true REGION in
  let found := FoundWorkspace WORKSPACE_NAME SUBSCRIPTION_ID RESOURCE_GROUP_NAME in
  let created :=
    CreatedWorkspace WORKSPACE_NAME SUBSCRIPTION_ID RESOURCE_GROUP_NAME REGION in
  nth_error t 0 = Some lookup
  /\ (o 0 = None -> t = [lookup; EWriteConfig found] /\ ws = Some found)
  /\ (forall e m, o 0 = Some e -> isinstance e "Exception" = true ->
        exn_message e = Some m ->
        nth_error t 1 = Some create
        /\ (o 1 = None -> t = [lookup; create; EWriteConfig created] /\ ws = Some created)
        /\ (forall e', o 1 = Some e' -> t = [lookup; create] /\ ws = None /\ r = Raise e'))
  /\ (forall e, o 0 = Some e -> isinstance e "Exception" = false ->
        t = [lookup] /\ ws = None /\ r = Raise e)
  /\ (forall w, In (EWriteConfig w) t <-> ws = Some w)
  /\ (forall e e', o 0 = Some e -> o 1 = Some e' ->
        ws = None /\ forall w, ~ In (EWriteConfig w) t).
Proof.
  intros Hrun lookup create found created.
  pose proof (workspace_cell_runs SUBSCRIPTION_ID RESOURCE_GROUP_NAME WORKSPACE_NAME
                REGION o v0) as Hcases.
  rewrite Hrun in Hcases.
  destruct (o 0) as [e |] eqn:H0.
  - destruct (isinstance e "Exception") eqn:Hc.
    + destruct (exn_message e) as [m |] eqn:Hm.
      * destruct (o 1) as [e' |] eqn:H1; inversion Hcases; subst; simpl;
          (split; [reflexivity |]); (split; [discriminate |]);
          (split; [intros e0 m0 He0 _ _; inversion He0; subst e0;
                   split; [reflexivity |]; split;
                   [intros Hn; first [discriminate Hn | split; reflexivity]
                   | intros e1 He1; first [discriminate He1
                                          | inversion He1; subst; repeat split; reflexivity]]
                  |]);
          (split; [intros e0 He0 Hn; inversion He0; subst e0; congruence |]); split.
        -- intros w; split; [intros [H | [H | []]]; discriminate | discriminate].
        -- intros ? ? _ _. split; [reflexivity |].
           intros w [H | [H | []]]; discriminate.
        -- intros w; split.
           ++ intros [H | [H | [H | []]]]; try discriminate. inversion H; reflexivity.
           ++ intros H; inversion H; subst. right; right; left; reflexivity.
        -- intros ? ? _ H; discriminate.
      * inversion Hcases; subst; simpl.
        split; [reflexivity |]. split; [discriminate |].
        split; [intros ? ? H; inversion H; subst; congruence |].
        split; [intros e0 He0 Hn; inversion He0; subst e0; congruence |].
        split.
        -- intros w; split; [intros [H | []]; discriminate | discriminate].
        -- intros ? ? _ _. split; [reflexivity |]. intros w [H | []]; discriminate.
    + inversion Hcases; subst; simpl.
      split; [reflexivity |]. split; [discriminate |].
      split; [intros ? ? H; inversion H; subst; congruence |].
      split; [intros e0 He0 _; inversion He0; subst e0; repeat split; reflexivity |].
      split.
      * intros w; split; [intros [H | []]; discriminate | discriminate].
      * intros ? ? _ _. split; [reflexivity |]. intros w [H | []]; discriminate.
  - inversion Hcases; subst; simpl.
    split; [reflexivity |]. split; [intros _; split; reflexivity |].
    split; [intros ? ? H; discriminate |].
    split; [intros ? H; discriminate |]. split.
    + intros w; split.
      * intros [H | [H | []]]; try discriminate. inversion H; reflexivity.
      * intros H; inversion H; subst. right; left; reflexivity.
    + intros ? ? H; discriminate.
Qed.

Definition WorkspaceException : exn :=
  mkExn ["WorkspaceException"; "AzureMLException"; "Exception";
         "BaseException"; "object"]
        (Some "Workspace not found.").

Lemma workspace_config_written_iff_handle_witness :
  let cell := Ex1.workspace_cell "<YOUR_AZURE_SUBSCRIPTION_ID>" "aml-resource-group"
                "aml-workspace" "eastus2" in
  let created := CreatedWorkspace "aml-workspace" "<YOUR_AZURE_SUBSCRIPTION_ID>"
                   "aml-resource-group" "eastus2" in
  let t := [EWorkspace "aml-workspace" "<YOUR_AZURE_SUBSCRIPTION_ID>" "aml-resource-group";
            EWorkspaceCreate "aml-workspace" "<YOUR_AZURE_SUBSCRIPTION_ID>"
              "aml-resource-group" true "eastus2";
            EWriteConfig created] in
  cell (fail_at 0 WorkspaceException) None = (t, Some created, Ok tt)
  /\ nth_error t 1 = Some (EWorkspaceCreate "aml-workspace" "<YOUR_AZURE_SUBSCRIPTION_ID>"
                             "aml-resource-group" true "eastus2")
  /\ In (EWriteConfig created) t.
Proof.
  intros cell created t.
  split; [reflexivity |].
  destruct (workspace_config_written_iff_handle
              "<YOUR_AZURE_SUBSCRIPTION_ID>" "aml-resource-group" "aml-workspace"
              "eastus2" (fail_at 0 WorkspaceException) None t (Some created) (Ok tt)
              eq_refl) as (_ & _ & Hcreate & _ & Hwrite & _).
  split.
  - exact (proj1 (Hcreate WorkspaceException "Workspace not found." eq_refl eq_refl
                    eq_refl)).
  - exact (proj2 (Hwrite created) eq_refl).
Defined.

(** C6 as stated fails: an exception that is not an [Exception] (the
    reader interrupting the lookup) passes the handler by, and no
    creation is attempted. *)
Lemma workspace_not_created_on_interrupt :
  Ex1.workspace_cell "<YOUR_AZURE_SUBSCRIPTION_ID>" "aml-resource-group"
    "aml-workspace" "eastus2" (fail_at 0 KeyboardInterrupt) None
  = ([EWorkspace "aml-workspace" "<YOUR_AZURE_SUBSCRIPTION_ID>" "aml-resource-group"],
     None, Raise KeyboardInterrupt).
Proof. reflexivity. Qed.

(** ** Code without handlers stops at the first failing call *)

(** In a run of [c], a call the platform fails is the last call made,
    and its exception is the outcome of [c]. *)
Definition halts_at_failure {V A} (c : M V A) : Prop :=
  forall o v t v' r, c o v = (t, v', r) ->
  forall k e, o k = Some e -> k < List.length t ->
    r = Raise e /\ S k = List.length t.

Lemma halts_ret {V A} (a : A) : halts_at_failure (@ret V A a).
Proof. intros o v t v' r H k e _ Hk. inversion H; subst. simpl in Hk. lia. Qed.

Lemma halts_raise {V A} (e : exn) : halts_at_failure (@raise V A e).
Proof. intros o v t v' r H k e' _ Hk. inversion H; subst. simpl in Hk. lia. Qed.

Lemma halts_lift_result {V A} (x : result A) : halts_at_failure (@lift_result V A x).
Proof. intros o v t v' r H k e' _ Hk. inversion H; subst. simpl in Hk. lia. Qed.

Lemma halts_call {V A} (ev : event) (a : A) : halts_at_failure (@call V A ev a).
Proof.
  intros o v t v' r H k e Hf Hk. unfold call in H. inversion H; subst.
  simpl in Hk. assert (k = 0) by lia. subst k. rewrite Hf. auto.
Qed.

Lemma halts_bind {V A B} (c : M V A) (f : A -> M V B) :
  halts_at_failure c -> (forall a, halts_at_failure (f a)) ->
  halts_at_failure (bind c f).
Proof.
  intros Hc Hf o v t v' r H k e Hk Hlen.
  destruct (bind_inv _ _ _ _ _ _ _ H) as [(t1 & v1 & a & t2 & H1 & H2 & ->) | (e1 & H1 & ->)].
  - rewrite length_app in *.
    destruct (Nat.lt_ge_cases k (List.length t1)) as [Hlt | Hge].
    + destruct (Hc _ _ _ _ _ H1 k e Hk Hlt) as [Habs _]. discriminate.
    + assert (Hk' : shift (List.length t1) o (k - List.length t1) = Some e).
      { unfold shift. replace (List.length t1 + (k - List.length t1)) with k by lia.
        exact Hk. }
      destruct (Hf a _ _ _ _ _ H2 _ e Hk' ltac:(lia)) as [-> Hlast].
      split; [reflexivity | lia].
  - destruct (Hc _ _ _ _ _ H1 k e Hk Hlen) as [Heq Hlast].
    inversion Heq; subst. auto.
Qed.

Lemma halts_for_each {V A} (xs : list A) (body : A -> M V unit) :
  (forall x, halts_at_failure (body x)) -> halts_at_failure (for_each xs body).
Proof.
  intros Hb. induction xs as [| x rest IH]; simpl.
  - apply halts_ret.
  - apply halts_bind; [apply Hb | intros _; exact IH].
Qed.

Lemma halts_list_comp {V A B} (xs : list A) (f : A -> M V B) :
  (forall x, halts_at_failure (f x)) -> halts_at_failure (list_comp xs f).
Proof.
  intros Hf. induction xs as [| x rest IH]; simpl.
  - apply halts_ret.
  - apply halts_bind; [apply Hf | intros y].
    apply halts_bind; [exact IH | intros ys; apply halts_ret].
Qed.

Lemma halts_calls {V} (names : list string) : halts_at_failure (@calls V names).
Proof. apply halts_for_each. intros n. apply halts_call. Qed.

Lemma halts_name_lookup {V} (imports : list string) (name : string) :
  halts_at_failure (@name_lookup V imports name).
Proof.
  unfold name_lookup. destruct (existsb _ imports); [apply halts_ret | apply halts_raise].
Qed.

(** What may follow a failed call [k] of a run: nothing, the run
    ending with its exception; or the one call that closes a file as
    the [with] block around the failure is left, the run ending with an
    exception all the same. *)
Definition after_failure {A} (t : trace) (r : result A) (k : nat) (e : exn) : Prop :=
  (r = Raise e /\ S k = List.length t)
  \/ (is_ok r = false /\ exists path, skipn (S k) t = [EClose path]).

Definition propagates {V A} (c : M V A) : Prop :=
  forall o v t v' r, c o v = (t, v', r) ->
  forall k e, o k = Some e -> k < List.length t -> after_failure t r k e.

Lemma halts_propagates {V A} (c : M V A) : halts_at_failure c -> propagates c.
Proof.
  intros Hc o v t v' r H k e Hk Hlen. left. exact (Hc _ _ _ _ _ H k e Hk Hlen).
Qed.

Lemma after_failure_not_ok {A} (t : trace) (r : result A) k e :
  after_failure t r k e -> exists e', r = Raise e'.
Proof.
  intros [[-> _] | [Hr _]]; [eauto |].
  destruct r; [discriminate | eauto].
Qed.

Lemma propagates_bind {V A B} (c : M V A) (f : A -> M V B) :
  propagates c -> (forall a, propagates (f a)) -> propagates (bind c f).
Proof.
  intros Hc Hf o v t v' r H k e Hk Hlen.
  destruct (bind_inv _ _ _ _ _ _ _ H) as [(t1 & v1 & a & t2 & H1 & H2 & ->) | (e1 & H1 & ->)].
  - rewrite length_app in Hlen.
    destruct (Nat.lt_ge_cases k (List.length t1)) as [Hlt | Hge].
    + destruct (after_failure_not_ok _ _ _ _ (Hc _ _ _ _ _ H1 k e Hk Hlt)) as [e' He'].
      discriminate.
    + assert (Hk' : shift (List.length t1) o (k - List.length t1) = Some e).
      { unfold shift. replace (List.length t1 + (k - List.length t1)) with k by lia.
        exact Hk. }
      destruct (Hf a _ _ _ _ _ H2 _ e Hk' ltac:(lia)) as [[-> Hlast] | [Hr [p Hp]]].
      * left. split; [reflexivity | rewrite length_app; lia].
      * right. split; [exact Hr |]. exists p.
        rewrite skipn_app, (skipn_all2 t1) by lia.
        replace (S k - List.length t1) with (S (k - List.length t1)) by lia.
        exact Hp.
  - destruct (Hc _ _ _ _ _ H1 k e Hk Hlen) as [[Heq Hlast] | [Hr Hp]].
    + inversion Heq; subst. left. auto.
    + right. split; [reflexivity | exact Hp].
Qed.

(** Leaving a [with] block closes the file, whatever the block did. *)
Lemma propagates_with_block {V A} (body : M V A) (path : string) :
  halts_at_failure body -> propagates (try_finally body (call (EClose path) tt)).
Proof.
  intros Hb o v t v' r H k e Hk Hlen. unfold try_finally, call in H.
  destruct (body o v) as [[t1 v1] r1] eqn:H1.
  assert (Ht : t = t1 ++ [EClose path]).
  { destruct (shift (List.length t1) o 0); inversion H; reflexivity. }
  subst t. rewrite length_app in Hlen. simpl in Hlen.
  destruct (Nat.lt_ge_cases k (List.length t1)) as [Hlt | Hge].
  - destruct (Hb _ _ _ _ _ H1 k e Hk Hlt) as [-> Hlast].
    right. split.
    + destruct (shift (List.length t1) o 0); inversion H; reflexivity.
    + exists path. rewrite skipn_app, (skipn_all2 t1) by lia.
      replace (S k - List.length t1) with 0 by lia. reflexivity.
  - assert (k = List.length t1) by lia. subst k.
    unfold shift in H. rewrite Nat.add_0_r, Hk in H. inversion H; subst.
    left. split; [reflexivity | rewrite length_app; simpl; lia].
Qed.

Ltac halts :=
  repeat first
    [ apply halts_bind; [| intros ?]
    | apply halts_for_each; intros ?
    | apply halts_list_comp; intros ?
    | apply halts_ret | apply halts_raise | apply halts_lift_result
    | apply halts_call | apply halts_calls | apply halts_name_lookup
    | match goal with |- halts_at_failure (match ?x with _ => _ end) => destruct x end ].

Lemma halts_train_and_evaluate acc auc imports reg :
  halts_at_failure (Training.train_and_evaluate acc auc imports reg).
Proof. unfold Training.train_and_evaluate. halts. Qed.

(** ** Scripts signal completion last *)

(** Every call [c] makes, in every run, satisfies [P]. *)
Definition emits {V A} (P : event -> Prop) (c : M V A) : Prop :=
  forall o v t v' r, c o v = (t, v', r) -> Forall P t.

Section Emits.
Context {V : Type} (P : event -> Prop).

Lemma emits_ret {A} (a : A) : emits P (@ret V A a).
Proof. intros o v t v' r H. inversion H. constructor. Qed.

Lemma emits_raise {A} (e : exn) : emits P (@raise V A e).
Proof. intros o v t v' r H. inversion H. constructor. Qed.

Lemma emits_lift_result {A} (x : result A) : emits P (@lift_result V A x).
Proof. intros o v t v' r H. inversion H. constructor. Qed.

Lemma emits_call {A} (ev : event) (a : A) : P ev -> emits P (@call V A ev a).
Proof. intros Hev o v t v' r H. inversion H. repeat constructor. exact Hev. Qed.

Lemma emits_bind {A B} (c : M V A) (f : A -> M V B) :
  emits P c -> (forall a, emits P (f a)) -> emits P (bind c f).
Proof.
  intros Hc Hf o v t v' r H.
  destruct (bind_inv _ _ _ _ _ _ _ H) as [(t1 & v1 & a & t2 & H1 & H2 & ->) | (e1 & H1 & ->)].
  - apply Forall_app. split; [exact (Hc _ _ _ _ _ H1) | exact (Hf a _ _ _ _ _ H2)].
  - exact (Hc _ _ _ _ _ H1).
Qed.

(** What follows a computed value knows the value. *)
Lemma emits_bind_lift {A B} (x : result A) (f : A -> M V B) :
  (forall a, x = Ok a -> emits P (f a)) -> emits P (bind (lift_result x) f).
Proof.
  intros Hf o v t v' r H.
  destruct (bind_inv _ _ _ _ _ _ _ H) as [(t1 & v1 & a & t2 & H1 & H2 & ->) | (e1 & H1 & ->)].
  - apply lift_result_inv in H1 as (-> & -> & Hx). simpl.
    exact (Hf a (eq_sym Hx) _ _ _ _ _ H2).
  - apply lift_result_inv in H1 as (-> & _ & _). constructor.
Qed.

Lemma emits_for_each {A} (xs : list A) (body : A -> M V unit) :
  (forall x, emits P (body x)) -> emits P (for_each xs body).
Proof.
  intros Hb. induction xs as [| x rest IH]; simpl.
  - apply emits_ret.
  - apply emits_bind; [apply Hb | intros _; exact IH].
Qed.

Lemma emits_list_comp {A B} (xs : list A) (f : A -> M V B) :
  (forall x, emits P (f x)) -> emits P (list_comp xs f).
Proof.
  intros Hf. induction xs as [| x rest IH]; simpl.
  - apply emits_ret.
  - apply emits_bind; [apply Hf | intros y].
    apply emits_bind; [exact IH | intros ys; apply emits_ret].
Qed.

Lemma emits_calls (names : list string) :
  (forall n, P (ECall n)) -> emits P (@calls V names).
Proof. intros HP. apply emits_for_each. intros n. apply emits_call. apply HP. Qed.

Lemma emits_name_lookup (imports : list string) (name : string) :
  emits P (@name_lookup V imports name).
Proof.
  unfold name_lookup. destruct (existsb _ imports); [apply emits_ret | apply emits_raise].
Qed.

Lemma emits_try_finally {A} (body : M V A) (fin : M V unit) :
  emits P body -> emits P fin -> emits P (try_finally body fin).
Proof.
  intros Hb Hf o v t v' r H. unfold try_finally in H.
  destruct (body o v) as [[t1 v1] r1] eqn:H1.
  destruct (fin (shift (List.length t1) o) v1) as [[t2 v2] r2] eqn:H2.
  assert (t = t1 ++ t2) by (destruct r2; inversion H; reflexivity). subst t.
  apply Forall_app. split; [exact (Hb _ _ _ _ _ H1) | exact (Hf _ _ _ _ _ H2)].
Qed.

End Emits.

(** [emits P c], the calls checked against [P] by [check]. *)
Ltac emits_with check :=
  repeat first
    [ apply emits_bind_lift; intros ? ?
    | apply emits_bind; [| intros ?]
    | apply emits_for_each; intros ?
    | apply emits_list_comp; intros ?
    | apply emits_try_finally
    | apply emits_ret | apply emits_raise | apply emits_lift_result
    | apply emits_name_lookup
    | apply emits_calls; intros ?; check
    | apply emits_call; check
    | match goal with |- emits _ (match ?x with _ => _ end) => destruct x end ].

Definition not_complete (ev : event) : Prop := is_complete ev = false.

(** [c] never signals completion. *)
Definition quiet {V A} (c : M V A) : Prop := emits not_complete c.

(** [c] signals completion as its last call, or fails before reaching it. *)
Definition closing {V A} (c : M V A) : Prop :=
  forall o v t v' r, c o v = (t, v', r) ->
  exists tb, Forall not_complete tb /\
             (t = tb ++ [ERunComplete] \/ (t = tb /\ is_ok r = false)).

Ltac quiet := unfold quiet; emits_with ltac:(reflexivity).

Lemma closing_complete {V} : closing (@call V unit ERunComplete tt).
Proof.
  intros o v t v' r H. unfold call in H. inversion H; subst.
  exists []. split; [constructor | left; reflexivity].
Qed.

Lemma closing_bind {V A B} (c : M V A) (f : A -> M V B) :
  quiet c -> (forall a, closing (f a)) -> closing (bind c f).
Proof.
  intros Hc Hf o v t v' r H.
  destruct (bind_inv _ _ _ _ _ _ _ H) as [(t1 & v1 & a & t2 & H1 & H2 & ->) | (e1 & H1 & ->)].
  - destruct (Hf a _ _ _ _ _ H2) as (tb & Htb & [-> | [-> Hr]]).
    + exists (t1 ++ tb). split.
      * apply Forall_app. split; [exact (Hc _ _ _ _ _ H1) | exact Htb].
      * left. apply app_assoc.
    + exists (t1 ++ tb). split.
      * apply Forall_app. split; [exact (Hc _ _ _ _ _ H1) | exact Htb].
      * right. auto.
  - exists t. split; [exact (Hc _ _ _ _ _ H1) | right; auto].
Qed.

Ltac closing :=
  repeat (apply closing_bind; [solve [quiet] | intros ?]);
  apply closing_complete.

Lemma closing_train_and_evaluate acc auc imports reg :
  closing (Training.train_and_evaluate acc auc imports reg).
Proof. unfold Training.train_and_evaluate. closing. Qed.

(** What [closing] says about the places of the completion signal. *)
Lemma complete_is_final (t tb t1 t2 : trace) :
  Forall not_complete tb ->
  t = tb ++ [ERunComplete] \/ t = tb ->
  t = t1 ++ ERunComplete :: t2 ->
  t2 = [] /\ Forall not_complete t1.
Proof.
  intros Htb Ht Hsplit.
  assert (Hnot : forall l1 l2, tb <> l1 ++ ERunComplete :: l2).
  { intros l1 l2 Heq. rewrite Heq in Htb. apply Forall_app in Htb as [_ Hc].
    inversion Hc as [| ? ? Hx _]. discriminate Hx. }
  destruct Ht as [-> | ->]; [| exfalso; exact (Hnot _ _ Hsplit)].
  revert t1 Hsplit Hnot. induction tb as [| x tb IH]; intros t1 Hsplit Hnot.
  - destruct t1 as [| y t1]; simpl in Hsplit.
    + inversion Hsplit; subst. split; [reflexivity | constructor].
    + inversion Hsplit as [[Hy Hrest]]. destruct t1; discriminate.
  - destruct t1 as [| y t1]; simpl in Hsplit.
    + inversion Hsplit; subst. exfalso. exact (Hnot [] tb eq_refl).
    + inversion Hsplit as [[Hy Hrest]]. subst y.
      inversion Htb as [| ? ? Hx Htb']; subst.
      destruct (IH Htb' t1 Hrest) as [-> Ht1].
      { intros l1 l2 Heq. apply (Hnot (x :: l1) l2). simpl. rewrite Heq. reflexivity. }
      split; [reflexivity | constructor; assumption].
Qed.

(** [c] never returns, and every call it makes satisfies [P]. *)
Definition stops_short {V A} (P : event -> Prop) (c : M V A) : Prop :=
  forall o v t v' r, c o v = (t, v', r) -> Forall P t /\ is_ok r = false.

Lemma stops_short_unbound {V A} (P : event -> Prop) (imports : list string)
    (name : string) (f : unit -> M V A) :
  existsb (String.eqb name) imports = false ->
  stops_short P (bind (name_lookup imports name) f).
Proof.
  intros Hun o v t v' r H. unfold bind, name_lookup in H. rewrite Hun in H.
  inversion H; subst. split; [constructor | reflexivity].
Qed.

Lemma stops_short_bind {V A B} (P : event -> Prop) (c : M V A) (f : A -> M V B) :
  emits P c -> (forall a, stops_short P (f a)) -> stops_short P (bind c f).
Proof.
  intros Hc Hf o v t v' r H.
  destruct (bind_inv _ _ _ _ _ _ _ H) as [(t1 & v1 & a & t2 & H1 & H2 & ->) | (e1 & H1 & ->)].
  - destruct (Hf a _ _ _ _ _ H2) as [Ht2 Hr]. split; [| exact Hr].
    apply Forall_app. split; [exact (Hc _ _ _ _ _ H1) | exact Ht2].
  - split; [exact (Hc _ _ _ _ _ H1) | reflexivity].
Qed.

(** [stops_short P c] for a script [c] that reads a name it has not
    imported, the calls before that checked against [P] by [check]. *)
Ltac stops_short check :=
  cbv zeta;
  repeat first
    [ solve [apply stops_short_unbound; reflexivity]
    | apply stops_short_bind; [solve [emits_with check] | intros ?] ].

(** ** The scripts the notebooks write *)

Section Scripts.
(* what the library calls of the scripts return, and their command line *)
Variables acc auc : float.
Variable data : dataframe.
Variable mean_by_age : list (Z * float).
Variable prediction : Type.
Variable model_path : string.
Variable glob : string -> list string.
Variable genfromtxt : string -> list float.
Variable predict : list (list float) -> list prediction.
Variable str : prediction -> string.
Variable argv : list arg.

(** Every experiment, training, registration and batch-scoring script,
    in the order of the exercises. *)
Definition scripts : list (string * M unit unit) :=
  [("Exercise 2 diabetes_experiment.py", Ex2.diabetes_experiment data mean_by_age);
   ("Exercise 3 diabetes_training.py, fixed rate", Ex3.diabetes_training_fixed acc auc argv);
   ("Exercise 3 diabetes_training.py, estimator", Ex3.diabetes_training_estimator acc auc argv);
   ("Exercise 3 diabetes_training.py, data folder",
    Ex3.diabetes_training_datafolder acc auc argv);
   ("Exercise 4 diabetes_training.py", Ex4.diabetes_training acc auc argv);
   ("Exercise 5 diabetes_training.py", Ex5.diabetes_training acc auc argv);
   ("Exercise 7 train_diabetes.py", Ex7.train_diabetes argv);
   ("Exercise 7 register_diabetes.py", Ex7.register_diabetes argv);
   ("Exercise 8 batch_diabetes.py",
    Ex8.batch_diabetes prediction model_path glob genfromtxt predict str argv)].

Lemma scripts_closing : Forall (fun s => closing (snd s)) scripts.
Proof.
  unfold scripts.
  repeat (apply Forall_cons; [simpl |]); try apply Forall_nil.
  - unfold Ex2.diabetes_experiment, Ex2.experiment_body. closing.
  - unfold Ex3.diabetes_training_fixed, Training.train_and_evaluate. closing.
  - unfold Ex3.diabetes_training_estimator, Training.train_and_evaluate. closing.
  - unfold Ex3.diabetes_training_datafolder, Training.train_and_evaluate. closing.
  - unfold Ex4.diabetes_training, Training.train_and_evaluate. closing.
  - unfold Ex5.diabetes_training, Training.train_and_evaluate. closing.
  - unfold Ex7.train_diabetes. closing.
  - unfold Ex7.register_diabetes. closing.
  - unfold Ex8.batch_diabetes. closing.
Qed.

(** The scripts that call [os.makedirs] and have no [import os]. *)
Definition scripts_without_os : list string :=
  ["Exercise 3 diabetes_training.py, fixed rate";
   "Exercise 3 diabetes_training.py, estimator";
   "Exercise 4 diabetes_training.py";
   "Exercise 5 diabetes_training.py";
   "Exercise 7 train_diabetes.py"].

Lemma scripts_without_os_never_complete (name : string) (script : M unit unit) :
  In (name, script) scripts -> In name scripts_without_os ->
  stops_short not_complete script.
Proof.
  unfold scripts, scripts_without_os. simpl.
  intros [H | [H | [H | [H | [H | [H | [H | [H | [H | []]]]]]]]]] Hn;
    inversion H; subst name script; clear H;
    try (exfalso; repeat (destruct Hn as [Hn | Hn]; [discriminate Hn |]); exact Hn).
  - unfold Ex3.diabetes_training_fixed, Training.train_and_evaluate.
    stops_short ltac:(reflexivity).
  - unfold Ex3.diabetes_training_estimator, Training.train_and_evaluate.
    stops_short ltac:(reflexivity).
  - unfold Ex4.diabetes_training, Training.train_and_evaluate.
    stops_short ltac:(reflexivity).
  - unfold Ex5.diabetes_training, Training.train_and_evaluate.
    stops_short ltac:(reflexivity).
  - unfold Ex7.train_diabetes. stops_short ltac:(reflexivity).
Qed.

(** C7 fails in the code.  Of the nine scripts, five call [os.makedirs]
    without importing [os]: whatever the command line and whatever the
    platform does, a run of one of them never calls [run.complete()] and
    never returns.  A run of a script that returns is a run of one of
    the four others, and has called [run.complete()] exactly once, as
    its last call.  In any run of any script nothing follows
    [run.complete()] and no earlier call is [run.complete()]. *)
Theorem run_complete_missed_without_os
    (name : string) (script : M unit unit) (o : oracle) (t : trace) (r : result unit) :
  In (name, script) scripts ->
  exec script o = (t, r) ->
  (In name scripts_without_os ->
     ~ In ERunComplete t /\ List.length (filter is_complete t) = 0 /\ is_ok r = false)
  /\ (r = Ok tt ->
        ~ In name scripts_without_os
        /\ exists tb, t = tb ++ [ERunComplete] /\ Forall not_complete tb /\
                      List.length (filter is_complete t) = 1 /\
                      last (filter is_run_op t) ERunGetContext = ERunComplete)
  /\ (forall t1 t2, t = t1 ++ ERunComplete :: t2 ->
        t2 = [] /\ Forall not_complete t1 /\ filter is_run_op t2 = []).
Proof.
  intros Hin Hrun.
  pose proof (proj1 (Forall_forall _ _) scripts_closing _ Hin) as Hc. simpl in Hc.
  unfold exec in Hrun. destruct (script o tt) as [[t' v'] r'] eqn:Hs.
  inversion Hrun; subst t' r'.
  assert (Hnone : forall l, Forall not_complete l -> filter is_complete l = []).
  { intros l Hl. induction Hl as [| x l Hx _ IH]; simpl; [reflexivity |].
    unfold not_complete in Hx. rewrite Hx. exact IH. }
  assert (Hstop : In name scripts_without_os -> Forall not_complete t /\ is_ok r = false).
  { intros Hn. exact (scripts_without_os_never_complete name script Hin Hn _ _ _ _ _ Hs). }
  destruct (Hc _ _ _ _ _ Hs) as (tb & Htb & Hshape).
  split; [| split].
  - intros Hn. destruct (Hstop Hn) as [Hq Hr]. split; [| split; [| exact Hr]].
    + intros Habs. rewrite Forall_forall in Hq. discriminate (Hq _ Habs).
    + rewrite (Hnone _ Hq). reflexivity.
  - intros ->. split.
    + intros Hn. destruct (Hstop Hn) as [_ Hr]. discriminate Hr.
    + destruct Hshape as [-> | [_ Hr]]; [| discriminate].
      exists tb. split; [reflexivity |]. split; [exact Htb |].
      rewrite !filter_app. simpl. split.
      * rewrite length_app. simpl. rewrite (Hnone _ Htb). reflexivity.
      * apply last_last.
  - intros t1 t2 Hsplit.
    destruct (complete_is_final t tb t1 t2 Htb) as [-> Ht1]; [| exact Hsplit | auto].
    destruct Hshape as [-> | [-> _]]; auto.
Qed.

End Scripts.

(** Exercise 5's training script on one point of the sweep, no call
    failing: the run ends at [os.makedirs] with [NameError], after
    [plt.show()], and [run.complete()] is not called. *)
Lemma run_complete_missed_without_os_witness :
  let script := Ex5.diabetes_training 0.78 0.85 [AStr "--regularization"; AFloat 0.1] in
  let run := exec script no_failure in
  snd run = Raise NameError
  /\ last (fst run) ERunGetContext = ECall "plt.show"
  /\ ~ In ERunComplete (fst run)
  /\ List.length (filter is_complete (fst run)) = 0.
Proof.
  intros script run. split; [reflexivity |]. split; [reflexivity |].
  destruct (run_complete_missed_without_os 0.78 0.85
              (mkDataFrame [] []) [] unit "" (fun _ => []) (fun _ => [])
              (fun _ => []) (fun _ => "")
              [AStr "--regularization"; AFloat 0.1]
              "Exercise 5 diabetes_training.py" script no_failure
              (fst run) (snd run)) as (Hmiss & _).
  - simpl. do 5 right. left. reflexivity.
  - reflexivity.
  - destruct Hmiss as (Hnot & Hcount & _).
    + simpl. do 3 right. left. reflexivity.
    + split; assumption.
Defined.

(** The training script that imports [os] and the registration script
    do reach [run.complete()] when no call fails, and call it last. *)
Lemma importing_scripts_complete :
  (forall acc auc x d,
     PrimFloat.eqb x 0 = false ->
     let run := exec (Ex3.diabetes_training_datafolder acc auc
                        [AStr "--regularization"; AFloat x; AStr "--data-folder"; AStr d])
                  no_failure in
     snd run = Ok tt
     /\ last (fst run) ERunGetContext = ERunComplete
     /\ List.length (filter is_complete (fst run)) = 1)
  /\ (forall folder,
        let run := exec (Ex7.register_diabetes [AStr "--model_folder"; AStr folder])
                     no_failure in
        snd run = Ok tt
        /\ last (fst run) ERunGetContext = ERunComplete
        /\ List.length (filter is_complete (fst run)) = 1).
Proof.
  split.
  - intros acc auc x d Hx.
    unfold exec, Ex3.diabetes_training_datafolder, Training.train_and_evaluate, bind, call,
      calls, for_each, lift_result, ret, raise, shift, name_lookup, py_truediv, no_failure.
    simpl. rewrite Hx. simpl. repeat split; reflexivity.
  - intros folder. repeat split; reflexivity.
Qed.

(** ** More inversions: loops, comprehensions, [with] blocks *)

Lemma try_finally_ok_inv {V A} (body : M V A) (fin : M V unit) o v t v' a :
  try_finally body fin o v = (t, v', Ok a) ->
  exists t1 v1 t2,
    body o v = (t1, v1, Ok a) /\
    fin (shift (List.length t1) o) v1 = (t2, v', Ok tt) /\ t = t1 ++ t2.
Proof.
  unfold try_finally. destruct (body o v) as [[t1 v1] r1] eqn:Hb.
  destruct (fin (shift (List.length t1) o) v1) as [[t2 v2] [[] | e]] eqn:Hf;
    intros H; inversion H; subst.
  exists t1, v1, t2. auto.
Qed.

Lemma list_comp_call_ok_inv {V A B} (ev : A -> event) (g : A -> B) (xs : list A)
    o (v : V) t v' ys :
  list_comp xs (fun x => call (ev x) (g x)) o v = (t, v', Ok ys) ->
  t = map ev xs /\ v' = v /\ ys = map g xs.
Proof.
  revert o t v' ys. induction xs as [| x rest IH]; intros o t v' ys H; simpl in H.
  - apply ret_inv in H as (-> & -> & Hr). inversion Hr. auto.
  - apply bind_ok_inv in H as (t1 & v1 & y & t2 & H1 & H2 & ->).
    apply call_ok_inv in H1 as (-> & -> & -> & _).
    apply bind_ok_inv in H2 as (t3 & v3 & ys' & t4 & H3 & H4 & ->).
    apply IH in H3 as (-> & -> & ->).
    apply ret_inv in H4 as (-> & -> & Hr). inversion Hr; subst.
    rewrite app_nil_r. auto.
Qed.

(** A loop that returns made, for each element in turn, the calls of a
    body that returned. *)
Lemma for_each_ok_inv {V A} (body : A -> M V unit) (calls_of : A -> trace)
    (xs : list A) :
  (forall x o v t v', body x o v = (t, v', Ok tt) -> t = calls_of x /\ v' = v) ->
  forall o v t v', for_each xs body o v = (t, v', Ok tt) ->
    t = flat_map calls_of xs /\ v' = v.
Proof.
  intros Hbody. induction xs as [| x rest IH]; intros o v t v' H; simpl in H.
  - apply ret_inv in H as (-> & -> & _). auto.
  - apply bind_ok_inv in H as (t1 & v1 & [] & t2 & H1 & H2 & ->).
    apply Hbody in H1 as (-> & ->).
    apply IH in H2 as (-> & ->). auto.
Qed.

(** ** Files *)

Lemma file_contents_app (path : string) (t1 t2 : trace) (acc : option string) :
  file_contents path (t1 ++ t2) acc = file_contents path t2 (file_contents path t1 acc).
Proof.
  revert acc. induction t1 as [| ev t1 IH]; intros acc; simpl; [reflexivity |].
  destruct ev; apply IH.
Qed.

Definition is_file_write (ev : event) : bool :=
  match ev with EOpenW _ | EWrite _ _ => true | _ => false end.

Lemma file_contents_untouched (path : string) (t : trace) (acc : option string) :
  forallb (fun ev => negb (is_file_write ev)) t = true ->
  file_contents path t acc = acc.
Proof.
  revert acc. induction t as [| ev t IH]; intros acc H; simpl in *; [reflexivity |].
  apply andb_prop in H as [Hev Ht].
  destruct ev; simpl in Hev; try discriminate; apply IH; exact Ht.
Qed.

Lemma append_nil_r (s : string) : (s ++ "")%string = s.
Proof. induction s as [| a s IH]; simpl; [reflexivity | f_equal; exact IH]. Qed.

Lemma append_assoc (s1 s2 s3 : string) :
  ((s1 ++ s2) ++ s3)%string = (s1 ++ (s2 ++ s3))%string.
Proof. induction s1 as [| a s1 IH]; simpl; [reflexivity | f_equal; exact IH]. Qed.

Lemma concat_empty_cons (x : string) (rest : list string) :
  String.concat "" (x :: rest) = (x ++ String.concat "" rest)%string.
Proof.
  destruct rest as [| y rest]; simpl; [symmetry; apply append_nil_r | reflexivity].
Qed.

Lemma file_contents_writes {A} (path : string) (text : A -> string) (xs : list A)
    (s : string) :
  file_contents path (map (fun x => EWrite path (text x)) xs) (Some s)
  = Some (s ++ String.concat "" (map text xs))%string.
Proof.
  revert s. induction xs as [| x rest IH]; intros s.
  - simpl. rewrite append_nil_r. reflexivity.
  - cbn [map file_contents]. rewrite String.eqb_refl, IH, concat_empty_cons, append_assoc.
    reflexivity.
Qed.

(** ** The batch scoring script (Exercise 8) *)

(** One step of a run that returned: the first command returned, and
    when it is a call, it is that call. *)
Ltac bind_step H :=
  let t1 := fresh "t" in
  let v1 := fresh "v" in
  let a := fresh "a" in
  let t2 := fresh "t" in
  let Hc := fresh "Hc" in
  apply bind_ok_inv in H as (t1 & v1 & a & t2 & Hc & H & ->);
  first [ apply call_ok_inv in Hc as (-> & -> & -> & _)
        | match type of a with unit => destruct a | _ => idtac end ].

Lemma flat_map_index_combine {A B C} (f : A * B -> C) (xs : list A) (ys : list B) :
  List.length ys = List.length xs ->
  flat_map (fun i => match nth_error xs i, nth_error ys i with
                     | Some x, Some y => [f (x, y)]
                     | _, _ => []
                     end) (seq 0 (List.length ys))
  = map f (combine xs ys).
Proof.
  revert ys. induction xs as [| x xs IH]; intros [| y ys] Hlen; simpl in Hlen;
    try discriminate; [reflexivity |].
  simpl. f_equal.
  rewrite <- seq_shift, flat_map_concat_map, map_map, <- flat_map_concat_map.
  simpl. apply IH. lia.
Qed.

Section BatchScoring.
Variable prediction : Type.
Variable model_path : string.
Variable glob : string -> list string.
Variable genfromtxt : string -> list float.
Variable predict : list (list float) -> list prediction.
Variable str : prediction -> string.

Let batch_diabetes := Ex8.batch_diabetes prediction model_path glob genfromtxt predict str.

(** The line the script writes for a file and its prediction, without
    the newline that ends it. *)
Definition result_line (fp : string * prediction) : string :=
  snd (os_path_split (fst fp)) ++ ": " ++ str (snd fp).

(** The folder the script reads: [--input_dir], or its default. *)
Definition input_dir_of (argv : list arg) : result string :=
  match parse_args ["--input_dir"] argv with
  | Ok ps => arg_str_default ps "--input_dir" "batch_data"
  | Raise e => Raise e
  end.

Lemma write_loop_calls (file_names : list string) (predictions : list prediction)
    (path : string) (n : nat) o (v : unit) t v' :
  for_each (range n) (fun i =>
      file_name <- lift_result (py_index file_names i) ;;
      p <- lift_result (py_index predictions i) ;;
      call (EWrite path (snd (os_path_split file_name) ++ ": " ++ str p ++ newline)) tt)
    o v = (t, v', Ok tt) ->
  n = List.length predictions ->
  n = List.length file_names ->
  t = map (fun fp => EWrite path (result_line fp ++ newline))
        (combine file_names predictions).
Proof.
  intros H Hp Hf.
  apply (for_each_ok_inv _
           (fun i => match nth_error file_names i, nth_error predictions i with
                     | Some f, Some p => [EWrite path (result_line (f, p) ++ newline)]
                     | _, _ => []
                     end)) in H.
  - destruct H as [-> _]. unfold range. subst n.
    apply (flat_map_index_combine
             (fun fp => EWrite path (result_line fp ++ newline))).
    exact Hf.
  - clear. intros i o v t v' H.
    apply bind_ok_inv in H as (t1 & v1 & f & t2 & H1 & H2 & ->).
    apply lift_result_inv in H1 as (-> & -> & Hf).
    apply bind_ok_inv in H2 as (t3 & v3 & p & t4 & H3 & H4 & ->).
    apply lift_result_inv in H3 as (-> & -> & Hp).
    apply call_ok_inv in H4 as (-> & -> & _ & _).
    unfold py_index in Hf, Hp.
    destruct (nth_error file_names i); [| discriminate]. inversion Hf; subst.
    destruct (nth_error predictions i); [| discriminate]. inversion Hp; subst.
    unfold result_line. cbn [fst snd app]. rewrite !append_assoc. auto.
Qed.

Lemma batch_diabetes_trace (argv : list arg) o t :
  exec (batch_diabetes argv) o = (t, Ok tt) ->
  exists input_dir,
    input_dir_of argv = Ok input_dir /\
    let file_names := glob (os_path_join input_dir "*.csv") in
    let predictions := predict (map genfromtxt file_names) in
    List.length predictions = List.length file_names ->
    t = [ERunGetContext; ERunLog "Input Folder" (VStr input_dir);
         ECall "Model.get_model_path"; EJoblibLoad model_path; ECall "glob";
         ERunLog "File Count" (VInt (Z.of_nat (List.length file_names)))]
        ++ map (fun _ => ECall "np.genfromtxt") file_names
        ++ [ECall "np.asarray"; ECall "model.predict"; EMakedirs "outputs";
            EOpenW "outputs/results.txt"]
        ++ map (fun fp => EWrite "outputs/results.txt" (result_line fp ++ newline))
             (combine file_names predictions)
        ++ [EFlush "outputs/results.txt"; EClose "outputs/results.txt";
            EClose "outputs/results.txt"; ERunComplete].
Proof.
  unfold exec. destruct (batch_diabetes argv o tt) as [[t' v'] r'] eqn:H.
  intros Heq; inversion Heq; subst t' r'. clear Heq.
  unfold batch_diabetes, Ex8.batch_diabetes in H.
  bind_step H.
  bind_step H. apply lift_result_inv in Hc as (-> & -> & Hps).
  bind_step H. apply lift_result_inv in Hc as (-> & -> & Hdir).
  rename a0 into input_dir.
  exists input_dir. split.
  { unfold input_dir_of. rewrite <- Hps. symmetry. exact Hdir. }
  intros Hlen.
  do 5 bind_step H.
  bind_step H. apply list_comp_call_ok_inv in Hc as (-> & -> & ->).
  do 4 bind_step H.
  bind_step H. apply try_finally_ok_inv in Hc as (t3 & v3 & t4 & Hbody & Hfin & ->).
  bind_step Hbody.
  apply write_loop_calls in Hc; [| reflexivity | exact Hlen].
  apply call_ok_inv in Hbody as (-> & -> & _ & _).
  apply call_ok_inv in Hfin as (-> & -> & _ & _).
  bind_step H.
  apply call_ok_inv in H as (-> & -> & _ & _).
  subst.
  change (os_path_join "outputs" "results.txt") with "outputs/results.txt".
  cbn [app]. rewrite <- !app_assoc. reflexivity.
Qed.

End BatchScoring.

(** ** Base names and lines *)

Lemma rfind_from_absent (s : string) (pos last : Z) :
  has_slash s = false -> rfind_from slash s pos last = last.
Proof.
  revert pos last. induction s as [| a s IH]; intros pos last H; simpl in *.
  - reflexivity.
  - apply orb_false_iff in H as [Ha Hs]. rewrite Ha. apply IH. exact Hs.
Qed.

Lemma rfind_from_last_slash (p n : string) (pos last : Z) :
  has_slash n = false ->
  rfind_from slash (p ++ String slash n) pos last = (pos + Z.of_nat (String.length p))%Z.
Proof.
  intros Hn. revert pos last. induction p as [| a p IH]; intros pos last.
  - cbn [append rfind_from String.length]. rewrite Ascii.eqb_refl.
    rewrite (rfind_from_absent n _ _ Hn). lia.
  - cbn [append rfind_from String.length]. rewrite IH. lia.
Qed.

Lemma str_drop_append (p s : string) : str_drop (String.length p) (p ++ s) = s.
Proof. induction p as [| a p IH]; simpl; [destruct s; reflexivity | exact IH]. Qed.

Lemma os_path_split_tail (p n : string) :
  has_slash n = false -> snd (os_path_split (p ++ String slash n)) = n.
Proof.
  intros Hn. unfold os_path_split. cbn [snd]. unfold rfind.
  rewrite (rfind_from_last_slash p n 0 (-1) Hn).
  replace (Z.to_nat (0 + Z.of_nat (String.length p) + 1)) with (S (String.length p)) by lia.
  change (S (String.length p)) with (String.length (String slash p)).
  clear Hn. induction p as [| a p IH]; simpl; [destruct n; reflexivity |].
  exact IH.
Qed.

Lemma os_path_split_no_slash (n : string) :
  has_slash n = false -> snd (os_path_split n) = n.
Proof.
  intros Hn. unfold os_path_split. cbn [snd]. unfold rfind.
  rewrite (rfind_from_absent n 0 (-1) Hn). simpl. destruct n; reflexivity.
Qed.

Lemma ends_with_slash_inv (d : string) :
  ends_with_slash d = true -> exists p, d = (p ++ String slash EmptyString)%string.
Proof.
  induction d as [| a d IH]; simpl; [discriminate |].
  destruct d as [| b d'].
  - intros Ha. apply Ascii.eqb_eq in Ha. subst a. exists EmptyString. reflexivity.
  - intros H. destruct (IH H) as [p Hp]. exists (String a p). simpl. rewrite <- Hp.
    reflexivity.
Qed.

(** The base name of a file found in a folder is the name it has there. *)
Lemma basename_of_joined (dir name : string) :
  has_slash name = false ->
  snd (os_path_split (os_path_join dir name)) = name.
Proof.
  intros Hn. unfold os_path_join.
  assert (Hs : starts_with_slash name = false).
  { destruct name as [| a n]; [reflexivity |]. simpl in *.
    apply orb_false_iff in Hn as [Ha _]. exact Ha. }
  rewrite Hs.
  destruct (String.eqb dir "") eqn:Hd.
  - apply String.eqb_eq in Hd. subst dir. simpl. apply os_path_split_no_slash. exact Hn.
  - simpl. destruct (ends_with_slash dir) eqn:He.
    + destruct (ends_with_slash_inv dir He) as [p ->].
      rewrite append_assoc. simpl. apply os_path_split_tail. exact Hn.
    + apply os_path_split_tail. exact Hn.
Qed.

Fixpoint has_newline (s : string) : bool :=
  match s with
  | EmptyString => false
  | String a rest => Ascii.eqb a (ascii_of_nat 10) || has_newline rest
  end.

Lemma lines_from_line (l rest cur : string) :
  has_newline l = false ->
  lines_from (l ++ newline ++ rest) cur = (cur ++ l)%string :: lines_from rest "".
Proof.
  revert cur. induction l as [| a l IH]; intros cur Hl.
  - simpl. rewrite append_nil_r. reflexivity.
  - simpl in Hl. apply orb_false_iff in Hl as [Ha Hl].
    cbn [append lines_from]. rewrite Ha, (IH _ Hl), append_assoc. reflexivity.
Qed.

Lemma lines_of_written (ls : list string) :
  Forall (fun l => has_newline l = false) ls ->
  lines (String.concat "" (map (fun l => (l ++ newline)%string) ls)) = ls.
Proof.
  unfold lines. induction 1 as [| l ls Hl _ IH].
  - reflexivity.
  - cbn [map]. rewrite concat_empty_cons, append_assoc, (lines_from_line _ _ _ Hl).
    simpl. f_equal. exact IH.
Qed.

Lemma nth_error_combine {A B} (xs : list A) (ys : list B) i x y :
  nth_error xs i = Some x -> nth_error ys i = Some y ->
  nth_error (combine xs ys) i = Some (x, y).
Proof.
  revert i ys. induction xs as [| x' xs IH]; intros [| i] [| y' ys] Hx Hy;
    simpl in *; try discriminate.
  - inversion Hx; inversion Hy; reflexivity.
  - apply IH; assumption.
Qed.

Section BatchResults.
Variable prediction : Type.
Variable model_path : string.
Variable glob : string -> list string.
Variable genfromtxt : string -> list float.
Variable predict : list (list float) -> list prediction.
Variable str : prediction -> string.

(** C2.  For a run of the batch scoring script that returns, over the n
    files the pattern matched and the n predictions the model gave for
    them: [outputs/results.txt] holds, for each file in the order
    matched, the line made of its base name, [": "] and the text of its
    prediction, each ended by a newline; these are n lines (texts free
    of newlines), and for files matched in the input folder the base
    name is the name of the file in that folder. *)
Theorem results_file_has_a_line_per_file (argv : list arg) (o : oracle) (t : trace) :
  exec (Ex8.batch_diabetes prediction model_path glob genfromtxt predict str argv) o
  = (t, Ok tt) ->
  exists input_dir,
    input_dir_of argv = Ok input_dir /\
    forall file_names predictions,
      file_names = glob (os_path_join input_dir "*.csv") ->
      predictions = predict (map genfromtxt file_names) ->
      List.length predictions = List.length file_names ->
      let rows := combine file_names predictions in
      let content :=
        String.concat "" (map (fun fp => result_line prediction str fp ++ newline)%string
                            rows) in
      file_contents "outputs/results.txt" t None = Some content
      /\ List.length rows = List.length file_names
      /\ (forall i f p, nth_error file_names i = Some f ->
                        nth_error predictions i = Some p ->
            nth_error (map (result_line prediction str) rows) i
            = Some (snd (os_path_split f) ++ ": " ++ str p)%string)
      /\ (Forall (fun fp => has_newline (result_line prediction str fp) = false) rows ->
            lines content = map (result_line prediction str) rows
            /\ List.length (lines content) = List.length file_names)
      /\ (forall names, file_names = map (os_path_join input_dir) names ->
            Forall (fun n => has_slash n = false) names ->
            map (result_line prediction str) rows
            = map (fun np => fst np ++ ": " ++ str (snd np))%string
                (combine names predictions)).
Proof.
  intros Hrun.
  destruct (batch_diabetes_trace _ _ _ _ _ _ _ _ _ Hrun) as (input_dir & Hdir & Ht).
  exists input_dir. split; [exact Hdir |].
  intros file_names predictions -> -> Hlen rows content.
  set (file_names := glob (os_path_join input_dir "*.csv")) in *.
  set (predictions := predict (map genfromtxt file_names)) in *.
  specialize (Ht Hlen).
  assert (Hrows : List.length rows = List.length file_names).
  { unfold rows. rewrite length_combine. lia. }
  split; [| split; [exact Hrows | split; [| split]]].
  - rewrite Ht.
    rewrite !file_contents_app.
    rewrite (file_contents_untouched _ [_; _; _; _; _; _]) by reflexivity.
    rewrite (file_contents_untouched _ (map _ file_names)).
    2:{ clear. induction file_names; simpl; auto. }
    cbn [file_contents]. rewrite String.eqb_refl.
    rewrite (file_contents_writes "outputs/results.txt"
               (fun fp => (result_line prediction str fp ++ newline)%string)).
    reflexivity.
  - intros i f p Hf Hp. rewrite nth_error_map. unfold rows.
    rewrite (nth_error_combine _ _ _ _ _ Hf Hp). reflexivity.
  - intros Hnl. assert (Hlines : lines content = map (result_line prediction str) rows).
    { unfold content. rewrite <- (map_map (result_line prediction str)
                                    (fun l => (l ++ newline)%string)).
      apply lines_of_written. apply Forall_map. exact Hnl. }
    split; [exact Hlines |]. rewrite Hlines, length_map. exact Hrows.
  - intros names Hnames Hslash. unfold rows. rewrite Hnames.
    generalize predictions. clear - Hslash.
    induction Hslash as [| n ns Hn _ IH]; intros [| p ps]; simpl; try reflexivity.
    f_equal; [| apply IH].
    unfold result_line. cbn [fst snd]. rewrite (basename_of_joined _ _ Hn). reflexivity.
Qed.

End BatchResults.

Lemma results_file_has_a_line_per_file_witness :
  let glob := fun _ : string => ["batch_data/1.csv"; "batch_data/2.csv"; "batch_data/3.csv"] in
  let genfromtxt := fun _ : string => [1; 85; 66; 29; 0; 26.6; 0.351; 31]%float in
  let predict := fun rows : list (list float) => map (fun _ => 1) rows in
  let run := exec (Ex8.batch_diabetes nat "azureml-models/diabetes_model/1/model.pkl"
                     glob genfromtxt predict str_of_nat
                     [AStr "--input_dir"; AStr "batch_data"]) no_failure in
  snd run = Ok tt
  /\ exists content,
       file_contents "outputs/results.txt" (fst run) None = Some content
       /\ lines content = ["1.csv: 1"; "2.csv: 1"; "3.csv: 1"].
Proof.
  intros glob genfromtxt predict run.
  split; [reflexivity |].
  destruct (results_file_has_a_line_per_file nat
              "azureml-models/diabetes_model/1/model.pkl" glob genfromtxt predict
              str_of_nat [AStr "--input_dir"; AStr "batch_data"] no_failure (fst run)
              eq_refl) as (input_dir & Hdir & Hfile).
  assert (Hd : input_dir = "batch_data") by (inversion Hdir; reflexivity).
  subst input_dir.
  destruct (Hfile _ _ eq_refl eq_refl eq_refl) as (Hcontent & _ & _ & Hlines & _).
  eexists. split; [exact Hcontent |].
  apply Hlines. repeat constructor.
Defined.

(** ** The batch data cell (Exercise 8) *)

(** A loop that returns made, for each element in turn, the calls of a
    body that returned; [good] is what a returning body tells about its
    element. *)
Lemma for_each_ok_inv_good {V A} (body : A -> M V unit) (calls_of : A -> trace)
    (good : A -> Prop) (xs : list A) :
  (forall x o v t v', body x o v = (t, v', Ok tt) ->
     t = calls_of x /\ v' = v /\ good x) ->
  forall o v t v', for_each xs body o v = (t, v', Ok tt) ->
    t = flat_map calls_of xs /\ v' = v /\ Forall good xs.
Proof.
  intros Hbody. induction xs as [| x rest IH]; intros o v t v' H; simpl in H.
  - apply ret_inv in H as (-> & -> & _). auto.
  - apply bind_ok_inv in H as (t1 & v1 & [] & t2 & H1 & H2 & ->).
    apply Hbody in H1 as (-> & -> & Hx).
    apply IH in H2 as (-> & -> & Hrest). auto.
Qed.

Lemma calls_ok_inv {V} (names : list string) o (v : V) t v' :
  calls names o v = (t, v', Ok tt) -> t = map ECall names /\ v' = v.
Proof.
  intros H. unfold calls in H.
  apply (for_each_ok_inv _ (fun n => [ECall n])) in H.
  - destruct H as [-> ->]. split; [| reflexivity].
    induction names as [| n ns IH]; simpl; [reflexivity | f_equal; exact IH].
  - intros n o' v0 t0 v0' H0. apply call_ok_inv in H0 as (-> & -> & _). auto.
Qed.

Lemma files_written_app (t1 t2 : trace) :
  files_written (t1 ++ t2) = files_written t1 ++ files_written t2.
Proof.
  induction t1 as [| ev t1 IH]; simpl; [reflexivity |].
  destruct ev; simpl; rewrite ?IH; reflexivity.
Qed.

(** The name of the i-th file, as the loop builds it. *)
Definition batch_file (i : nat) : string :=
  os_path_join "./batch_data" (str_of_nat (i + 1) ++ ".csv").

Lemma batch_files_named :
  map batch_file (range 100)
  = map (fun i => "./batch_data/" ++ str_of_nat i ++ ".csv")%string (seq 1 100).
Proof. vm_compute. reflexivity. Qed.

Fixpoint distinct (names : list string) : bool :=
  match names with
  | [] => true
  | n :: rest => negb (existsb (String.eqb n) rest) && distinct rest
  end.

Lemma distinct_NoDup (names : list string) : distinct names = true -> NoDup names.
Proof.
  induction names as [| n rest IH]; simpl; intros H; [constructor |].
  apply andb_prop in H as [Hn Hrest]. constructor; [| apply IH; exact Hrest].
  intros Hin. apply negb_true_iff in Hn.
  assert (existsb (String.eqb n) rest = true).
  { apply existsb_exists. exists n. split; [exact Hin | apply String.eqb_refl]. }
  congruence.
Qed.

Lemma batch_files_distinct : NoDup (map batch_file (range 100)).
Proof. apply distinct_NoDup. vm_compute. reflexivity. Qed.

Lemma nth_error_map_inv {A B} (f : A -> B) (l : list A) (i : nat) (y : B) :
  nth_error (map f l) i = Some y ->
  i < List.length l /\ exists x, nth_error l i = Some x /\ y = f x.
Proof.
  revert i. induction l as [| a l IH]; intros [| i] H; simpl in *; try discriminate.
  - inversion H. split; [lia | eauto].
  - destruct (IH _ H) as [Hi Hx]. split; [lia | exact Hx].
Qed.

Lemma flat_map_singleton {A B} (f : A -> B) (l : list A) :
  flat_map (fun x => [f x]) l = map f l.
Proof. induction l as [| x l IH]; simpl; [reflexivity | f_equal; exact IH]. Qed.

Section BatchData.
Variable diabetes : dataframe.
Variable drawn : list nat.
Variable format_value : float -> string.

(** The record of the row at position [j] of the data: the values of
    the eight feature columns, in their order. *)
Definition feature_record (j : nat) : list float :=
  map (cell (df_columns diabetes) (nth j (df_rows diabetes) [])) feature_columns.

(** The text of the file written for the i-th drawn row. *)
Definition batch_text (i : nat) : string :=
  String.concat "," (map format_value (feature_record (nth i drawn 0))).

Lemma batch_data_trace (o : oracle) (t : trace) :
  exec (Ex8.batch_data_cell diabetes drawn format_value) o = (t, Ok tt) ->
  Forall (fun j => j < List.length (df_rows diabetes)) drawn ->
  100 <= List.length (df_rows diabetes)
  /\ 100 <= List.length drawn
  /\ t = [ECall "pd.read_csv"; ECall "DataFrame.sample"; EMakedirs "./batch_data"]
         ++ map (fun i => EToFile (batch_file i) (batch_text i)) (range 100)
         ++ [ECall "ws.get_default_datastore"; ECall "default_ds.upload"].
Proof.
  unfold exec.
  destruct (Ex8.batch_data_cell diabetes drawn format_value o tt) as [[t' v'] r'] eqn:H.
  intros Heq Hvalid; inversion Heq; subst t' r'. clear Heq.
  unfold Ex8.batch_data_cell in H.
  unfold batch_text, feature_record.
  remember feature_columns as wanted eqn:Hwanted. clear Hwanted.
  remember 100 as n eqn:Hn.
  bind_step H.
  bind_step H. apply lift_result_inv in Hc as (-> & -> & Hsel).
  rename a into features.
  bind_step H.
  bind_step H. apply lift_result_inv in Hc as (-> & -> & Hsam).
  rename a into sampled.
  bind_step H.
  bind_step H.
  apply calls_ok_inv in H as (-> & ->).
  unfold df_select in Hsel.
  destruct (forallb _ wanted) eqn:Hcols; [| discriminate].
  inversion Hsel; subst features. clear Hsel.
  unfold df_sample in Hsam. cbn [df_rows df_columns] in Hsam.
  rewrite ?length_map in Hsam.
  destruct (List.length (df_rows diabetes) <? n)%nat eqn:Hrows; [discriminate |].
  apply Nat.ltb_ge in Hrows.
  inversion Hsam; subst sampled. clear Hsam. cbn [df_rows] in Hc.
  apply (for_each_ok_inv_good _
           (fun i => [EToFile (batch_file i)
                        (String.concat ","
                           (map format_value
                              (map (cell (df_columns diabetes)
                                      (nth (nth i drawn 0) (df_rows diabetes) []))
                                 wanted)))])
           (fun i => i < List.length (firstn n drawn))) in Hc.
  - destruct Hc as (-> & _ & Hgood).
    assert (Hdrawn : n <= List.length drawn).
    { pose proof (proj1 (Forall_forall _ _) Hgood 99) as H99.
      assert (Hin : In 99 (range n)) by (apply in_seq; lia).
      specialize (H99 Hin). rewrite length_firstn in H99. lia. }
    split; [exact Hrows |]. split; [exact Hdrawn |].
    rewrite flat_map_singleton. reflexivity.
  - clear - Hvalid. intros i o v t v' H.
    bind_step H. apply lift_result_inv in Hc as (-> & -> & Hrow).
    apply call_ok_inv in H as (-> & -> & _ & _).
    unfold py_index in Hrow.
    destruct (nth_error _ i) as [row |] eqn:Hnth; [| discriminate].
    inversion Hrow; subst a. clear Hrow.
    cbn [df_rows] in Hnth.
    apply nth_error_map_inv in Hnth as (Hi & j & Hj & ->).
    split; [| split; [reflexivity | exact Hi]].
    assert (Hji : nth i drawn 0 = j).
    { rewrite length_firstn in Hi.
      rewrite <- (firstn_skipn n drawn).
      rewrite app_nth1 by (rewrite length_firstn; exact Hi).
      apply nth_error_nth. exact Hj. }
    assert (Hjlt : j < List.length (df_rows diabetes)).
    { apply (proj1 (Forall_forall _ _) Hvalid).
      apply nth_error_In in Hj. rewrite <- (firstn_skipn n drawn).
      apply in_or_app. left. exact Hj. }
    unfold batch_file. rewrite Hji.
    do 3 f_equal.
    rewrite (nth_indep _ [] (map (cell (df_columns diabetes) []) wanted))
      by (rewrite length_map; exact Hjlt).
    rewrite (map_nth (fun row => map (cell (df_columns diabetes) row) wanted)).
    reflexivity.
Qed.

(** C10.  A run of the batch data cell that returns, the generator
    having drawn a permutation of the row positions, has written exactly
    100 files, [./batch_data/1.csv] to [./batch_data/100.csv] in this
    order and all different; the i-th holds the comma-separated values
    of the eight feature columns of the i-th drawn row, the drawn rows
    being 100 different rows of the data; [Diabetic] is not among the
    columns written. *)
Theorem batch_data_is_100_feature_files (o : oracle) (t : trace) :
  exec (Ex8.batch_data_cell diabetes drawn format_value) o = (t, Ok tt) ->
  Permutation drawn (seq 0 (List.length (df_rows diabetes))) ->
  files_written t = map (fun i => (batch_file i, batch_text i)) (range 100)
  /\ List.length (files_written t) = 100
  /\ map fst (files_written t)
     = map (fun i => "./batch_data/" ++ str_of_nat i ++ ".csv")%string (seq 1 100)
  /\ nth_error (map fst (files_written t)) 0 = Some "./batch_data/1.csv"
  /\ nth_error (map fst (files_written t)) 99 = Some "./batch_data/100.csv"
  /\ NoDup (map fst (files_written t))
  /\ (forall i, i < 100 ->
        nth i drawn 0 < List.length (df_rows diabetes)
        /\ List.length (feature_record (nth i drawn 0)) = 8
        /\ feature_record (nth i drawn 0)
           = map (cell (df_columns diabetes) (nth (nth i drawn 0) (df_rows diabetes) []))
               ["Pregnancies"; "PlasmaGlucose"; "DiastolicBloodPressure";
                "TricepsThickness"; "SerumInsulin"; "BMI"; "DiabetesPedigree"; "Age"])
  /\ NoDup (firstn 100 drawn)
  /\ existsb (String.eqb "Diabetic") feature_columns = false.
Proof.
  intros Hrun Hperm.
  assert (Hvalid : Forall (fun j => j < List.length (df_rows diabetes)) drawn).
  { apply Forall_forall. intros j Hj.
    apply (Permutation_in _ Hperm) in Hj. apply in_seq in Hj. lia. }
  destruct (batch_data_trace o t Hrun Hvalid) as (Hrows & Hdrawn & ->).
  assert (Hfiles : files_written
                     ([ECall "pd.read_csv"; ECall "DataFrame.sample";
                       EMakedirs "./batch_data"]
                      ++ map (fun i => EToFile (batch_file i) (batch_text i)) (range 100)
                      ++ [ECall "ws.get_default_datastore"; ECall "default_ds.upload"])
                   = map (fun i => (batch_file i, batch_text i)) (range 100)).
  { rewrite !files_written_app. cbn [files_written app]. rewrite app_nil_r.
    generalize (range 100). intros l.
    induction l as [| i l IH]; simpl; [reflexivity | f_equal; exact IH]. }
  rewrite Hfiles.
  assert (Hnames : map fst (map (fun i => (batch_file i, batch_text i)) (range 100))
                   = map batch_file (range 100)).
  { rewrite map_map. reflexivity. }
  rewrite Hnames.
  split; [reflexivity |].
  split; [rewrite length_map; reflexivity |].
  split; [exact batch_files_named |].
  split; [reflexivity |].
  split; [reflexivity |].
  split; [exact batch_files_distinct |].
  split; [| split; [| reflexivity]].
  - intros i Hi. split; [| split; reflexivity].
    apply (proj1 (Forall_forall _ _) Hvalid). apply nth_In. lia.
  - assert (Hnd : NoDup drawn).
    { apply (Permutation_NoDup (Permutation_sym Hperm)). apply seq_NoDup. }
    rewrite <- (firstn_skipn 100 drawn) in Hnd.
    apply NoDup_app_remove_r in Hnd. exact Hnd.
Qed.

End BatchData.

Fixpoint float_of_nat (n : nat) : float :=
  match n with
  | 0 => 0%float
  | S k => (float_of_nat k + 1)%float
  end.

(** A data set of 120 patients for the examples: an identifier, the
    eight features and the label. *)
Definition example_diabetes : dataframe :=
  mkDataFrame ("PatientID" :: feature_columns ++ ["Diabetic"])
    (map (fun i => let x := float_of_nat i in
                   [x; 1; 100 + x; 70; 30; 25; 21.5; 0.5; 40; 0]%float)
       (seq 0 120)).

Definition example_format (x : float) : string :=
  if PrimFloat.ltb x 50 then "low" else "high".

Lemma batch_data_is_100_feature_files_witness :
  let run := exec (Ex8.batch_data_cell example_diabetes (rev (seq 0 120)) example_format)
               no_failure in
  snd run = Ok tt
  /\ List.length (files_written (fst run)) = 100
  /\ nth_error (files_written (fst run)) 0
     = Some ("./batch_data/1.csv", "low,high,high,low,low,low,low,low")
  /\ nth_error (map fst (files_written (fst run))) 99 = Some "./batch_data/100.csv".
Proof.
  intros run. split; [vm_compute; reflexivity |].
  assert (Hrun : exec (Ex8.batch_data_cell example_diabetes (rev (seq 0 120))
                         example_format) no_failure = (fst run, Ok tt)).
  { vm_compute. reflexivity. }
  assert (Hperm : Permutation (rev (seq 0 120))
                    (seq 0 (List.length (df_rows example_diabetes)))).
  { apply Permutation_sym. apply Permutation_rev. }
  destruct (batch_data_is_100_feature_files example_diabetes (rev (seq 0 120))
              example_format no_failure (fst run) Hrun Hperm)
    as (Hfiles & Hlen & _ & _ & Hlast & _).
  split; [exact Hlen |]. split; [| exact Hlast].
  rewrite Hfiles. vm_compute. reflexivity.
Defined.

(** ** Triggering the published pipeline over REST (Exercise 8) *)

Definition is_http (ev : event) : bool :=
  match ev with EHttpPost _ _ _ => true | _ => false end.

Section RestTrigger.
Variable endpoint : string.
Variable session_header : dict string.
Variable answer : dict pyval.

Definition post_request : event :=
  EHttpPost endpoint session_header [("ExperimentName", VStr "Batch_Pipeline_via_REST")].

(** The calls of a run in which nothing fails. *)
Definition trigger_calls : trace :=
  [ECall "pipeline_run.publish_pipeline"; ECall "InteractiveLoginAuthentication";
   EGetAuthenticationHeader; post_request; ECall "response.json"].

Lemma trigger_runs (o : oracle) :
  exec (Ex8.trigger_via_rest endpoint session_header answer) o
  = match o 0 with Some e => (firstn 1 trigger_calls, Raise e) | None =>
    match o 1 with Some e => (firstn 2 trigger_calls, Raise e) | None =>
    match o 2 with Some e => (firstn 3 trigger_calls, Raise e) | None =>
    match o 3 with Some e => (firstn 4 trigger_calls, Raise e) | None =>
    match o 4 with Some e => (trigger_calls, Raise e) | None =>
    (trigger_calls, dict_get answer "Id")
    end end end end end.
Proof.
  unfold exec, Ex8.trigger_via_rest, Ex8.publish_cell, Ex8.auth_header_cell,
    Ex8.rest_cell, bind, call, ret, lift_result, shift. simpl.
  destruct (o 0); simpl; [reflexivity |].
  destruct (o 1); simpl; [reflexivity |].
  destruct (o 2); simpl; [reflexivity |].
  destruct (o 3); simpl; [reflexivity |].
  destruct (o 4); simpl; [reflexivity |].
  destruct (dict_get answer "Id"); reflexivity.
Qed.

(** C5.  In every run of the three cells that publish the pipeline,
    fetch the authorization header and call the endpoint, the calls made
    are an initial part of: publish, sign in interactively, get the
    authentication header, POST, read the JSON of the response.  The
    POST goes to the endpoint of the published pipeline, with the
    header the sign-in session returned as its headers and the
    experiment name as its JSON body; it is made only once that header
    has been returned, and at most once.  A run that returns has made
    all five calls and its run identifier is the ["Id"] field of the
    response's JSON. *)
Theorem pipeline_triggered_by_authorized_post
    (o : oracle) (t : trace) (r : result pyval) :
  exec (Ex8.trigger_via_rest endpoint session_header answer) o = (t, r) ->
  (exists n, t = firstn n trigger_calls)
  /\ nth_error trigger_calls 2 = Some EGetAuthenticationHeader
  /\ nth_error trigger_calls 3
     = Some (EHttpPost endpoint session_header
               [("ExperimentName", VStr "Batch_Pipeline_via_REST")])
  /\ (forall i ev, nth_error t i = Some ev -> is_http ev = true ->
        i = 3 /\ ev = post_request /\ o 2 = None)
  /\ (forall run_id, r = Ok run_id ->
        t = trigger_calls /\ dict_get answer "Id" = Ok run_id)
  /\ (t = trigger_calls -> o 4 = None -> r = dict_get answer "Id").
Proof.
  intros Hrun. rewrite trigger_runs in Hrun.
  assert (Hhttp : forall n i ev,
             nth_error (firstn n trigger_calls) i = Some ev -> is_http ev = true ->
             i = 3 /\ ev = post_request /\ 4 <= n).
  { intros n i ev Hn Hev.
    assert (Hfull : nth_error trigger_calls i = Some ev /\ i < n).
    { split.
      - rewrite <- (firstn_skipn n trigger_calls).
        rewrite nth_error_app1; [exact Hn |].
        apply nth_error_Some. congruence.
      - assert (Hlt : i < List.length (firstn n trigger_calls))
          by (apply nth_error_Some; congruence).
        rewrite length_firstn in Hlt. lia. }
    destruct Hfull as [Hfull Hlt].
    do 5 (destruct i as [| i]; [simpl in Hfull; inversion Hfull; subst ev;
                                try discriminate Hev; repeat split; lia |]).
    simpl in Hfull. destruct i; discriminate. }
  split; [| split; [reflexivity | split; [reflexivity |]]].
  - destruct (o 0); [inversion Hrun; exists 1; reflexivity |].
    destruct (o 1); [inversion Hrun; exists 2; reflexivity |].
    destruct (o 2); [inversion Hrun; exists 3; reflexivity |].
    destruct (o 3); [inversion Hrun; exists 4; reflexivity |].
    destruct (o 4); inversion Hrun; exists 5; reflexivity.
  - split; [| split].
    + intros i ev Hn Hev.
      destruct (o 0) as [e0 |]; [inversion Hrun; subst t;
        destruct (Hhttp 1 i ev Hn Hev) as (_ & _ & Habs); lia |].
      destruct (o 1) as [e1 |]; [inversion Hrun; subst t;
        destruct (Hhttp 2 i ev Hn Hev) as (_ & _ & Habs); lia |].
      destruct (o 2) as [e2 |]; [inversion Hrun; subst t;
        destruct (Hhttp 3 i ev Hn Hev) as (_ & _ & Habs); lia |].
      assert (Ht : t = firstn 4 trigger_calls \/ t = firstn 5 trigger_calls).
      { destruct (o 3); [inversion Hrun; auto |].
        destruct (o 4); inversion Hrun; auto. }
      destruct Ht as [-> | ->];
        destruct (Hhttp _ i ev Hn Hev) as (Hi & Hpost & _); auto.
    + intros run_id Hr.
      destruct (o 0); [inversion Hrun; congruence |].
      destruct (o 1); [inversion Hrun; congruence |].
      destruct (o 2); [inversion Hrun; congruence |].
      destruct (o 3); [inversion Hrun; congruence |].
      destruct (o 4); inversion Hrun; [congruence |]. split; congruence.
    + intros Ht H4. rewrite H4 in Hrun.
      destruct (o 0); [inversion Hrun; subst t; discriminate |].
      destruct (o 1); [inversion Hrun; subst t; discriminate |].
      destruct (o 2); [inversion Hrun; subst t; discriminate |].
      destruct (o 3); [inversion Hrun; subst t; discriminate |].
      inversion Hrun; reflexivity.
Qed.

End RestTrigger.

Lemma pipeline_triggered_by_authorized_post_witness :
  let header := [("Authorization", "Bearer eyJ0eXAi")] in
  let answer := [("Description", VNone); ("Id", VStr "8d3c0d2e")] in
  let run := exec (Ex8.trigger_via_rest "https://eastus2.aether.ms/pipelines/v1.0/run"
                     header answer) no_failure in
  snd run = Ok (VStr "8d3c0d2e")
  /\ fst run = trigger_calls "https://eastus2.aether.ms/pipelines/v1.0/run" header
  /\ dict_get answer "Id" = Ok (VStr "8d3c0d2e").
Proof.
  intros header answer run. split; [reflexivity |].
  destruct (pipeline_triggered_by_authorized_post
              "https://eastus2.aether.ms/pipelines/v1.0/run" header answer
              no_failure (fst run) (snd run) eq_refl) as (_ & _ & _ & _ & Hid & _).
  exact (Hid (VStr "8d3c0d2e") eq_refl).
Defined.

(** ** The regularization rate and the division (Exercises 3, 4, 5, 7) *)

Section Regularization.
Variables acc auc : float.

(** The training scripts that read [--regularization], each with the
    options its parser knows. *)
Definition parameterised_training_scripts
  : list (list string * (list arg -> M unit unit)) :=
  [(["--regularization"], Ex3.diabetes_training_estimator acc auc);
   (["--regularization"; "--data-folder"], Ex3.diabetes_training_datafolder acc auc);
   (["--regularization"], Ex4.diabetes_training acc auc);
   (["--regularization"], Ex5.diabetes_training acc auc);
   (["--dataset_name"; "--regularization"; "--output_folder"], Ex7.train_diabetes)].

(** [args.reg_rate]: the value given for [--regularization], or 0.01. *)
Definition reg_rate_of (known : list string) (argv : list arg) : result float :=
  match parse_args known argv with
  | Ok ps => arg_float ps "--regularization" 0.01
  | Raise e => Raise e
  end.

(** The model, when one is built, is built with [C = 1/reg]. *)
Definition inverse_of (reg : float) (ev : event) : Prop :=
  forall C solver, ev = ELogisticRegression C solver ->
    PrimFloat.eqb reg 0 = false /\ C = (1 / reg)%float /\ solver = "liblinear".

Ltac inverse_event :=
  first [ intros ? ? Hev; discriminate Hev
        | let Hev := fresh in
          intros ? ? Hev; injection Hev as <- <-;
          match goal with
          | Hdiv : py_truediv _ ?reg = Ok _ |- _ =>
              unfold py_truediv in Hdiv;
              destruct (PrimFloat.eqb reg 0); [discriminate Hdiv |];
              injection Hdiv as <-; auto
          end ].

Lemma train_and_evaluate_inverse (imports : list string) (reg : float) :
  emits (inverse_of reg) (Training.train_and_evaluate acc auc imports reg).
Proof. unfold Training.train_and_evaluate. emits_with inverse_event. Qed.

Lemma scripts_build_inverse (known : list string) (script : list arg -> M unit unit)
    (argv : list arg) (reg : float) :
  In (known, script) parameterised_training_scripts ->
  reg_rate_of known argv = Ok reg ->
  emits (inverse_of reg) (script argv).
Proof.
  unfold parameterised_training_scripts, reg_rate_of. simpl.
  intros [H | [H | [H | [H | [H | []]]]]] Hreg; inversion H; subst known script; clear H.
  - unfold Ex3.diabetes_training_estimator, Training.parse_regularization. cbv zeta.
    apply emits_bind_lift. intros reg' Hreg'. rewrite Hreg in Hreg'.
    inversion Hreg'; subst reg'. emits_with inverse_event.
  - unfold Ex3.diabetes_training_datafolder. cbv zeta.
    apply emits_bind_lift. intros ps Hps. rewrite Hps in Hreg.
    apply emits_bind_lift. intros reg' Hreg'. rewrite Hreg in Hreg'.
    inversion Hreg'; subst reg'. emits_with inverse_event.
  - unfold Ex4.diabetes_training, Training.parse_regularization. cbv zeta.
    apply emits_bind_lift. intros reg' Hreg'. rewrite Hreg in Hreg'.
    inversion Hreg'; subst reg'. emits_with inverse_event.
  - unfold Ex5.diabetes_training, Training.parse_regularization. cbv zeta.
    apply emits_bind_lift. intros reg' Hreg'. rewrite Hreg in Hreg'.
    inversion Hreg'; subst reg'. emits_with inverse_event.
  - unfold Ex7.train_diabetes. cbv zeta.
    apply emits_bind_lift. intros ps Hps. rewrite Hps in Hreg.
    apply emits_bind_lift. intros dataset_name _.
    apply emits_bind_lift. intros reg' Hreg'. rewrite Hreg in Hreg'.
    inversion Hreg'; subst reg'. emits_with inverse_event.
Qed.

Ltac run_to_division Hreg :=
  unfold exec, bind, call, calls, for_each, lift_result, ret, raise, shift,
    Training.train_and_evaluate, name_lookup, py_truediv; simpl;
  rewrite ?Hreg; simpl.

Ltac finish_division reg :=
  destruct (PrimFloat.eqb reg 0); simpl; intros Hrun _; inversion Hrun; subst;
  split; intros Hz; try discriminate Hz; auto;
  simpl; tauto.

Lemma scripts_divide_unguarded (known : list string) (script : list arg -> M unit unit)
    (argv : list arg) (reg : float) (t : trace) (r : result unit) :
  In (known, script) parameterised_training_scripts ->
  reg_rate_of known argv = Ok reg ->
  exec (script argv) no_failure = (t, r) ->
  In (ERunLog "Regularization Rate" (VFloat reg)) t ->
  (PrimFloat.eqb reg 0 = true -> r = Raise ZeroDivisionError)
  /\ (PrimFloat.eqb reg 0 = false -> In (ELogisticRegression (1 / reg) "liblinear") t).
Proof.
  unfold parameterised_training_scripts, reg_rate_of. simpl.
  intros [H | [H | [H | [H | [H | []]]]]] Hreg; inversion H; subst known script; clear H.
  - unfold Ex3.diabetes_training_estimator, Training.parse_regularization.
    run_to_division Hreg. finish_division reg.
  - unfold Ex3.diabetes_training_datafolder.
    destruct (parse_args _ argv) as [ps | e] eqn:Hps; [| discriminate].
    run_to_division Hreg.
    destruct (arg_str ps "--data-folder" None) as [[d |] | e]; simpl;
      try (intros Hrun Hin; inversion Hrun; subst; simpl in Hin;
           exfalso; intuition discriminate).
    finish_division reg.
  - unfold Ex4.diabetes_training, Training.parse_regularization.
    run_to_division Hreg. finish_division reg.
  - unfold Ex5.diabetes_training, Training.parse_regularization.
    run_to_division Hreg. finish_division reg.
  - unfold Ex7.train_diabetes.
    destruct (parse_args _ argv) as [ps | e] eqn:Hps; [| discriminate].
    run_to_division Hreg.
    destruct (arg_str_default ps "--dataset_name" "Diabetes Dataset") as [dn | e]; simpl;
      try (intros Hrun Hin; inversion Hrun; subst; simpl in Hin;
           exfalso; intuition discriminate).
    rewrite ?Hreg; simpl.
    destruct (arg_str_default ps "--output_folder" "diabetes_model") as [out | e]; simpl;
      try (intros Hrun Hin; inversion Hrun; subst; simpl in Hin;
           exfalso; intuition discriminate).
    finish_division reg.
Qed.

(** The command line [--regularization x] with [x] zero, no call
    failing: the division is what ends the run, except in the script
    that joins its data folder to a file name first. *)
Lemma scripts_fail_on_zero (known : list string) (script : list arg -> M unit unit)
    (x : float) :
  In (known, script) parameterised_training_scripts ->
  PrimFloat.eqb x 0 = true ->
  snd (exec (script [AStr "--regularization"; AFloat x]) no_failure)
  = (if existsb (String.eqb "--data-folder") known
     then Raise TypeError else Raise ZeroDivisionError)
  /\ (existsb (String.eqb "--data-folder") known = true ->
      forall d,
        snd (exec (script [AStr "--regularization"; AFloat x;
                           AStr "--data-folder"; AStr d]) no_failure)
        = Raise ZeroDivisionError).
Proof.
  unfold parameterised_training_scripts. simpl.
  intros [H | [H | [H | [H | [H | []]]]]] Hz; inversion H; subst known script; clear H;
    unfold Ex3.diabetes_training_estimator, Ex3.diabetes_training_datafolder,
      Ex4.diabetes_training, Ex5.diabetes_training, Ex7.train_diabetes,
      Training.parse_regularization;
    unfold exec, bind, call, calls, for_each, lift_result, ret, raise, shift,
      Training.train_and_evaluate, name_lookup, py_truediv; simpl;
    rewrite ?Hz; simpl;
    (split; [reflexivity | first [discriminate | intros _ d; reflexivity]]).
Qed.

(** C9 (amended).  Every training script that reads [--regularization]
    takes [reg] from it (0.01 when it is absent) and builds its model,
    if it builds one, with [C = 1/reg] and nothing else; no guard stands
    before the division: when the platform fails no call and the script
    gets as far as logging the rate, a rate equal to zero ends the run
    with [ZeroDivisionError], and any other rate gives the model
    [C = 1/reg].  On the command line [--regularization x] alone, [x]
    zero, the run ends with [ZeroDivisionError] in every such script but
    the one that also reads [--data-folder]: that one ends earlier, with
    [TypeError], and with [ZeroDivisionError] once the folder is given
    too. *)
Theorem regularization_inverse_unguarded
    (known : list string) (script : list arg -> M unit unit)
    (argv : list arg) (reg : float) (o : oracle) (t : trace) (r : result unit) :
  In (known, script) parameterised_training_scripts ->
  reg_rate_of known argv = Ok reg ->
  exec (script argv) o = (t, r) ->
  (forall C solver, In (ELogisticRegression C solver) t ->
     PrimFloat.eqb reg 0 = false /\ C = (1 / reg)%float /\ solver = "liblinear")
  /\ (forall t0 r0, exec (script argv) no_failure = (t0, r0) ->
        In (ERunLog "Regularization Rate" (VFloat reg)) t0 ->
        (PrimFloat.eqb reg 0 = true -> r0 = Raise ZeroDivisionError)
        /\ (PrimFloat.eqb reg 0 = false ->
              In (ELogisticRegression (1 / reg) "liblinear") t0))
  /\ (forall x, PrimFloat.eqb x 0 = true ->
        snd (exec (script [AStr "--regularization"; AFloat x]) no_failure)
        = (if existsb (String.eqb "--data-folder") known
           then Raise TypeError else Raise ZeroDivisionError)
        /\ (existsb (String.eqb "--data-folder") known = true ->
            forall d,
              snd (exec (script [AStr "--regularization"; AFloat x;
                                 AStr "--data-folder"; AStr d]) no_failure)
              = Raise ZeroDivisionError))
  /\ reg_rate_of known [] = Ok 0.01%float
  /\ (forall x, reg_rate_of known [AStr "--regularization"; AFloat x] = Ok x).
Proof.
  intros Hin Hreg Hrun. split; [| split; [| split; [| split]]].
  - intros C solver HC.
    pose proof (scripts_build_inverse known script argv reg Hin Hreg) as Hemits.
    unfold exec in Hrun. destruct (script argv o tt) as [[t' v'] r'] eqn:Hs.
    inversion Hrun; subst t' r'.
    pose proof (proj1 (Forall_forall _ _) (Hemits _ _ _ _ _ Hs) _ HC) as Hev.
    exact (Hev C solver eq_refl).
  - intros t0 r0 Hrun0 Hlogged.
    exact (scripts_divide_unguarded known script argv reg t0 r0 Hin Hreg Hrun0 Hlogged).
  - intros x Hz. exact (scripts_fail_on_zero known script x Hin Hz).
  - unfold parameterised_training_scripts in Hin. simpl in Hin.
    destruct Hin as [H | [H | [H | [H | [H | []]]]]]; inversion H; reflexivity.
  - intros x. unfold parameterised_training_scripts in Hin. simpl in Hin.
    destruct Hin as [H | [H | [H | [H | [H | []]]]]]; inversion H; reflexivity.
Qed.

End Regularization.

Lemma regularization_inverse_unguarded_witness :
  let argv := [AStr "--regularization"; AFloat 0] in
  let run := exec (Ex5.diabetes_training 0.78 0.85 argv) no_failure in
  reg_rate_of ["--regularization"] argv = Ok 0%float
  /\ snd run = Raise ZeroDivisionError
  /\ forall C solver, ~ In (ELogisticRegression C solver) (fst run).
Proof.
  intros argv run.
  destruct (regularization_inverse_unguarded 0.78 0.85 ["--regularization"]
              (Ex5.diabetes_training 0.78 0.85) argv 0%float no_failure
              (fst run) (snd run)
              (or_intror (or_intror (or_intror (or_introl eq_refl)))) eq_refl eq_refl)
    as (Hbuilt & _ & Hzero & _ & _).
  split; [reflexivity |]. split.
  - exact (proj1 (Hzero 0%float eq_refl)).
  - intros C solver HC. destruct (Hbuilt C solver HC) as [Hz _]. discriminate Hz.
Defined.

(** C9 as stated fails for the first training script of Exercise 3: its
    rate is the constant 0.01, whatever [--regularization] says; it
    trains with [C = 1/0.01], and the division does not fail (the run
    goes on to [os.makedirs]). *)
Lemma fixed_rate_script_ignores_regularization :
  let run := exec (Ex3.diabetes_training_fixed 0.78 0.85
                     [AStr "--regularization"; AFloat 0]) no_failure in
  In (ELogisticRegression (1 / 0.01) "liblinear") (fst run)
  /\ In (ERunLog "Regularization Rate" (VFloat 0.01)) (fst run)
  /\ snd run <> Raise ZeroDivisionError
  /\ snd run = Raise NameError.
Proof. simpl. repeat split; try tauto. discriminate. Qed.


(** ** The hyperparameter sweep (Exercise 5) *)

(** The number of points of a grid: one per choice of a value for
    each parameter. *)
Definition grid_size (space : dict (list float)) : nat :=
  fold_right (fun p n => List.length (snd p) * n) 1 space.

(** How many keywords a [BanditPolicy] was given. *)
Definition count_some {A} (x : option A) : nat :=
  match x with Some _ => 1 | None => 0 end.

Definition thresholds_given (p : bandit_policy) : nat :=
  count_some (evaluation_interval p) + count_some (slack_factor p)
  + count_some (slack_amount p) + count_some (delay_evaluation p).

Definition is_submit (ev : event) : bool :=
  match ev with ESubmitHyperDrive _ | ESubmitPipeline _ => true | _ => false end.

(** The calls of the sweep cell when nothing fails: the constructors
    of the configuration, the submission, the widget. *)
Definition hyperdrive_calls (cpu_cluster : compute) : trace :=
  [ECall "choice"; ECall "GridParameterSampling"; ECall "BanditPolicy";
   ECall "SKLearn"; ECall "HyperDriveConfig";
   ESubmitHyperDrive (Ex5.hyperdrive cpu_cluster);
   ECall "RunDetails"; ECall "show"].

(** Every run of the sweep cell: its eight calls, up to and including
    the first one that fails. *)
Lemma hyperdrive_cell_runs (cpu_cluster : compute) (o : oracle) :
  exec (Ex5.hyperdrive_cell cpu_cluster) o
  = match first_failure o 8 with
    | Some (k, e) => (firstn (S k) (hyperdrive_calls cpu_cluster), Raise e)
    | None => (hyperdrive_calls cpu_cluster, Ok tt)
    end.
Proof.
  unfold exec, Ex5.hyperdrive_cell, calls, for_each, bind, call, ret, shift,
    first_failure. simpl.
  destruct (o 0); simpl; [reflexivity |].
  destruct (o 1); simpl; [reflexivity |].
  destruct (o 2); simpl; [reflexivity |].
  destruct (o 3); simpl; [reflexivity |].
  destruct (o 4); simpl; [reflexivity |].
  destruct (o 5); simpl; [reflexivity |].
  destruct (o 6); simpl; [reflexivity |].
  destruct (o 7); simpl; reflexivity.
Qed.

(** C4 (amended).  What the sweep cell hands to the service is one
    configuration: the estimator that runs [diabetes_training.py] from
    the experiment folder on the cluster, a grid over the one parameter
    [--regularization] with the six values 0.001, 0.005, 0.01, 0.05,
    0.1 and 1.0, a bandit policy given two thresholds
    ([evaluation_interval] 2 and [slack_factor] 0.1), the primary
    metric AUC to be maximized, [max_total_runs] 6, the number of grid
    points, and [max_concurrent_runs] 4.  In every run the calls of the
    cell are its five constructors, the submission of this
    configuration and the two calls of the widget, up to the first one
    that fails: the configuration is submitted exactly when the five
    constructors return, at most once, and the cell returns exactly
    when none of its eight calls fails. *)
Theorem hyperdrive_sweep_is_configuration_only
    (cpu_cluster : compute) (o : oracle) (t : trace) (r : result unit) :
  exec (Ex5.hyperdrive_cell cpu_cluster) o = (t, r) ->
  let estimator :=
    mkSKLearn "./diabetes_training" cpu_cluster
      ["pandas"; "ipykernel"; "matplotlib"] ["azureml-sdk"; "argparse"; "pyarrow"]
      "diabetes_training.py" in
  let cfg :=
    mkHyperDrive estimator
      [("--regularization", [0.001; 0.005; 0.01; 0.05; 0.1; 1.0]%float)]
      (mkBandit (Some 2) (Some 0.1%float) None None)
      "AUC" MAXIMIZE 6 4 in
  let cell_calls :=
    [ECall "choice"; ECall "GridParameterSampling"; ECall "BanditPolicy";
     ECall "SKLearn"; ECall "HyperDriveConfig"; ESubmitHyperDrive cfg;
     ECall "RunDetails"; ECall "show"] in
  (exists n, 1 <= n <= 8 /\ t = firstn n cell_calls)
  /\ (In (ESubmitHyperDrive cfg) t <-> forall k, k < 5 -> o k = None)
  /\ (forall c, In (ESubmitHyperDrive c) t -> c = cfg)
  /\ List.length (filter is_submit t) <= 1
  /\ (r = Ok tt <-> forall k, k < 8 -> o k = None)
  /\ (r = Ok tt -> t = cell_calls)
  /\ grid_size (hyperparameter_sampling cfg) = 6
  /\ max_total_runs cfg = grid_size (hyperparameter_sampling cfg)
  /\ thresholds_given (policy cfg) = 2.
Proof.
  intros Hrun estimator cfg cell_calls.
  rewrite hyperdrive_cell_runs in Hrun.
  change (hyperdrive_calls cpu_cluster) with cell_calls in Hrun.
  destruct (first_failure o 8) as [[k e] |] eqn:Hfirst.
  - apply first_failure_from_some in Hfirst as (Hk & Hok & Hbefore).
    inversion Hrun; subst t r. clear Hrun.
    assert (Hcases : k = 0 \/ k = 1 \/ k = 2 \/ k = 3 \/ k = 4 \/ k = 5 \/ k = 6 \/ k = 7)
      by lia.
    split; [exists (S k); split; [lia | reflexivity] |].
    split; [| split; [| split; [| split; [| split]]]].
    + split.
      * intros Hin i Hi. apply Hbefore.
        destruct Hcases as [-> | [-> | [-> | [-> | [-> | Hge]]]]];
          try (simpl in Hin; exfalso;
               repeat (destruct Hin as [Hin | Hin]; [discriminate Hin |]); exact Hin).
        lia.
      * intros Hnone.
        destruct Hcases as [-> | [-> | [-> | [-> | [-> | [-> | [-> | ->]]]]]]];
          try (rewrite Hnone in Hok by lia; discriminate Hok);
          simpl; tauto.
    + intros c Hin.
      assert (Hin' : In (ESubmitHyperDrive c) cell_calls).
      { exact (in_prefix (ESubmitHyperDrive c) (S k) cell_calls Hin). }
      simpl in Hin'.
      repeat (destruct Hin' as [Hin' | Hin']; [try discriminate Hin' |]);
        try contradiction.
      inversion Hin'. reflexivity.
    + destruct Hcases as [-> | [-> | [-> | [-> | [-> | [-> | [-> | ->]]]]]]];
        simpl; lia.
    + split; [discriminate |]. intros Hnone. rewrite Hnone in Hok by lia. discriminate Hok.
    + discriminate.
    + repeat split; reflexivity.
  - pose proof (first_failure_from_none _ _ _ Hfirst) as Hnone.
    inversion Hrun; subst t r. clear Hrun.
    split; [exists 8; split; [lia | reflexivity] |].
    split; [split; [intros _ i Hi; apply Hnone; lia | intros _; simpl; tauto] |].
    split.
    { intros c Hin. simpl in Hin.
      repeat (destruct Hin as [Hin | Hin]; [try discriminate Hin |]); try contradiction.
      inversion Hin. reflexivity. }
    split; [simpl; lia |].
    split; [split; [intros _ i Hi; apply Hnone; lia | reflexivity] |].
    split; [reflexivity |].
    repeat split; reflexivity.
Qed.

Lemma hyperdrive_sweep_is_configuration_only_witness :
  let cpu_cluster := ExistingCompute "cpu-cluster" in
  let run := exec (Ex5.hyperdrive_cell cpu_cluster) no_failure in
  snd run = Ok tt
  /\ List.length (fst run) = 8
  /\ nth_error (fst run) 5 = Some (ESubmitHyperDrive (Ex5.hyperdrive cpu_cluster))
  /\ List.length (filter is_submit (fst run)) <= 1.
Proof.
  intros cpu_cluster run.
  destruct (hyperdrive_sweep_is_configuration_only cpu_cluster no_failure
              (fst run) (snd run) eq_refl)
    as (_ & _ & _ & Hone & Hret & Hcalls & _).
  assert (Hr : snd run = Ok tt) by (apply Hret; reflexivity).
  split; [exact Hr |].
  split; [exact (f_equal (@List.length event) (Hcalls Hr)) |].
  split; [exact (f_equal (fun l => nth_error l 5) (Hcalls Hr)) | exact Hone].
Defined.

(** C4 as stated fails: the configuration the cell submits does not
    consist of the sampling, the policy, the metric and the number of
    runs only.  It also names the estimator (the script to run, its
    folder, its packages and the cluster) and sets
    [max_concurrent_runs] to 4. *)
Lemma hyperdrive_config_holds_estimator_and_concurrency :
  let run := exec (Ex5.hyperdrive_cell (ExistingCompute "cpu-cluster")) no_failure in
  exists c, nth_error (fst run) 5 = Some (ESubmitHyperDrive c)
    /\ max_concurrent_runs c = 4
    /\ hd_estimator c
       = mkSKLearn "./diabetes_training" (ExistingCompute "cpu-cluster")
           ["pandas"; "ipykernel"; "matplotlib"] ["azureml-sdk"; "argparse"; "pyarrow"]
           "diabetes_training.py".
Proof.
  intros run. exists (Ex5.hyperdrive (ExistingCompute "cpu-cluster")).
  repeat split; reflexivity.
Qed.

(** ** The two-step training pipeline (Exercise 7) *)

(** The element that follows the option [flag] in a list of arguments. *)
Fixpoint argument_of (flag : string) (args : list step_arg) : option step_arg :=
  match args with
  | [] => None
  | a :: rest =>
      match a, rest with
      | SStr f, v :: _ => if String.eqb f flag then Some v else argument_of flag rest
      | _, _ => argument_of flag rest
      end
  end.

(** [args.output_folder] of the training script. *)
Definition output_folder_of (argv : list arg) : result string :=
  match parse_args ["--dataset_name"; "--regularization"; "--output_folder"] argv with
  | Ok ps => arg_str_default ps "--output_folder" "diabetes_model"
  | Raise e => Raise e
  end.

(** [args.model_folder] of the registration script. *)
Definition model_folder_of (argv : list arg) : result string :=
  match parse_args ["--model_folder"] argv with
  | Ok ps => arg_str_default ps "--model_folder" "diabetes_model"
  | Raise e => Raise e
  end.

Definition is_model_load (ev : event) : bool :=
  match ev with EJoblibLoad _ | EModelRegister _ _ => true | _ => false end.

Section Pipeline.
Variable default_datastore : string.
Variable cpu_cluster : compute.
(* where the platform places each data reference for the steps of a run *)
Variable mount : data_ref -> string.

Let model_folder := Ex7.model_folder default_datastore.
Let train_step := Ex7.train_step default_datastore cpu_cluster.
Let register_step := Ex7.register_step default_datastore cpu_cluster.

(** The model file, as both scripts name it. *)
Definition model_file : string := mount model_folder ++ "/model.pkl".



Lemma train_step_argv :
  parse_args ["--dataset_name"; "--regularization"; "--output_folder"]
    (Ex7.step_argv mount train_step)
  = Ok [("--dataset_name", AStr "Diabetes Dataset");
        ("--regularization", AFloat 0.1);
        ("--output_folder", AStr (mount model_folder))].
Proof. reflexivity. Qed.







End Pipeline.



(** ** What the notebooks catch *)

(** A cell or script as a run: the calls made and how it ended. *)
Definition run_from {V A} (v0 : V) (c : M V A) (o : oracle) : trace * result unit :=
  match c o v0 with
  | (t, _, Ok _) => (t, Ok tt)
  | (t, _, Raise e) => (t, Raise e)
  end.

(** The two handlers of the notebooks: [except ComputeTargetException]
    around the lookup of the compute target, [except Exception] around
    the lookup of the workspace. *)
Definition caught_by_design (ev : event) (e : exn) : bool :=
  match ev with
  | EComputeTarget _ _ => isinstance e "ComputeTargetException"
  | EWorkspace _ _ _ => isinstance e "Exception"
  | _ => false
  end.

(** Every failed call of every run either is one of the two lookups
    failing with an exception its handler names, and then is not made
    again; or ends the run as [after_failure] says. *)
Definition failures_surface (p : oracle -> trace * result unit) : Prop :=
  forall o t r, p o = (t, r) ->
  forall k e ev, o k = Some e -> nth_error t k = Some ev ->
    (caught_by_design ev e = true /\ forall j, k < j -> nth_error t j <> Some ev)
    \/ after_failure t r k e.

Lemma propagates_surface {V A} (v0 : V) (c : M V A) :
  propagates c -> failures_surface (run_from v0 c).
Proof.
  intros Hc o t r Hrun k e ev Hk Hn. right.
  unfold run_from in Hrun. destruct (c o v0) as [[t' v'] r'] eqn:Hrun'.
  assert (Hlen : k < List.length t').
  { assert (t' = t) by (destruct r'; inversion Hrun; reflexivity). subst t'.
    apply nth_error_Some. congruence. }
  pose proof (Hc _ _ _ _ _ Hrun' k e Hk Hlen) as Hafter.
  destruct r' as [a | e']; inversion Hrun; subst t r.
  - destruct (after_failure_not_ok _ _ _ _ Hafter) as [e' He']. discriminate.
  - destruct Hafter as [[Heq Hlast] | [Hr Hp]].
    + left. inversion Heq. auto.
    + right. auto.
Qed.

Ltac propagates :=
  first
    [ solve [apply halts_propagates; halts]
    | repeat first
        [ solve [apply halts_propagates; halts]
        | apply propagates_with_block; solve [halts]
        | apply propagates_bind; [| intros ?] ] ].

(** In a run with known calls: the failed call [k] is handled by
    design, or is where the run ended. *)
Ltac settle_failure k Hk Hn :=
  do 5 (try destruct k as [| k]); simpl in Hn; try discriminate Hn;
  injection Hn as <-;
  first
    [ exfalso; congruence
    | right; left; split; [congruence | reflexivity]
    | left; split;
      [ simpl; congruence
      | let j := fresh "j" in
        intros j Hj; do 5 (try destruct j as [| j]); simpl;
        first [ lia | discriminate ] ] ].

Lemma cpu_cluster_cell_surfaces (ws : workspace) :
  failures_surface (run_from tt (Ex4.cpu_cluster_cell ws)).
Proof.
  intros o t r Hrun k e ev Hk Hn. revert Hrun.
  unfold run_from, Ex4.cpu_cluster_cell, bind, try_except, call, ret, shift; simpl.
  destruct (o 0) as [e0 |] eqn:H0; simpl.
  - destruct (isinstance e0 "ComputeTargetException") eqn:Hc; simpl.
    + destruct (o 1) as [e1 |] eqn:H1; simpl.
      * intros Hrun; inversion Hrun; subst t r. settle_failure k Hk Hn.
      * destruct (o 2) as [e2 |] eqn:H2; simpl.
        -- intros Hrun; inversion Hrun; subst t r. settle_failure k Hk Hn.
        -- destruct (o 3) as [e3 |] eqn:H3; simpl;
             intros Hrun; inversion Hrun; subst t r; settle_failure k Hk Hn.
    + intros Hrun; inversion Hrun; subst t r. settle_failure k Hk Hn.
  - destruct (o 1) as [e1 |] eqn:H1; simpl;
      intros Hrun; inversion Hrun; subst t r; settle_failure k Hk Hn.
Qed.

Lemma workspace_cell_surfaces (SUBSCRIPTION_ID RESOURCE_GROUP_NAME WORKSPACE_NAME
    REGION : string) (v0 : option workspace) :
  failures_surface
    (run_from v0 (Ex1.workspace_cell SUBSCRIPTION_ID RESOURCE_GROUP_NAME
                    WORKSPACE_NAME REGION)).
Proof.
  intros o t r Hrun k e ev Hk Hn. revert Hrun. unfold run_from.
  pose proof (workspace_cell_runs SUBSCRIPTION_ID RESOURCE_GROUP_NAME WORKSPACE_NAME
                REGION o v0) as Hcases.
  destruct (o 0) as [e0 |] eqn:H0.
  - destruct (isinstance e0 "Exception") eqn:Hc.
    + destruct (exn_message e0) as [m |] eqn:Hm.
      * destruct (o 1) as [e1 |] eqn:H1.
        -- rewrite Hcases. intros Hrun; inversion Hrun; subst t r.
           settle_failure k Hk Hn.
        -- rewrite Hcases. destruct (o 2) as [e2 |] eqn:H2;
             intros Hrun; inversion Hrun; subst t r; settle_failure k Hk Hn.
      * rewrite Hcases. intros Hrun; inversion Hrun; subst t r.
        settle_failure k Hk Hn.
    + rewrite Hcases. intros Hrun; inversion Hrun; subst t r. settle_failure k Hk Hn.
  - rewrite Hcases. destruct (o 1) as [e1 |] eqn:H1;
      intros Hrun; inversion Hrun; subst t r; settle_failure k Hk Hn.
Qed.

(** The cell that reads the configuration back, its [json.loads]
    failing: the file is closed and the exception ends the cell. *)
Lemma read_config_closes_after_failure :
  run_from tt Ex1.read_config_cell (fail_at 2 ValueError)
  = ([ECall "open ./.azureml/config.json"; ECall "f.read"; ECall "json.loads";
      EClose "./.azureml/config.json"],
     Raise ValueError).
Proof. reflexivity. Qed.

Section Inventory.
(* the constants of the setup cell; what the platform's calls return;
   the command line of the scripts; the cluster of the later cells *)
Variables SUBSCRIPTION_ID RESOURCE_GROUP_NAME WORKSPACE_NAME REGION : string.
Variable ws : workspace.
Variables acc auc : float.
Variable data : dataframe.
Variable mean_by_age : list (Z * float).
Variable diabetes : dataframe.
Variable drawn : list nat.
Variable format_value : float -> string.
Variable prediction : Type.
Variable model_path : string.
Variable glob : string -> list string.
Variable genfromtxt : string -> list float.
Variable predict : list (list float) -> list prediction.
Variable str : prediction -> string.
Variable endpoint : string.
Variable session_header : dict string.
Variable answer : dict pyval.
Variable argv : list arg.
Variable cpu_cluster : compute.
Variable default_datastore : string.

(** Every code cell and every script of the seven notebooks. *)
Definition notebook_programs : list (string * (oracle -> trace * result unit)) :=
  [ (* Exercise 1 *)
    ("1: install", run_from tt (@calls unit ["pip install"]));
    ("1: sign in", run_from tt Ex1.sign_in_cell);
    ("1: workspace", run_from None (Ex1.workspace_cell SUBSCRIPTION_ID
                                      RESOURCE_GROUP_NAME WORKSPACE_NAME REGION));
    ("1: read config", run_from tt Ex1.read_config_cell);
    ("1: from config", run_from tt Ex1.from_config_cell);
    (* Exercise 2 *)
    ("2: install", run_from tt (@calls unit ["pip install"]));
    ("2: from config", run_from tt Ex2.from_config_cell);
    ("2: inline experiment", run_from tt (Ex2.inline_experiment_cell data mean_by_age));
    ("2: run details", run_from tt Ex2.run_details_cell);
    ("2: folder", run_from tt Ex2.folder_cell);
    ("2: diabetes_experiment.py", run_from tt (Ex2.diabetes_experiment data mean_by_age));
    ("2: submit", run_from tt Ex2.submit_cell);
    ("2: metrics", run_from tt Ex2.metrics_cell);
    (* Exercise 3 *)
    ("3: install", run_from tt (@calls unit ["pip install"]));
    ("3: from config", run_from tt Ex3.from_config_cell);
    ("3: datastore", run_from tt Ex3.datastore_cell);
    ("3: upload", run_from tt Ex3.upload_cell);
    ("3: dataset", run_from tt Ex3.dataset_cell);
    ("3: register dataset", run_from tt Ex3.register_dataset_cell);
    ("3: experiment", run_from tt Ex3.experiment_cell);
    ("3: diabetes_training.py, fixed rate",
     run_from tt (Ex3.diabetes_training_fixed acc auc argv));
    ("3: script run", run_from tt Ex3.script_run_cell);
    ("3: get metrics", run_from tt Ex3.get_metrics_cell);
    ("3: get file names", run_from tt Ex3.get_file_names_cell);
    ("3: register model", run_from tt Ex3.register_model_cell);
    ("3: list models", run_from tt Ex3.list_models_cell);
    ("3: diabetes_training.py, estimator",
     run_from tt (Ex3.diabetes_training_estimator acc auc argv));
    ("3: estimator", run_from tt Ex3.estimator_cell);
    ("3: metrics", run_from tt Ex3.metrics_cell);
    ("3: register and list", run_from tt Ex3.register_and_list_cell);
    ("3: data reference", run_from tt Ex3.data_ref_cell);
    ("3: diabetes_training.py, data folder",
     run_from tt (Ex3.diabetes_training_datafolder acc auc argv));
    ("3: data folder estimator", run_from tt Ex3.datafolder_estimator_cell);
    ("3: metrics again", run_from tt Ex3.metrics_cell);
    ("3: register and list again", run_from tt Ex3.register_and_list_cell);
    (* Exercise 4 *)
    ("4: install", run_from tt (@calls unit ["pip install"]));
    ("4: from config", run_from tt (Ex4.from_config_cell ws));
    ("4: cpu cluster", run_from tt (Ex4.cpu_cluster_cell ws));
    ("4: compute targets", run_from tt Ex4.compute_targets_cell);
    ("4: experiment", run_from tt Ex4.experiment_cell);
    ("4: diabetes_training.py", run_from tt (Ex4.diabetes_training acc auc argv));
    ("4: estimator", run_from tt Ex4.estimator_cell);
    ("4: metrics", run_from tt Ex4.metrics_cell);
    ("4: register and list", run_from tt Ex4.register_and_list_cell);
    ("4: sklearn estimator", run_from tt Ex4.sklearn_estimator_cell);
    ("4: metrics again", run_from tt Ex4.metrics_cell);
    ("4: register and list again", run_from tt Ex4.register_and_list_cell);
    (* Exercise 5 *)
    ("5: install", run_from tt (@calls unit ["pip install"]));
    ("5: from config", run_from tt (Ex5.from_config_cell ws));
    ("5: cpu cluster", run_from tt (Ex5.cpu_cluster_cell ws));
    ("5: experiment", run_from tt Ex5.experiment_cell);
    ("5: diabetes_training.py", run_from tt (Ex5.diabetes_training acc auc argv));
    ("5: hyperdrive", run_from tt (Ex5.hyperdrive_cell cpu_cluster));
    ("5: best run", run_from tt Ex5.best_run_cell);
    ("5: register and list", run_from tt Ex5.register_and_list_cell);
    ("5: automl folder", run_from tt Ex5.automl_folder_cell);
    ("5: get_data.py", run_from tt Ex5.get_data);
    ("5: automl config", run_from tt Ex5.automl_config_cell);
    ("5: automl submit", run_from tt Ex5.automl_submit_cell);
    ("5: automl output", run_from tt Ex5.automl_output_cell);
    ("5: explanation", run_from tt Ex5.explanation_cell);
    ("5: register and list again", run_from tt Ex5.register_and_list_cell);
    (* Exercise 7 *)
    ("7: install", run_from tt (@calls unit ["pip install"]));
    ("7: from config", run_from tt (Ex7.from_config_cell ws));
    ("7: folder", run_from tt Ex7.folder_cell);
    ("7: train_diabetes.py", run_from tt (Ex7.train_diabetes argv));
    ("7: register_diabetes.py", run_from tt (Ex7.register_diabetes argv));
    ("7: cpu cluster", run_from tt (Ex7.cpu_cluster_cell ws));
    ("7: run config", run_from tt Ex7.run_config_cell);
    ("7: steps", run_from tt Ex7.steps_cell);
    ("7: pipeline", run_from tt (Ex7.pipeline_cell default_datastore cpu_cluster));
    ("7: list models", run_from tt Ex7.list_models_cell);
    (* Exercise 8 *)
    ("8: install", run_from tt (@calls unit ["pip install"]));
    ("8: from config", run_from tt (Ex8.from_config_cell ws));
    ("8: batch data", run_from tt (Ex8.batch_data_cell diabetes drawn format_value));
    ("8: cpu cluster", run_from tt (Ex8.cpu_cluster_cell ws));
    ("8: data reference", run_from tt Ex8.data_reference_cell);
    ("8: folder", run_from tt Ex8.folder_cell);
    ("8: batch_diabetes.py",
     run_from tt (Ex8.batch_diabetes prediction model_path glob genfromtxt predict str
                    argv));
    ("8: run config", run_from tt Ex8.run_config_cell);
    ("8: step", run_from tt Ex8.step_cell);
    ("8: pipeline", run_from tt (Ex8.pipeline_cell default_datastore cpu_cluster));
    ("8: results", run_from tt Ex8.results_cell);
    ("8: publish", run_from tt (Ex8.publish_cell endpoint));
    ("8: endpoint", run_from tt (@ret unit unit tt));
    ("8: authorization header", run_from tt (Ex8.auth_header_cell session_header));
    ("8: REST call", run_from tt (Ex8.rest_cell answer endpoint session_header));
    ("8: run details", run_from tt Ex8.run_details_cell);
    ("8: published results", run_from tt Ex8.published_results_cell) ].

Lemma notebook_programs_surface :
  Forall (fun p => failures_surface (snd p)) notebook_programs.
Proof.
  unfold notebook_programs.
  repeat (apply Forall_cons;
          [ cbn [snd];
            first [ apply cpu_cluster_cell_surfaces
                  | apply workspace_cell_surfaces
                  | apply propagates_surface; propagates ] |]).
  apply Forall_nil.
Qed.

(** C1 (amended).  In every run of every cell and script of the
    notebooks, a failed call is either the lookup of a compute target
    failing with a [ComputeTargetException] or the lookup of the
    workspace failing with an [Exception], the two conditions the
    notebooks have handlers for, and that lookup is not made again; or
    it ends the run with an exception: its own, nothing being called
    after it, or, when it failed inside a [with] block (that of the
    batch script, or that of the cell that reads the saved configuration
    back), after the one call that closes the file of the block. *)
Theorem failures_caught_only_at_the_two_lookups
    (name : string) (p : oracle -> trace * result unit)
    (o : oracle) (t : trace) (r : result unit) (k : nat) (e : exn) (ev : event) :
  In (name, p) notebook_programs ->
  p o = (t, r) ->
  o k = Some e ->
  nth_error t k = Some ev ->
  (caught_by_design ev e = true /\ forall j, k < j -> nth_error t j <> Some ev)
  \/ after_failure t r k e.
Proof.
  intros Hin Hrun Hk Hn.
  pose proof (proj1 (Forall_forall _ _) notebook_programs_surface _ Hin) as Hp.
  exact (Hp o t r Hrun k e ev Hk Hn).
Qed.

End Inventory.

Lemma failures_caught_only_at_the_two_lookups_witness :
  let ws := FoundWorkspace "aml-workspace" "sub" "aml-resource-group" in
  let t := [EComputeTarget ws "cpu-cluster"] in
  run_from tt (Ex8.cpu_cluster_cell ws) (fail_at 0 KeyError) = (t, Raise KeyError)
  /\ caught_by_design (EComputeTarget ws "cpu-cluster") KeyError = false
  /\ after_failure t (@Raise unit KeyError) 0 KeyError.
Proof.
  intros ws t.
  split; [reflexivity |]. split; [reflexivity |].
  destruct (failures_caught_only_at_the_two_lookups
              "sub" "aml-resource-group" "aml-workspace" "eastus2" ws
              0.78 0.85 (mkDataFrame [] []) [] (mkDataFrame [] []) [] (fun _ => "")
              unit "" (fun _ => []) (fun _ => []) (fun _ => []) (fun _ => "")
              "" [] [] [] (ExistingCompute "cpu-cluster") "workspaceblobstore"
              "8: cpu cluster" (run_from tt (Ex8.cpu_cluster_cell ws))
              (fail_at 0 KeyError) t (Raise KeyError) 0 KeyError
              (EComputeTarget ws "cpu-cluster"))
    as [[Hcaught _] | Hafter].
  - unfold notebook_programs. do 75 right. left. reflexivity.
  - reflexivity.
  - reflexivity.
  - reflexivity.
  - discriminate Hcaught.
  - exact Hafter.
Defined.

(** C1 as stated fails: the setup cell catches the failure of the
    workspace lookup, which is no [ComputeTargetException], and goes on
    to create the workspace; the run ends normally. *)
Lemma workspace_lookup_failure_is_caught :
  let created := CreatedWorkspace "aml-workspace" "<YOUR_AZURE_SUBSCRIPTION_ID>"
                   "aml-resource-group" "eastus2" in
  isinstance WorkspaceException "ComputeTargetException" = false
  /\ run_from None
       (Ex1.workspace_cell "<YOUR_AZURE_SUBSCRIPTION_ID>" "aml-resource-group"
          "aml-workspace" "eastus2")
       (fail_at 0 WorkspaceException)
     = ([EWorkspace "aml-workspace" "<YOUR_AZURE_SUBSCRIPTION_ID>" "aml-resource-group";
         EWorkspaceCreate "aml-workspace" "<YOUR_AZURE_SUBSCRIPTION_ID>"
           "aml-resource-group" true "eastus2";
         EWriteConfig created],
        Ok tt).
Proof. split; reflexivity. Qed.


(** * More of the notebooks *)

(** ** Scripts obtain the run context first *)

Definition no_context (ev : event) : Prop := ev <> ERunGetContext.

(** [c] makes no call at all and fails, or its first call is
    [Run.get_context()] and it does not ask for the context again. *)
Definition context_first {V A} (c : M V A) : Prop :=
  forall o v t v' r, c o v = (t, v', r) ->
    (t = [] /\ is_ok r = false)
    \/ exists rest, t = ERunGetContext :: rest /\ Forall no_context rest.

Lemma context_first_call {V A} (f : unit -> M V A) :
  emits no_context (f tt) -> context_first (bind (call ERunGetContext tt) f).
Proof.
  intros Hf o v t v' r H. right.
  destruct (bind_inv _ _ _ _ _ _ _ H) as [(t1 & v1 & [] & t2 & H1 & H2 & ->) | (e & H1 & ->)].
  - apply call_ok_inv in H1 as (-> & -> & _ & _).
    exists t2. split; [reflexivity | exact (Hf _ _ _ _ _ H2)].
  - unfold call in H1. inversion H1; subst. exists []. split; [reflexivity | constructor].
Qed.

Lemma context_first_lift {V A B} (x : result A) (f : A -> M V B) :
  (forall a, x = Ok a -> context_first (f a)) ->
  context_first (bind (lift_result x) f).
Proof.
  intros Hf o v t v' r H.
  destruct (bind_inv _ _ _ _ _ _ _ H) as [(t1 & v1 & a & t2 & H1 & H2 & ->) | (e & H1 & ->)].
  - apply lift_result_inv in H1 as (-> & -> & Hx). simpl.
    exact (Hf a (eq_sym Hx) _ _ _ _ _ H2).
  - apply lift_result_inv in H1 as (-> & _ & _). left. auto.
Qed.

Ltac context_first :=
  repeat (apply context_first_lift; intros ? ?);
  apply context_first_call;
  emits_with ltac:(discriminate).

Section RunContext.
Variables acc auc : float.
Variable data : dataframe.
Variable mean_by_age : list (Z * float).
Variable prediction : Type.
Variable model_path : string.
Variable glob : string -> list string.
Variable genfromtxt : string -> list float.
Variable predict : list (list float) -> list prediction.
Variable str : prediction -> string.
Variable argv : list arg.

Lemma scripts_context_first :
  Forall (fun s => context_first (snd s))
    (scripts acc auc data mean_by_age prediction model_path glob genfromtxt predict str
       argv).
Proof.
  unfold scripts.
  repeat (apply Forall_cons; [simpl |]); try apply Forall_nil.
  - unfold Ex2.diabetes_experiment, Ex2.experiment_body. context_first.
  - unfold Ex3.diabetes_training_fixed, Training.train_and_evaluate. context_first.
  - unfold Ex3.diabetes_training_estimator, Training.train_and_evaluate. context_first.
  - unfold Ex3.diabetes_training_datafolder, Training.train_and_evaluate. context_first.
  - unfold Ex4.diabetes_training, Training.train_and_evaluate. context_first.
  - unfold Ex5.diabetes_training, Training.train_and_evaluate. context_first.
  - unfold Ex7.train_diabetes. context_first.
  - unfold Ex7.register_diabetes. context_first.
  - unfold Ex8.batch_diabetes. context_first.
Qed.

(** X1.  In every run of every script the notebooks write, the first
    call made is [Run.get_context()], and the context is asked for once:
    nothing is logged, loaded or written before the script has its run.
    A run that makes no call at all has failed: its command line was
    refused before the context was asked for. *)
Theorem run_context_is_the_first_call
    (name : string) (script : M unit unit) (o : oracle) (t : trace) (r : result unit) :
  In (name, script)
    (scripts acc auc data mean_by_age prediction model_path glob genfromtxt predict str
       argv) ->
  exec script o = (t, r) ->
  (t = [] /\ is_ok r = false)
  \/ (nth_error t 0 = Some ERunGetContext
      /\ List.length (filter (fun ev => match ev with ERunGetContext => true | _ => false end) t)
         = 1
      /\ forall i ev, nth_error t i = Some ev -> is_run_op ev = true -> 0 < i).
Proof.
  intros Hin Hrun.
  pose proof (proj1 (Forall_forall _ _) scripts_context_first _ Hin) as Hc. simpl in Hc.
  unfold exec in Hrun. destruct (script o tt) as [[t' v'] r'] eqn:Hs.
  inversion Hrun; subst t' r'.
  destruct (Hc _ _ _ _ _ Hs) as [Hempty | (rest & -> & Hrest)]; [left; exact Hempty |].
  right. split; [reflexivity |]. split.
  - simpl. f_equal. clear - Hrest.
    induction Hrest as [| ev rest Hev _ IH]; [reflexivity |].
    simpl. destruct ev; try exact IH. exfalso. apply Hev. reflexivity.
  - intros [| i] ev Hi Hop; [| lia].
    simpl in Hi. inversion Hi; subst ev. discriminate Hop.
Qed.

End RunContext.

Lemma run_context_is_the_first_call_witness :
  let script := Ex7.register_diabetes [AStr "--model_folder"; AStr "diabetes_model"] in
  let run := exec script no_failure in
  snd run = Ok tt
  /\ nth_error (fst run) 0 = Some ERunGetContext
  /\ List.length (fst run) = 4.
Proof.
  intros script run. split; [reflexivity |].
  destruct (run_context_is_the_first_call 0.78 0.85 (mkDataFrame [] []) [] nat
              "" (fun _ => []) (fun _ => []) (fun _ => []) str_of_nat
              [AStr "--model_folder"; AStr "diabetes_model"]
              "Exercise 7 register_diabetes.py" script no_failure (fst run) (snd run))
    as [[Hempty _] | [Hfirst _]].
  - simpl. do 7 right. left. reflexivity.
  - reflexivity.
  - discriminate Hempty.
  - split; [exact Hfirst | reflexivity].
Defined.

(** ** What the experiment logs (Exercise 2) *)

(** With no call failing, a command made of two runs both. *)
Lemma bind_no_failure {V A B} (c : M V A) (f : A -> M V B) v t1 v1 a t2 v2 r :
  c no_failure v = (t1, v1, Ok a) ->
  f a no_failure v1 = (t2, v2, r) ->
  bind c f no_failure v = (t1 ++ t2, v2, r).
Proof.
  intros H1 H2. unfold bind. rewrite H1.
  change (shift (List.length t1) no_failure) with no_failure. rewrite H2. reflexivity.
Qed.

Lemma for_each_no_failure {V A} (body : A -> M V unit) (calls_of : A -> trace)
    (xs : list A) :
  (forall x, In x xs -> forall v, body x no_failure v = (calls_of x, v, Ok tt)) ->
  forall v, for_each xs body no_failure v = (flat_map calls_of xs, v, Ok tt).
Proof.
  induction xs as [| x rest IH]; intros Hbody v; simpl; [reflexivity |].
  eapply bind_no_failure.
  - apply Hbody. left. reflexivity.
  - apply IH. intros y Hy. apply Hbody. right. exact Hy.
Qed.

Section Experiment.
Variable data : dataframe.
Variable mean_by_age : list (Z * float).

(** The row logged for an age group. *)
Definition pedigree_row (group : Z * float) : event :=
  ERunLogRow "Mean Diabetes Pedigree by Age"
    [("Age", VInt (fst group)); ("Diabetes_Pedigree", VFloat (snd group))].

(** What a completed experiment has sent to its run, in order. *)
Definition experiment_log : trace :=
  [ERunLog "observations" (VInt (Z.of_nat (List.length (df_rows data))))]
  ++ map ERunLogImage (removelast (df_columns data))
  ++ map pedigree_row mean_by_age
  ++ [ERunUploadFile "outputs/sample.csv" "./sample.csv"; ERunComplete].

Lemma filter_run_op_calls (names : list string) :
  filter is_run_op (map ECall names) = [].
Proof. induction names as [| n ns IH]; simpl; [reflexivity | exact IH]. Qed.

Lemma nth_error_map_pair {A B} (l : list (A * B)) (i : nat) (a : A) (b : B) :
  nth_error (map fst l) i = Some a -> nth_error (map snd l) i = Some b ->
  nth_error l i = Some (a, b).
Proof.
  revert i. induction l as [| [a' b'] l IH]; intros [| i] Ha Hb; simpl in *;
    try discriminate.
  - inversion Ha; inversion Hb; reflexivity.
  - apply IH; assumption.
Qed.

Lemma flat_map_nth_error {A B} (f : A -> B) (l : list A) :
  flat_map (fun i => match nth_error l i with Some x => [f x] | None => [] end)
    (seq 0 (List.length l))
  = map f l.
Proof.
  induction l as [| x l IH]; simpl; [reflexivity |].
  f_equal. rewrite <- seq_shift, flat_map_concat_map, map_map, <- flat_map_concat_map.
  exact IH.
Qed.

Lemma experiment_body_trace o (v : unit) t v' :
  Ex2.experiment_body data mean_by_age o v = (t, v', Ok tt) ->
  filter is_run_op t = experiment_log.
Proof.
  intros H. unfold Ex2.experiment_body in H.
  bind_step H.
  bind_step H.
  bind_step H.
  apply (for_each_ok_inv _
           (fun col => map ECall ["plt.figure"; "fig.gca"; "data.boxplot"; "ax.set_title";
                                  "ax.set_ylabel"] ++ [ERunLogImage col])) in Hc.
  2:{ clear. intros col o v t v' H.
      bind_step H. apply calls_ok_inv in Hc as (-> & ->).
      apply call_ok_inv in H as (-> & -> & _ & _). auto. }
  destruct Hc as [-> ->].
  bind_step H.
  bind_step H.
  bind_step H.
  apply (for_each_ok_inv _
           (fun index => match nth_error mean_by_age index with
                         | Some group => [pedigree_row group]
                         | None => []
                         end)) in Hc.
  2:{ clear. intros index o v t v' H.
      bind_step H. apply lift_result_inv in Hc as (-> & -> & Hage).
      bind_step H. apply lift_result_inv in Hc as (-> & -> & Hped).
      apply call_ok_inv in H as (-> & -> & _ & _).
      unfold py_index in Hage, Hped.
      destruct (nth_error (map fst mean_by_age) index) as [age |] eqn:Ha; [| discriminate].
      destruct (nth_error (map snd mean_by_age) index) as [ped |] eqn:Hp; [| discriminate].
      inversion Hage; inversion Hped; subst.
      rewrite (nth_error_map_pair _ _ _ _ Ha Hp). auto. }
  destruct Hc as [-> ->].
  bind_step H. apply calls_ok_inv in Hc as (-> & ->).
  bind_step H.
  apply call_ok_inv in H as (-> & -> & _ & _).
  unfold range. rewrite length_map.
  assert (Hrows : flat_map (fun index => match nth_error mean_by_age index return trace with
                                         | Some group => [pedigree_row group]
                                         | None => []
                                         end) (seq 0 (List.length mean_by_age))
                  = map pedigree_row mean_by_age)
    by exact (flat_map_nth_error pedigree_row mean_by_age).
  rewrite Hrows. clear Hrows.
  unfold experiment_log.
  rewrite !filter_app. cbn [filter is_run_op map app].
  f_equal.
  assert (Himages : forall cols,
             filter is_run_op
               (flat_map (fun col => [ECall "plt.figure"; ECall "fig.gca";
                                      ECall "data.boxplot"; ECall "ax.set_title";
                                      ECall "ax.set_ylabel"; ERunLogImage col]) cols)
             = map ERunLogImage cols).
  { intros cols. induction cols as [| c cols IH]; [reflexivity |].
    simpl. f_equal. exact IH. }
  rewrite Himages. f_equal.
  assert (Hlogged : filter is_run_op (map pedigree_row mean_by_age)
                    = map pedigree_row mean_by_age).
  { clear. induction mean_by_age as [| g l IH]; [reflexivity |].
    simpl. f_equal. exact IH. }
  rewrite Hlogged. reflexivity.
Qed.

Lemma experiment_body_completes (v : unit) :
  exists t, Ex2.experiment_body data mean_by_age no_failure v = (t, v, Ok tt).
Proof.
  unfold Ex2.experiment_body. eexists.
  eapply bind_no_failure; [reflexivity |].
  eapply bind_no_failure; [reflexivity |].
  eapply bind_no_failure.
  { apply (for_each_no_failure _
             (fun col => map ECall ["plt.figure"; "fig.gca"; "data.boxplot";
                                    "ax.set_title"; "ax.set_ylabel"]
                         ++ [ERunLogImage col])).
    intros col _ v0. reflexivity. }
  eapply bind_no_failure; [reflexivity |].
  eapply bind_no_failure; [reflexivity |].
  eapply bind_no_failure.
  { apply (for_each_no_failure _
             (fun index => match nth_error mean_by_age index return trace with
                           | Some group => [pedigree_row group]
                           | None => []
                           end)).
    intros index Hin v0. unfold range in Hin. apply in_seq in Hin.
    rewrite length_map in Hin.
    destruct (nth_error mean_by_age index) as [[age ped] |] eqn:Hn.
    - unfold bind, lift_result, py_index, call.
      rewrite (map_nth_error fst _ _ Hn), (map_nth_error snd _ _ Hn). reflexivity.
    - apply nth_error_None in Hn. lia. }
  eapply bind_no_failure; [reflexivity |].
  eapply bind_no_failure; [reflexivity |].
  reflexivity.
Qed.

(** X2.  An experiment that completes, run as the script or inline in
    the notebook, has sent to its run, in this order: the number of rows
    of the data as [observations]; one image per column of the data but
    the last, in the order of the columns; one row per age group of the
    mean pedigree, in the order of the groups; the sample file; and the
    completion signal.  When no library call fails the script completes:
    its own loop over the groups never indexes out of range. *)
Theorem experiment_logs_follow_the_data :
  (forall o t, exec (Ex2.diabetes_experiment data mean_by_age) o = (t, Ok tt) ->
     filter is_run_op t = experiment_log)
  /\ (forall o t, exec (Ex2.inline_experiment_cell data mean_by_age) o = (t, Ok tt) ->
        filter is_run_op t = experiment_log)
  /\ snd (exec (Ex2.diabetes_experiment data mean_by_age) no_failure) = Ok tt
  /\ List.length experiment_log
     = 3 + (List.length (df_columns data) - 1) + List.length mean_by_age.
Proof.
  split; [| split; [| split]].
  - intros o t Hrun. unfold exec in Hrun.
    destruct (Ex2.diabetes_experiment data mean_by_age o tt) as [[t' v'] r'] eqn:H.
    inversion Hrun; subst t' r'. clear Hrun.
    unfold Ex2.diabetes_experiment in H.
    bind_step H.
    apply experiment_body_trace in H. exact H.
  - intros o t Hrun. unfold exec in Hrun.
    destruct (Ex2.inline_experiment_cell data mean_by_age o tt) as [[t' v'] r'] eqn:H.
    inversion Hrun; subst t' r'. clear Hrun.
    unfold Ex2.inline_experiment_cell in H.
    bind_step H. apply calls_ok_inv in Hc as (-> & ->).
    apply experiment_body_trace in H. exact H.
  - unfold exec, Ex2.diabetes_experiment.
    destruct (experiment_body_completes tt) as [t Ht].
    rewrite (bind_no_failure (call ERunGetContext tt)
               (fun _ => Ex2.experiment_body data mean_by_age)
               tt [ERunGetContext] tt tt t tt (Ok tt) eq_refl Ht).
    reflexivity.
  - unfold experiment_log. rewrite !length_app, !length_map. simpl.
    rewrite removelast_firstn_len, length_firstn. lia.
Qed.

End Experiment.

(** ** Registering a trained model (Exercises 3, 4, 5) *)

(** A metric of a run: the value logged under a name, or the values
    when the name was logged more than once. *)
Inductive metric : Type :=
| Scalar (v : pyval)
| Series (vs : list pyval).

Fixpoint log_metric (name : string) (v : pyval) (ms : dict metric) : dict metric :=
  match ms with
  | [] => [(name, Scalar v)]
  | (n, m) :: rest =>
      if String.eqb n name
      then (n, match m with
               | Scalar v0 => Series [v0; v]
               | Series vs => Series (vs ++ [v])
               end) :: rest
      else (n, m) :: log_metric name v rest
  end.

Fixpoint metrics_after (t : trace) (ms : dict metric) : dict metric :=
  match t with
  | [] => ms
  | ERunLog name v :: rest => metrics_after rest (log_metric name v ms)
  | _ :: rest => metrics_after rest ms
  end.

(** [run.get_metrics()] for a run whose calls were [t]: what [run.log]
    recorded, by name. *)
Definition get_metrics (t : trace) : dict metric := metrics_after t [].

(** The keyword arguments of [register_model]. *)
Record model_registration : Type := mkRegistration {
  reg_model_path : string;
  reg_model_name : string;
  reg_tags : dict string;
  reg_properties : dict metric
}.

(** [run.register_model(model_path='outputs/diabetes_model.pkl',
    model_name='diabetes_model', tags={'Training context': context},
    properties={'AUC': metrics['AUC'], 'Accuracy': metrics['Accuracy']})]:
    the arguments handed over, [metrics] being what [get_metrics()]
    returned. *)
Definition registration_of (context : string) (metrics : dict metric)
  : result model_registration :=
  match dict_get metrics "AUC" with
  | Raise e => Raise e
  | Ok AUC =>
      match dict_get metrics "Accuracy" with
      | Raise e => Raise e
      | Ok Accuracy =>
          Ok (mkRegistration "outputs/diabetes_model.pkl" "diabetes_model"
                [("Training context", context)]
                [("AUC", AUC); ("Accuracy", Accuracy)])
      end
  end.

Section Registration.
Variables acc auc : float.

(** The training scripts that evaluate their model. *)
Definition evaluating_scripts : list (list arg -> M unit unit) :=
  [Ex3.diabetes_training_fixed acc auc;
   Ex3.diabetes_training_estimator acc auc;
   Ex3.diabetes_training_datafolder acc auc;
   Ex4.diabetes_training acc auc;
   Ex5.diabetes_training acc auc].

(** The calls of the shared block when it returns, which takes a
    script that imports [os]. *)
Definition train_and_evaluate_calls (reg : float) : trace :=
  [ECall "diabetes[features].values"; ECall "diabetes['Diabetic'].values";
   ECall "train_test_split";
   ERunLog "Regularization Rate" (VFloat reg);
   ELogisticRegression (1 / reg) "liblinear"; ECall "LogisticRegression.fit";
   ECall "model.predict"; ECall "np.average"; ERunLog "Accuracy" (VFloat acc);
   ECall "model.predict_proba"; ECall "roc_auc_score"; ERunLog "AUC" (VFloat auc);
   ECall "roc_curve"; ECall "plt.figure"; ECall "plt.plot"; ECall "plt.plot";
   ECall "plt.xlabel"; ECall "plt.ylabel"; ECall "plt.title";
   ERunLogImage "ROC"; ECall "plt.show";
   EMakedirs "outputs"; EJoblibDump "outputs/diabetes_model.pkl"; ERunComplete].

(** What the registering cell hands over after a run that logged the
    two metrics. *)
Definition registered (context : string) : model_registration :=
  mkRegistration "outputs/diabetes_model.pkl" "diabetes_model"
    [("Training context", context)]
    [("AUC", Scalar (VFloat auc)); ("Accuracy", Scalar (VFloat acc))].

(** How a run went that logged its AUC: to the end, the model saved;
    or to [os.makedirs] and no further. *)
Definition saved_or_stopped (script : list arg -> M unit unit) (t : trace)
    (r : result unit) : Prop :=
  (r = Ok tt
   /\ script = Ex3.diabetes_training_datafolder acc auc
   /\ In (EJoblibDump "outputs/diabetes_model.pkl") t)
  \/ (r = Raise NameError
      /\ last t ERunGetContext = ECall "plt.show"
      /\ forall ev, In ev t ->
           ev <> EMakedirs "outputs" /\ ev <> EJoblibDump "outputs/diabetes_model.pkl").

Ltac run_evaluating_script :=
  unfold exec, bind, call, calls, for_each, lift_result, ret, raise, shift,
    Training.train_and_evaluate, name_lookup, py_truediv, no_failure; simpl.

Ltac stopped_before_auc :=
  let Hrun := fresh "Hrun" in
  let Hin := fresh "Hin" in
  intros Hrun Hin; inversion Hrun; subst; simpl in Hin; exfalso;
  repeat (destruct Hin as [Hin | Hin]; [discriminate Hin |]); exact Hin.

Ltac logged_auc_and_stopped :=
  let Hrun := fresh "Hrun" in
  let Hev := fresh "Hev" in
  intros Hrun _; inversion Hrun; subst;
  split; [reflexivity |]; split; [reflexivity |]; split; [reflexivity |];
  right; split; [reflexivity |]; split; [reflexivity |];
  intros ev Hev; simpl in Hev;
  repeat (destruct Hev as [Hev | Hev]; [subst ev; split; discriminate |]);
  contradiction.

Lemma evaluating_scripts_log_metrics (script : list arg -> M unit unit)
    (argv : list arg) (context : string) (t : trace) (r : result unit) :
  In script evaluating_scripts ->
  exec (script argv) no_failure = (t, r) ->
  In (ERunLog "AUC" (VFloat auc)) t ->
  dict_get (get_metrics t) "AUC" = Ok (Scalar (VFloat auc))
  /\ dict_get (get_metrics t) "Accuracy" = Ok (Scalar (VFloat acc))
  /\ registration_of context (get_metrics t) = Ok (registered context)
  /\ saved_or_stopped script t r.
Proof.
  unfold evaluating_scripts. simpl.
  intros [<- | [<- | [<- | [<- | [<- | []]]]]].
  - unfold Ex3.diabetes_training_fixed. run_evaluating_script. logged_auc_and_stopped.
  - unfold Ex3.diabetes_training_estimator.
    destruct (Training.parse_regularization argv) as [reg | e] eqn:Hreg;
      run_evaluating_script; rewrite ?Hreg; simpl; [| stopped_before_auc].
    destruct (PrimFloat.eqb reg 0); simpl; [stopped_before_auc |].
    logged_auc_and_stopped.
  - unfold Ex3.diabetes_training_datafolder.
    destruct (parse_args _ argv) as [ps | e] eqn:Hps;
      run_evaluating_script; rewrite ?Hps; simpl; [| stopped_before_auc].
    destruct (arg_float ps "--regularization" 0.01) as [reg | e]; simpl;
      [| stopped_before_auc].
    destruct (arg_str ps "--data-folder" None) as [[d |] | e]; simpl;
      try stopped_before_auc.
    destruct (PrimFloat.eqb reg 0); simpl; [stopped_before_auc |].
    intros Hrun _; inversion Hrun; subst.
    split; [reflexivity |]. split; [reflexivity |]. split; [reflexivity |].
    left. split; [reflexivity |]. split; [reflexivity |]. simpl. tauto.
  - unfold Ex4.diabetes_training.
    destruct (Training.parse_regularization argv) as [reg | e] eqn:Hreg;
      run_evaluating_script; rewrite ?Hreg; simpl; [| stopped_before_auc].
    destruct (PrimFloat.eqb reg 0); simpl; [stopped_before_auc |].
    logged_auc_and_stopped.
  - unfold Ex5.diabetes_training.
    destruct (Training.parse_regularization argv) as [reg | e] eqn:Hreg;
      run_evaluating_script; rewrite ?Hreg; simpl; [| stopped_before_auc].
    destruct (PrimFloat.eqb reg 0); simpl; [stopped_before_auc |].
    logged_auc_and_stopped.
Qed.

Lemma metrics_after_calls (names : list string) (rest : trace) (ms : dict metric) :
  metrics_after (map ECall names ++ rest) ms = metrics_after rest ms.
Proof. induction names as [| n ns IH]; simpl; [reflexivity | exact IH]. Qed.

(** X3.  With no call failing, a run of a training script of Exercises
    3 to 5 that has logged its AUC has logged [AUC] and [Accuracy] once
    each: the cell that registers the model finds the two metrics it
    looks up, and the properties it hands over are the values the script
    computed.  The file it names, [outputs/diabetes_model.pkl], was
    saved only if the script is the data-folder version of Exercise 3,
    whose run completed; the run of any other version ended with
    [NameError] right after [plt.show()], having neither created
    [outputs] nor saved the model. *)
Theorem registration_finds_the_logged_metrics
    (script : list arg -> M unit unit) (argv : list arg) (context : string)
    (t : trace) (r : result unit) :
  In script evaluating_scripts ->
  exec (script argv) no_failure = (t, r) ->
  In (ERunLog "AUC" (VFloat auc)) t ->
  dict_get (get_metrics t) "AUC" = Ok (Scalar (VFloat auc))
  /\ dict_get (get_metrics t) "Accuracy" = Ok (Scalar (VFloat acc))
  /\ registration_of context (get_metrics t)
     = Ok (mkRegistration "outputs/diabetes_model.pkl" "diabetes_model"
             [("Training context", context)]
             [("AUC", Scalar (VFloat auc)); ("Accuracy", Scalar (VFloat acc))])
  /\ ((r = Ok tt
       /\ script = Ex3.diabetes_training_datafolder acc auc
       /\ In (EJoblibDump "outputs/diabetes_model.pkl") t)
      \/ (r = Raise NameError
          /\ last t ERunGetContext = ECall "plt.show"
          /\ forall ev, In ev t ->
               ev <> EMakedirs "outputs"
               /\ ev <> EJoblibDump "outputs/diabetes_model.pkl")).
Proof.
  intros Hin Hrun Hauc.
  exact (evaluating_scripts_log_metrics script argv context t r Hin Hrun Hauc).
Qed.

End Registration.

Lemma registration_finds_the_logged_metrics_witness :
  let run := exec (Ex4.diabetes_training 0.774 0.848 [AStr "--regularization"; AFloat 0.1])
               no_failure in
  In (ERunLog "AUC" (VFloat 0.848)) (fst run)
  /\ registration_of "Azure ML compute" (get_metrics (fst run))
     = Ok (mkRegistration "outputs/diabetes_model.pkl" "diabetes_model"
             [("Training context", "Azure ML compute")]
             [("AUC", Scalar (VFloat 0.848)); ("Accuracy", Scalar (VFloat 0.774))])
  /\ snd run = Raise NameError.
Proof.
  intros run.
  assert (Hauc : In (ERunLog "AUC" (VFloat 0.848)) (fst run)) by (simpl; tauto).
  destruct (registration_finds_the_logged_metrics 0.774 0.848
              (Ex4.diabetes_training 0.774 0.848)
              [AStr "--regularization"; AFloat 0.1] "Azure ML compute"
              (fst run) (snd run))
    as (_ & _ & Hreg & _).
  - simpl. tauto.
  - reflexivity.
  - exact Hauc.
  - split; [exact Hauc |]. split; [exact Hreg | reflexivity].
Defined.

(** ** The sweep and the script it runs (Exercise 5) *)

(** The command line of the run the sweep starts for the value [x] of
    the parameter [flag]. *)
Definition sweep_argv (flag : string) (x : float) : list arg := [AStr flag; AFloat x].

(** X4.  Every point of the grid of the sweep is a command line the
    training script accepts: the option swept is the one option its
    parser declares and none of the six values is zero, so that with no
    call failing the run builds its model with [C = 1/value] and logs,
    under the very name the sweep is told to maximize, the AUC it
    computed.  The run then ends with [NameError] at [os.makedirs], the
    script having no [import os]: no point of the grid saves a model. *)
Theorem sweep_points_are_runs_of_the_script
    (acc auc : float) (cpu_cluster : compute)
    (flag : string) (values : list float) (x : float) :
  let cfg := Ex5.hyperdrive cpu_cluster in
  In (flag, values) (hyperparameter_sampling cfg) ->
  In x values ->
  let run := exec (Ex5.diabetes_training acc auc (sweep_argv flag x)) no_failure in
  Training.parse_regularization (sweep_argv flag x) = Ok x
  /\ PrimFloat.eqb x 0 = false
  /\ In (ELogisticRegression (1 / x) "liblinear") (fst run)
  /\ In (ERunLog (primary_metric_name cfg) (VFloat auc)) (fst run)
  /\ snd run = Raise NameError
  /\ last (fst run) ERunGetContext = ECall "plt.show"
  /\ est_entry_script (hd_estimator cfg) = "diabetes_training.py".
Proof.
  intros cfg Hflag Hx run. subst cfg run.
  simpl in Hflag. destruct Hflag as [Hflag | []].
  inversion Hflag; subst flag values. clear Hflag.
  simpl in Hx.
  destruct Hx as [<- | [<- | [<- | [<- | [<- | [<- | []]]]]]];
    (split; [reflexivity |]); (split; [reflexivity |]);
    (split; [simpl; tauto |]); (split; [simpl; tauto |]);
    (split; [reflexivity |]); split; reflexivity.
Qed.

Lemma sweep_points_are_runs_of_the_script_witness :
  let cpu := ExistingCompute "cpu-cluster" in
  let run := exec (Ex5.diabetes_training 0.774 0.848 (sweep_argv "--regularization" 0.05))
               no_failure in
  In 0.05%float [0.001; 0.005; 0.01; 0.05; 0.1; 1.0]%float
  /\ In (ELogisticRegression (1 / 0.05) "liblinear") (fst run)
  /\ In (ERunLog "AUC" (VFloat 0.848)) (fst run)
  /\ snd run = Raise NameError.
Proof.
  intros cpu run.
  assert (Hx : In 0.05%float [0.001; 0.005; 0.01; 0.05; 0.1; 1.0]%float)
    by (simpl; tauto).
  destruct (sweep_points_are_runs_of_the_script 0.774 0.848 cpu "--regularization"
              [0.001; 0.005; 0.01; 0.05; 0.1; 1.0]%float 0.05%float
              (or_introl eq_refl) Hx)
    as (_ & _ & Hmodel & Hauc & Hend & _).
  split; [exact Hx |]. split; [exact Hmodel |]. split; [exact Hauc | exact Hend].
Defined.

(** ** The results file is closed, whatever fails (Exercise 8) *)

Definition not_open (ev : event) : Prop := forall p, ev <> EOpenW p.

(** In a run with the calls [t] under [o], every file whose opening
    returned is closed by a later call. *)
Definition closes_what_it_opens (o : oracle) (t : trace) : Prop :=
  forall k p, nth_error t k = Some (EOpenW p) -> o k = None ->
    exists j, k < j /\ nth_error t j = Some (EClose p).

Definition file_safe {V A} (c : M V A) : Prop :=
  forall o v t v' r, c o v = (t, v', r) -> closes_what_it_opens o t.

Lemma not_open_nth (t : trace) (k : nat) (p : string) :
  Forall not_open t -> nth_error t k <> Some (EOpenW p).
Proof.
  intros Hall Hk. apply nth_error_In in Hk.
  exact (proj1 (Forall_forall _ _) Hall _ Hk p eq_refl).
Qed.

Lemma file_safe_emits {V A} (c : M V A) : emits not_open c -> file_safe c.
Proof.
  intros Hc o v t v' r H k p Hk _. exfalso.
  exact (not_open_nth t k p (Hc _ _ _ _ _ H) Hk).
Qed.

Lemma file_safe_bind {V A B} (c : M V A) (f : A -> M V B) :
  file_safe c -> (forall a, file_safe (f a)) -> file_safe (bind c f).
Proof.
  intros Hc Hf o v t v' r H k p Hk Ho.
  destruct (bind_inv _ _ _ _ _ _ _ H) as [(t1 & v1 & a & t2 & H1 & H2 & ->) | (e & H1 & ->)].
  - destruct (Nat.lt_ge_cases k (List.length t1)) as [Hlt | Hge].
    + rewrite nth_error_app1 in Hk by exact Hlt.
      destruct (Hc _ _ _ _ _ H1 k p Hk Ho) as (j & Hj & Hclose).
      exists j. split; [exact Hj |].
      rewrite nth_error_app1; [exact Hclose |].
      apply nth_error_Some. congruence.
    + rewrite nth_error_app2 in Hk by exact Hge.
      assert (Ho' : shift (List.length t1) o (k - List.length t1) = None).
      { unfold shift. replace (List.length t1 + (k - List.length t1)) with k by lia.
        exact Ho. }
      destruct (Hf a _ _ _ _ _ H2 _ p Hk Ho') as (j & Hj & Hclose).
      exists (List.length t1 + j). split; [lia |].
      rewrite nth_error_app2 by lia.
      replace (List.length t1 + j - List.length t1) with j by lia. exact Hclose.
  - exact (Hc _ _ _ _ _ H1 k p Hk Ho).
Qed.

(** [f = open(p, 'w')], then [with f: body], then the rest. *)
Lemma file_safe_with {V A B} (p : string) (body : M V A) (rest : A -> M V B) :
  emits not_open body -> (forall a, emits not_open (rest a)) ->
  file_safe (bind (call (EOpenW p) tt)
               (fun _ => bind (try_finally body (call (EClose p) tt)) rest)).
Proof.
  intros Hbody Hrest o v t v' r H k q Hk Ho.
  destruct (bind_inv _ _ _ _ _ _ _ H) as [(t1 & v1 & [] & t2 & H1 & H2 & ->) | (e & H1 & ->)].
  - apply call_ok_inv in H1 as (-> & -> & _ & _).
    assert (Hshape : exists tb t3, t2 = tb ++ [EClose p] ++ t3
                                   /\ Forall not_open tb /\ Forall not_open t3).
    { destruct (bind_inv _ _ _ _ _ _ _ H2)
        as [(t3 & v3 & a & t4 & H3 & H4 & ->) | (e & H3 & ->)].
      - unfold try_finally, call in H3.
        destruct (body (shift (List.length [EOpenW p]) o) v) as [[tb vb] rb] eqn:Hb.
        exists tb, t4. split; [| split].
        + destruct (shift (List.length tb) (shift (List.length [EOpenW p]) o) 0);
            inversion H3; subst; rewrite <- app_assoc; reflexivity.
        + exact (Hbody _ _ _ _ _ Hb).
        + exact (Hrest a _ _ _ _ _ H4).
      - unfold try_finally, call in H3.
        destruct (body (shift (List.length [EOpenW p]) o) v) as [[tb vb] rb] eqn:Hb.
        exists tb, []. split; [| split].
        + destruct (shift (List.length tb) (shift (List.length [EOpenW p]) o) 0);
            inversion H3; subst; reflexivity.
        + exact (Hbody _ _ _ _ _ Hb).
        + constructor. }
    destruct Hshape as (tb & t3 & -> & Htb & Ht3).
    destruct k as [| k].
    + simpl in Hk. inversion Hk; subst q.
      exists (S (List.length tb)). split; [lia |].
      simpl. rewrite nth_error_app2 by lia.
      replace (List.length tb - List.length tb) with 0 by lia. reflexivity.
    + exfalso. simpl in Hk.
      assert (Hall : Forall not_open (tb ++ [EClose p] ++ t3)).
      { apply Forall_app. split; [exact Htb |].
        apply Forall_app. split; [| exact Ht3].
        repeat constructor. intros p'. discriminate. }
      exact (not_open_nth _ k q Hall Hk).
  - unfold call in H1. destruct k as [| k].
    + destruct (o 0); [discriminate | inversion H1].
    + inversion H1; subst. destruct k; discriminate.
Qed.

Ltac not_open := intros ?; discriminate.

Section ResultsFile.
Variable prediction : Type.
Variable model_path : string.
Variable glob : string -> list string.
Variable genfromtxt : string -> list float.
Variable predict : list (list float) -> list prediction.
Variable str : prediction -> string.

Lemma batch_diabetes_file_safe (argv : list arg) :
  file_safe (Ex8.batch_diabetes prediction model_path glob genfromtxt predict str argv).
Proof.
  unfold Ex8.batch_diabetes.
  do 12 (apply file_safe_bind;
         [apply file_safe_emits; emits_with ltac:(not_open) | intros ?]).
  apply file_safe_with; [| intros ?]; emits_with ltac:(not_open).
Qed.

Definition opens_results_only (ev : event) : Prop :=
  forall p, ev = EOpenW p -> p = "outputs/results.txt".

Lemma batch_diabetes_opens_results_only (argv : list arg) :
  emits opens_results_only
    (Ex8.batch_diabetes prediction model_path glob genfromtxt predict str argv).
Proof.
  unfold Ex8.batch_diabetes.
  emits_with ltac:(intros ? Hev; first [discriminate Hev | inversion Hev; reflexivity]).
Qed.

(** X5.  In every run of the batch scoring script, whatever call fails:
    the one file the script opens is [outputs/results.txt], and once its
    opening has returned, the file is closed by a later call of the same
    run. *)
Theorem results_file_is_always_closed
    (argv : list arg) (o : oracle) (t : trace) (r : result unit) :
  exec (Ex8.batch_diabetes prediction model_path glob genfromtxt predict str argv) o
  = (t, r) ->
  (forall p, In (EOpenW p) t -> p = "outputs/results.txt")
  /\ (forall k p, nth_error t k = Some (EOpenW p) -> o k = None ->
        exists j, k < j /\ nth_error t j = Some (EClose p)).
Proof.
  intros Hrun. unfold exec in Hrun.
  destruct (Ex8.batch_diabetes _ _ _ _ _ _ argv o tt) as [[t' v'] r'] eqn:H.
  inversion Hrun; subst t' r'. clear Hrun.
  split.
  - intros p Hp.
    exact (proj1 (Forall_forall _ _) (batch_diabetes_opens_results_only argv _ _ _ _ _ H)
             _ Hp p eq_refl).
  - exact (batch_diabetes_file_safe argv _ _ _ _ _ H).
Qed.

End ResultsFile.

Definition OSError : exn := builtin_exn ["OSError"; "Exception"].

Lemma results_file_is_always_closed_witness :
  let script := Ex8.batch_diabetes nat "azureml-models/diabetes_model/1/model.pkl"
                  (fun _ => ["batch_data/1.csv"; "batch_data/2.csv"])
                  (fun _ => [1; 85; 66; 29; 0; 26.6; 0.351; 31]%float)
                  (fun rows => map (fun _ => 1) rows) str_of_nat
                  [AStr "--input_dir"; AStr "batch_data"] in
  let run := exec script (fail_at 13 OSError) in
  snd run = Raise OSError
  /\ nth_error (fst run) 11 = Some (EOpenW "outputs/results.txt")
  /\ nth_error (fst run) 13 = Some (EWrite "outputs/results.txt" ("2.csv: 1" ++ newline))
  /\ exists j, 11 < j /\ nth_error (fst run) j = Some (EClose "outputs/results.txt").
Proof.
  intros script run.
  split; [reflexivity |]. split; [reflexivity |]. split; [reflexivity |].
  destruct (results_file_is_always_closed nat "azureml-models/diabetes_model/1/model.pkl"
              (fun _ => ["batch_data/1.csv"; "batch_data/2.csv"])
              (fun _ => [1; 85; 66; 29; 0; 26.6; 0.351; 31]%float)
              (fun rows => map (fun _ => 1) rows) str_of_nat
              [AStr "--input_dir"; AStr "batch_data"]
              (fail_at 13 OSError) (fst run) (snd run) eq_refl) as [_ Hclosed].
  exact (Hclosed 11 "outputs/results.txt" eq_refl eq_refl).
Defined.

(** ** The loop over the predictions (Exercise 8) *)

Lemma bind_raises {V A B} (c : M V A) (f : A -> M V B) o v t v' e :
  c o v = (t, v', Raise e) -> bind c f o v = (t, v', Raise e).
Proof. intros H. unfold bind. rewrite H. reflexivity. Qed.

Lemma try_finally_no_failure {V A} (body : M V A) (fin : M V unit) v t1 v1 r t2 v2 :
  body no_failure v = (t1, v1, r) ->
  fin no_failure v1 = (t2, v2, Ok tt) ->
  try_finally body fin no_failure v = (t1 ++ t2, v2, r).
Proof.
  intros H1 H2. unfold try_finally. rewrite H1.
  change (shift (List.length t1) no_failure) with no_failure. rewrite H2. reflexivity.
Qed.

Lemma list_comp_no_failure {V A B} (ev : A -> event) (g : A -> B) (xs : list A) (v : V) :
  list_comp xs (fun x => call (ev x) (g x)) no_failure v = (map ev xs, v, Ok (map g xs)).
Proof.
  induction xs as [| x rest IH]; simpl; [reflexivity |].
  etransitivity.
  - eapply bind_no_failure; [reflexivity |].
    eapply bind_no_failure; [exact IH | reflexivity].
  - simpl. rewrite app_nil_r. reflexivity.
Qed.

Section PredictionsLoop.
Variable prediction : Type.
Variable model_path : string.
Variable glob : string -> list string.
Variable genfromtxt : string -> list float.
Variable predict : list (list float) -> list prediction.
Variable str : prediction -> string.

(** The loop of the [with] block, over the indices [xs]. *)
Let write_loop (file_names : list string) (predictions : list prediction)
    (path : string) (xs : list nat) : M unit unit :=
  for_each xs (fun i =>
    file_name <- lift_result (py_index file_names i) ;;
    p <- lift_result (py_index predictions i) ;;
    call (EWrite path (snd (os_path_split file_name) ++ ": " ++ str p ++ newline)) tt).

Lemma write_loop_shift f fs p ps path (xs : list nat) :
  write_loop (f :: fs) (p :: ps) path (map S xs) = write_loop fs ps path xs.
Proof.
  unfold write_loop. induction xs as [| x xs IH]; [reflexivity |].
  cbn [map for_each]. rewrite IH. reflexivity.
Qed.

(** The loop runs over the predictions: it writes a line for each
    file that has a prediction, and fails on the first prediction that
    has no file. *)
Lemma write_loop_run (fs : list string) (ps : list prediction) (path : string) (v : unit) :
  write_loop fs ps path (range (List.length ps)) no_failure v
  = (map (fun fp => EWrite path (result_line prediction str fp ++ newline)) (combine fs ps),
     v,
     if (List.length ps <=? List.length fs)%nat then Ok tt else Raise IndexError).
Proof.
  unfold range. revert fs. induction ps as [| p ps IH]; intros fs.
  - destruct fs; reflexivity.
  - cbn [List.length]. rewrite <- cons_seq, <- seq_shift.
    destruct fs as [| f fs].
    + reflexivity.
    + unfold write_loop. cbn [for_each].
      eapply (bind_no_failure _ _ v [_] v tt).
      * unfold bind, lift_result, py_index, call. simpl.
        unfold result_line. cbn [fst snd]. rewrite !append_assoc. reflexivity.
      * fold (write_loop (f :: fs) (p :: ps) path (map S (seq 0 (List.length ps)))).
        rewrite write_loop_shift. exact (IH fs).
Qed.

(** The calls of the script up to the opening of the results file,
    over the folder [input_dir]. *)
Definition scoring_calls (input_dir : string) : trace :=
  [ERunGetContext; ERunLog "Input Folder" (VStr input_dir);
   ECall "Model.get_model_path"; EJoblibLoad model_path; ECall "glob";
   ERunLog "File Count"
     (VInt (Z.of_nat (List.length (glob (os_path_join input_dir "*.csv")))))]
  ++ map (fun _ => ECall "np.genfromtxt") (glob (os_path_join input_dir "*.csv"))
  ++ [ECall "np.asarray"; ECall "model.predict"; EMakedirs "outputs";
      EOpenW "outputs/results.txt"].

Ltac scoring_prefix Hdir :=
  (eapply bind_no_failure; [reflexivity |]);
  (eapply bind_no_failure; [reflexivity |]);
  cbv beta; rewrite Hdir;
  do 6 (eapply bind_no_failure; [reflexivity |]);
  (eapply bind_no_failure; [apply list_comp_no_failure |]);
  do 4 (eapply bind_no_failure; [reflexivity |]).

Lemma batch_diabetes_no_failure (argv : list arg) (input_dir : string) :
  input_dir_of argv = Ok input_dir ->
  let file_names := glob (os_path_join input_dir "*.csv") in
  let predictions := predict (map genfromtxt file_names) in
  let fits := (List.length predictions <=? List.length file_names)%nat in
  exec (Ex8.batch_diabetes prediction model_path glob genfromtxt predict str argv)
    no_failure
  = (scoring_calls input_dir
     ++ map (fun fp => EWrite "outputs/results.txt"
                         (result_line prediction str fp ++ newline))
          (combine file_names predictions)
     ++ (if fits then [EFlush "outputs/results.txt"; EClose "outputs/results.txt";
                       EClose "outputs/results.txt"; ERunComplete]
         else [EClose "outputs/results.txt"]),
     if fits then Ok tt else Raise IndexError).
Proof.
  intros Hdir file_names predictions fits.
  unfold input_dir_of in Hdir.
  destruct (parse_args ["--input_dir"] argv) as [ps | e] eqn:Hps; [| discriminate].
  assert (Hrun : Ex8.batch_diabetes prediction model_path glob genfromtxt predict str argv
                   no_failure tt
                 = (scoring_calls input_dir
                    ++ map (fun fp => EWrite "outputs/results.txt"
                                        (result_line prediction str fp ++ newline))
                         (combine file_names predictions)
                    ++ (if fits then [EFlush "outputs/results.txt";
                                      EClose "outputs/results.txt";
                                      EClose "outputs/results.txt"; ERunComplete]
                        else [EClose "outputs/results.txt"]),
                    tt, if fits then Ok tt else Raise IndexError)).
  2:{ unfold exec. rewrite Hrun. reflexivity. }
  unfold Ex8.batch_diabetes. rewrite Hps.
  change (os_path_join "outputs" "results.txt") with "outputs/results.txt".
  pose proof (write_loop_run file_names predictions "outputs/results.txt" tt) as Hloop.
  unfold write_loop in Hloop. fold fits in Hloop.
  destruct fits.
  - etransitivity.
    { scoring_prefix Hdir.
      eapply bind_no_failure.
      + eapply try_finally_no_failure; [| reflexivity].
        eapply bind_no_failure; [exact Hloop | reflexivity].
      + eapply bind_no_failure; reflexivity. }
    unfold scoring_calls. cbn [app]. rewrite <- ?app_assoc. cbn [app]. reflexivity.
  - etransitivity.
    { scoring_prefix Hdir.
      eapply bind_raises.
      eapply try_finally_no_failure; [| reflexivity].
      eapply bind_raises. exact Hloop. }
    unfold scoring_calls. cbn [app]. rewrite <- ?app_assoc. cbn [app]. reflexivity.
Qed.

Lemma scoring_calls_open (input_dir : string) :
  file_contents "outputs/results.txt" (scoring_calls input_dir) None = Some "".
Proof.
  unfold scoring_calls. rewrite !file_contents_app.
  rewrite (file_contents_untouched _ [_; _; _; _; _; _]) by reflexivity.
  rewrite (file_contents_untouched _ (map _ _)).
  - reflexivity.
  - generalize (glob (os_path_join input_dir "*.csv")). intros l.
    induction l; simpl; auto.
Qed.

Lemma scoring_calls_not_complete (input_dir : string) :
  ~ In ERunComplete (scoring_calls input_dir).
Proof.
  unfold scoring_calls. intros Hin.
  apply in_app_or in Hin as [Hin | Hin].
  - simpl in Hin. repeat (destruct Hin as [Hin | Hin]; [discriminate |]). exact Hin.
  - apply in_app_or in Hin as [Hin | Hin].
    + apply in_map_iff in Hin as (f & Hf & _). discriminate.
    + simpl in Hin. repeat (destruct Hin as [Hin | Hin]; [discriminate |]). exact Hin.
Qed.

(** X6.  With no call failing, the batch scoring script writes one line
    per pair of a matched file and a prediction, in order, as far as
    both lists go: its loop runs over the predictions.  When there are
    no more predictions than files it completes (files without a
    prediction get no line); when there are more, it fails with
    [IndexError] on the first prediction that has no file, the lines
    written so far stay in the closed file, and the run is not
    completed. *)
Theorem results_follow_the_predictions (argv : list arg) (input_dir : string) :
  input_dir_of argv = Ok input_dir ->
  let file_names := glob (os_path_join input_dir "*.csv") in
  let predictions := predict (map genfromtxt file_names) in
  let rows := combine file_names predictions in
  let run := exec (Ex8.batch_diabetes prediction model_path glob genfromtxt predict str
                     argv) no_failure in
  file_contents "outputs/results.txt" (fst run) None
  = Some (String.concat ""
            (map (fun fp => result_line prediction str fp ++ newline)%string rows))
  /\ List.length rows = Nat.min (List.length file_names) (List.length predictions)
  /\ (List.length predictions <= List.length file_names ->
        snd run = Ok tt /\ last (fst run) ERunGetContext = ERunComplete)
  /\ (List.length file_names < List.length predictions ->
        snd run = Raise IndexError
        /\ last (fst run) ERunGetContext = EClose "outputs/results.txt"
        /\ ~ In ERunComplete (fst run)).
Proof.
  intros Hdir file_names predictions rows run.
  pose proof (batch_diabetes_no_failure argv input_dir Hdir) as Hrun.
  cbv zeta in Hrun. fold file_names predictions rows run in Hrun.
  destruct (List.length predictions <=? List.length file_names)%nat eqn:Hfits;
    rewrite Hrun; cbn [fst snd];
    (split; [| split; [apply length_combine | split]]).
  - rewrite !file_contents_app, scoring_calls_open.
    rewrite (file_contents_writes "outputs/results.txt"
               (fun fp => (result_line prediction str fp ++ newline)%string)).
    reflexivity.
  - intros _. split; [reflexivity |].
    change [EFlush "outputs/results.txt"; EClose "outputs/results.txt";
            EClose "outputs/results.txt"; ERunComplete]
      with ([EFlush "outputs/results.txt"; EClose "outputs/results.txt";
             EClose "outputs/results.txt"] ++ [ERunComplete]).
    rewrite !app_assoc. apply last_last.
  - intros Hlt. apply Nat.leb_le in Hfits. lia.
  - rewrite !file_contents_app, scoring_calls_open.
    rewrite (file_contents_writes "outputs/results.txt"
               (fun fp => (result_line prediction str fp ++ newline)%string)).
    reflexivity.
  - intros Hle. apply Nat.leb_gt in Hfits. lia.
  - intros _. split; [reflexivity |]. split.
    + rewrite !app_assoc. apply last_last.
    + intros Hin. apply in_app_or in Hin as [Hin | Hin].
      * exact (scoring_calls_not_complete input_dir Hin).
      * apply in_app_or in Hin as [Hin | Hin].
        -- apply in_map_iff in Hin as (fp & Hfp & _). discriminate.
        -- destruct Hin as [Hin | []]. discriminate.
Qed.

End PredictionsLoop.

Lemma results_follow_the_predictions_witness :
  let glob := fun _ : string => ["batch_data/1.csv"; "batch_data/2.csv"] in
  let genfromtxt := fun _ : string => [1; 85; 66; 29; 0; 26.6; 0.351; 31]%float in
  let predict := fun _ : list (list float) => [0; 1; 1] in
  let argv := [AStr "--input_dir"; AStr "batch_data"] in
  let run := exec (Ex8.batch_diabetes nat "azureml-models/diabetes_model/1/model.pkl"
                     glob genfromtxt predict str_of_nat argv) no_failure in
  input_dir_of argv = Ok "batch_data"
  /\ snd run = Raise IndexError
  /\ file_contents "outputs/results.txt" (fst run) None
     = Some ("1.csv: 0" ++ newline ++ "2.csv: 1" ++ newline)%string
  /\ last (fst run) ERunGetContext = EClose "outputs/results.txt".
Proof.
  intros glob genfromtxt predict argv run.
  destruct (results_follow_the_predictions nat "azureml-models/diabetes_model/1/model.pkl"
              glob genfromtxt predict str_of_nat argv "batch_data" eq_refl)
    as (Hfile & _ & _ & Hmore).
  destruct (Hmore ltac:(simpl; lia)) as (Hraise & Hlast & _).
  split; [reflexivity |]. split; [exact Hraise |]. split; [exact Hfile | exact Hlast].
Defined.

(** ** Dictionaries *)

Lemma dict_get_missing {A} (d : dict A) (key : string) :
  (forall x, ~ In (key, x) d) -> dict_get d key = Raise KeyError.
Proof.
  induction d as [| [k x] rest IH]; intros Hmiss; simpl; [reflexivity |].
  destruct (String.eqb k key) eqn:Hk.
  - apply String.eqb_eq in Hk. subst k. exfalso. apply (Hmiss x). left. reflexivity.
  - apply IH. intros y Hy. apply (Hmiss y). right. exact Hy.
Qed.

(** ** The answer of the REST call (Exercise 8) *)

(** X7.  When the JSON the service answers with has no ["Id"] field,
    the cell that triggers the published pipeline never yields a run
    identifier; with no call failing it ends with [KeyError], and it
    does so after the POST has been sent: the request is not undone. *)
Theorem run_id_needs_the_id_field
    (endpoint : string) (session_header : dict string) (answer : dict pyval)
    (o : oracle) (t : trace) (r : result pyval) :
  (forall x, ~ In ("Id", x) answer) ->
  exec (Ex8.trigger_via_rest endpoint session_header answer) o = (t, r) ->
  is_ok r = false
  /\ exec (Ex8.trigger_via_rest endpoint session_header answer) no_failure
     = (trigger_calls endpoint session_header, Raise KeyError)
  /\ nth_error (trigger_calls endpoint session_header) 3
     = Some (post_request endpoint session_header).
Proof.
  intros Hmiss Hrun. apply dict_get_missing in Hmiss.
  rewrite trigger_runs in Hrun. split; [| split; [| reflexivity]].
  - destruct (o 0); [inversion Hrun; reflexivity |].
    destruct (o 1); [inversion Hrun; reflexivity |].
    destruct (o 2); [inversion Hrun; reflexivity |].
    destruct (o 3); [inversion Hrun; reflexivity |].
    destruct (o 4); inversion Hrun; [reflexivity |].
    rewrite Hmiss. reflexivity.
  - rewrite trigger_runs. simpl. rewrite Hmiss. reflexivity.
Qed.

Lemma run_id_needs_the_id_field_witness :
  let header := [("Authorization", "Bearer eyJ0eXAi")] in
  let answer := [("error", VStr "PipelineNotFound")] in
  let run := exec (Ex8.trigger_via_rest "https://eastus2.aether.ms/pipelines/v1.0/run"
                     header answer) no_failure in
  snd run = Raise KeyError
  /\ nth_error (fst run) 3
     = Some (EHttpPost "https://eastus2.aether.ms/pipelines/v1.0/run" header
               [("ExperimentName", VStr "Batch_Pipeline_via_REST")]).
Proof.
  intros header answer run.
  assert (Hmiss : forall x, ~ In ("Id", x) answer).
  { intros x [Hx | []]. discriminate Hx. }
  destruct (run_id_needs_the_id_field "https://eastus2.aether.ms/pipelines/v1.0/run"
              header answer no_failure (fst run) (snd run) Hmiss eq_refl)
    as (_ & Hrun & Hpost).
  split; [exact (f_equal snd Hrun) |].
  replace (fst run)
    with (trigger_calls "https://eastus2.aether.ms/pipelines/v1.0/run" header)
    by (symmetry; exact (f_equal fst Hrun)).
  exact Hpost.
Defined.

(** ** The handler of the workspace setup cell (Exercise 1) *)

(** X8.  In the workspace setup cell, when the lookup raises an
    exception that the handler catches but that has no [message]
    attribute, the handler itself fails at [print(ex.message)]: the
    creation of the workspace is not attempted, [ws] stays [None], no
    configuration is written, and the cell ends with [AttributeError]
    in place of the exception of the lookup. *)
Theorem workspace_handler_needs_a_message
    (SUBSCRIPTION_ID RESOURCE_GROUP_NAME WORKSPACE_NAME REGION : string)
    (o : oracle) (v0 : option workspace) (e : exn) :
  o 0 = Some e ->
  isinstance e "Exception" = true ->
  exn_message e = None ->
  Ex1.workspace_cell SUBSCRIPTION_ID RESOURCE_GROUP_NAME WORKSPACE_NAME REGION o v0
  = ([EWorkspace WORKSPACE_NAME SUBSCRIPTION_ID RESOURCE_GROUP_NAME], None,
     Raise AttributeError).
Proof.
  intros H0 Hcatch Hmsg.
  pose proof (workspace_cell_runs SUBSCRIPTION_ID RESOURCE_GROUP_NAME WORKSPACE_NAME
                REGION o v0) as Hcases.
  rewrite H0, Hcatch, Hmsg in Hcases. exact Hcases.
Qed.

Lemma workspace_handler_needs_a_message_witness :
  isinstance ValueError "Exception" = true
  /\ exn_message ValueError = None
  /\ Ex1.workspace_cell "<YOUR_AZURE_SUBSCRIPTION_ID>" "aml-resource-group"
       "aml-workspace" "eastus2" (fail_at 0 ValueError) None
     = ([EWorkspace "aml-workspace" "<YOUR_AZURE_SUBSCRIPTION_ID>" "aml-resource-group"],
        None, Raise AttributeError).
Proof.
  split; [reflexivity |]. split; [reflexivity |].
  exact (workspace_handler_needs_a_message "<YOUR_AZURE_SUBSCRIPTION_ID>"
           "aml-resource-group" "aml-workspace" "eastus2" (fail_at 0 ValueError) None
           ValueError eq_refl eq_refl eq_refl).
Defined.

(** ** When the cluster is created (Exercises 4, 5, 7, 8) *)

(** X9.  In each of the four cells that obtain cpu-cluster: a
    provisioning call is made only when the lookup raised
    [ComputeTargetException]; a lookup that fails with any other
    exception ends the cell with that exception after the one call;
    and a cell that returns has waited for the cluster it returns, as
    its last call. *)
Theorem cluster_created_only_when_not_found
    (ws : workspace) (cell : M unit compute) (o : oracle) (t : trace)
    (r : result compute) :
  In cell (cpu_cluster_cells ws) ->
  exec cell o = (t, r) ->
  (existsb is_provisioning t = true ->
     exists e, o 0 = Some e /\ isinstance e "ComputeTargetException" = true)
  /\ (forall e, o 0 = Some e -> isinstance e "ComputeTargetException" = false ->
        t = [EComputeTarget ws "cpu-cluster"] /\ r = Raise e)
  /\ (forall c, r = Ok c -> last t (ECall "") = EWaitForCompletion c).
Proof.
  intros Hin Hrun. apply cpu_cluster_cells_same in Hin. subst cell.
  revert Hrun.
  unfold exec, Ex4.cpu_cluster_cell, bind, try_except, call, ret, shift; simpl.
  destruct (o 0) as [e0 |] eqn:H0; simpl.
  - destruct (isinstance e0 "ComputeTargetException") eqn:Hc; simpl.
    + destruct (o 1) as [e1 |] eqn:H1; simpl;
        [| destruct (o 2) as [e2 |] eqn:H2; simpl;
           [| destruct (o 3) as [e3 |] eqn:H3; simpl]];
        intros H; inversion H; subst; simpl;
        (split; [intros _; exists e0; auto |]);
        (split; [intros e He Hn; inversion He; subst; congruence |]);
        intros c Hr; inversion Hr; reflexivity.
    + intros H; inversion H; subst; simpl.
      split; [discriminate |].
      split; [intros e He _; inversion He; auto |].
      intros c Hr; discriminate Hr.
  - destruct (o 1) as [e1 |] eqn:H1; simpl;
      intros H; inversion H; subst; simpl;
      (split; [discriminate |]);
      (split; [discriminate |]);
      intros c Hr; inversion Hr; reflexivity.
Qed.

Definition AuthenticationException : exn :=
  mkExn ["AuthenticationException"; "UserErrorException"; "AzureMLException";
         "Exception"; "BaseException"; "object"]
        (Some "Could not retrieve user token.").

Lemma cluster_created_only_when_not_found_witness :
  let ws := FoundWorkspace "aml-workspace" "sub" "aml-resource-group" in
  let run := exec (Ex7.cpu_cluster_cell ws) (fail_at 0 AuthenticationException) in
  In (Ex7.cpu_cluster_cell ws) (cpu_cluster_cells ws)
  /\ isinstance AuthenticationException "ComputeTargetException" = false
  /\ fst run = [EComputeTarget ws "cpu-cluster"]
  /\ snd run = Raise AuthenticationException.
Proof.
  intros ws run.
  assert (Hin : In (Ex7.cpu_cluster_cell ws) (cpu_cluster_cells ws))
    by (simpl; tauto).
  destruct (cluster_created_only_when_not_found ws (Ex7.cpu_cluster_cell ws)
              (fail_at 0 AuthenticationException) (fst run) (snd run) Hin eq_refl)
    as (_ & Hother & _).
  destruct (Hother AuthenticationException eq_refl eq_refl) as [Ht Hr].
  split; [exact Hin |]. split; [reflexivity |]. split; [exact Ht | exact Hr].
Defined.

(** ** The data folder of the last training script of Exercise 3 *)

(** X10.  The last training script of Exercise 3 declares
    [--data-folder] without a default: run without the option, it
    obtains its run context and then fails with [TypeError] when it
    joins the missing folder with the file name; no data is read,
    nothing is logged and no model is saved. *)
Theorem data_folder_is_required
    (acc auc : float) (argv : list arg) (ps : dict arg) (reg : float)
    (o : oracle) (t : trace) (r : result unit) :
  parse_args ["--regularization"; "--data-folder"] argv = Ok ps ->
  arg_float ps "--regularization" 0.01 = Ok reg ->
  last_value ps "--data-folder" = None ->
  exec (Ex3.diabetes_training_datafolder acc auc argv) o = (t, r) ->
  t = [ERunGetContext]
  /\ (o 0 = None -> r = Raise TypeError)
  /\ (forall e, o 0 = Some e -> r = Raise e).
Proof.
  intros Hps Hreg Hfolder.
  unfold exec, Ex3.diabetes_training_datafolder.
  unfold bind at 1. unfold lift_result at 1. rewrite Hps.
  unfold bind at 1. unfold lift_result at 1. rewrite Hreg.
  unfold bind at 1. unfold lift_result at 1. unfold arg_str. rewrite Hfolder.
  unfold bind, call, raise, shift. simpl.
  destruct (o 0) as [e |] eqn:H0; intros H; inversion H; subst;
    (split; [reflexivity |]); split; intros; congruence.
Qed.

Lemma data_folder_is_required_witness :
  let argv := [AStr "--regularization"; AFloat 0.1] in
  exec (Ex3.diabetes_training_datafolder 0.774 0.848 argv) no_failure
  = ([ERunGetContext], Raise TypeError).
Proof.
  intros argv.
  destruct (data_folder_is_required 0.774 0.848 argv
              [("--regularization", AFloat 0.1)] 0.1%float no_failure
              (fst (exec (Ex3.diabetes_training_datafolder 0.774 0.848 argv) no_failure))
              (snd (exec (Ex3.diabetes_training_datafolder 0.774 0.848 argv) no_failure))
              eq_refl eq_refl eq_refl eq_refl) as (Ht & Hr & _).
  rewrite (surjective_pairing (exec _ _)), Ht, (Hr eq_refl). reflexivity.
Defined.

(** ** What the batch data cell needs of the data (Exercise 8) *)

Lemma call_inv {V A} (ev : event) (a : A) o (v : V) t v' r :
  call ev a o v = (t, v', r) -> t = [ev] /\ v' = v.
Proof. unfold call. intros H; inversion H; auto. Qed.

(** Whether every feature column is a column of the data. *)
Definition has_feature_columns (df : dataframe) : bool :=
  forallb (fun c => match column_index (df_columns df) c with
                    | Some _ => true
                    | None => false
                    end) feature_columns.

Section BatchDataNeeds.
Variable diabetes : dataframe.
Variable drawn : list nat.
Variable format_value : float -> string.

Let cell := Ex8.batch_data_cell diabetes drawn format_value.

Lemma batch_data_stops_early (o : oracle) (t : trace) (r : result unit) :
  exec cell o = (t, r) ->
  has_feature_columns diabetes = false \/ List.length (df_rows diabetes) < 100 ->
  is_ok r = false
  /\ (t = [ECall "pd.read_csv"] \/ t = [ECall "pd.read_csv"; ECall "DataFrame.sample"]).
Proof.
  intros Hrun Hshort. unfold exec in Hrun.
  destruct (cell o tt) as [[t' v'] r'] eqn:H. inversion Hrun; subst t' r'. clear Hrun.
  unfold cell, Ex8.batch_data_cell in H.
  destruct (bind_inv _ _ _ _ _ _ _ H) as [(t1 & v1 & df & t2 & H1 & H2 & ->) | (e & H1 & ->)];
    clear H.
  2:{ apply call_inv in H1 as (-> & _). auto. }
  apply call_ok_inv in H1 as (-> & -> & -> & _).
  destruct (bind_inv _ _ _ _ _ _ _ H2)
    as [(t3 & v3 & features & t4 & H3 & H4 & ->) | (e & H3 & ->)]; clear H2.
  2:{ apply lift_result_inv in H3 as (-> & _ & _). auto. }
  apply lift_result_inv in H3 as (-> & -> & Hsel).
  unfold df_select in Hsel. fold (has_feature_columns diabetes) in Hsel.
  destruct (has_feature_columns diabetes) eqn:Hcols; [| discriminate].
  destruct Hshort as [Habs | Hrows]; [discriminate |].
  inversion Hsel; subst features. clear Hsel.
  destruct (bind_inv _ _ _ _ _ _ _ H4)
    as [(t5 & v5 & d & t6 & H5 & H6 & ->) | (e & H5 & ->)]; clear H4.
  2:{ apply call_inv in H5 as (-> & _). auto. }
  apply call_ok_inv in H5 as (-> & -> & -> & _).
  destruct (bind_inv _ _ _ _ _ _ _ H6)
    as [(t7 & v7 & sampled & t8 & H7 & H8 & ->) | (e & H7 & ->)]; clear H6.
  2:{ apply lift_result_inv in H7 as (-> & _ & _). auto. }
  apply lift_result_inv in H7 as (_ & _ & Hsam).
  unfold df_sample in Hsam. cbn [df_rows] in Hsam. rewrite length_map in Hsam.
  apply Nat.ltb_lt in Hrows. rewrite Hrows in Hsam. discriminate.
Qed.

Lemma batch_data_completes :
  has_feature_columns diabetes = true ->
  100 <= List.length (df_rows diabetes) ->
  100 <= List.length drawn ->
  snd (exec cell no_failure) = Ok tt.
Proof.
  intros Hcols Hrows Hdrawn.
  assert (Hrun : exists t, cell no_failure tt = (t, tt, Ok tt)).
  2:{ destruct Hrun as [t Ht]. unfold exec. rewrite Ht. reflexivity. }
  unfold cell, Ex8.batch_data_cell. eexists.
  eapply bind_no_failure; [reflexivity |].
  unfold df_select. fold (has_feature_columns diabetes). rewrite Hcols.
  eapply bind_no_failure; [reflexivity |].
  eapply bind_no_failure; [reflexivity |].
  unfold df_sample. cbn [df_rows df_columns]. rewrite length_map.
  rewrite (proj2 (Nat.ltb_ge _ _) Hrows).
  eapply bind_no_failure; [reflexivity |].
  eapply bind_no_failure; [reflexivity |].
  cbn [df_rows].
  match goal with |- context [py_index ?s _] => set (sample := s) end.
  assert (Hsample : List.length sample = 100).
  { unfold sample. rewrite length_map, length_firstn. lia. }
  eapply bind_no_failure.
  - apply (for_each_no_failure _
             (fun i => match nth_error sample i return trace with
                       | Some row =>
                           [EToFile (os_path_join "./batch_data"
                                       (str_of_nat (i + 1) ++ ".csv"))
                              (String.concat "," (map format_value row))]
                       | None => []
                       end)).
    intros i Hi v. unfold range in Hi. apply in_seq in Hi.
    destruct (nth_error sample i) as [row |] eqn:Hrow;
      [| apply nth_error_None in Hrow; lia].
    unfold bind, lift_result, py_index. rewrite Hrow. reflexivity.
  - reflexivity.
Qed.

(** X11.  The batch data cell needs the eight feature columns and at
    least 100 rows.  Without one of the columns the selection fails
    with [KeyError]; with the columns but fewer than 100 rows the
    sampling fails with [ValueError]; in both cases, whatever else
    fails, the folder is not created and no file is written.  With the
    columns, 100 rows or more and 100 positions drawn, and no call
    failing, the cell completes. *)
Theorem batch_data_needs_columns_and_rows :
  let run := exec cell no_failure in
  (has_feature_columns diabetes = false ->
     run = ([ECall "pd.read_csv"], Raise KeyError))
  /\ (has_feature_columns diabetes = true -> List.length (df_rows diabetes) < 100 ->
        run = ([ECall "pd.read_csv"; ECall "DataFrame.sample"], Raise ValueError))
  /\ (has_feature_columns diabetes = true -> 100 <= List.length (df_rows diabetes) ->
        100 <= List.length drawn -> snd run = Ok tt)
  /\ (forall o t r, exec cell o = (t, r) ->
        has_feature_columns diabetes = false \/ List.length (df_rows diabetes) < 100 ->
        is_ok r = false /\ files_written t = []
        /\ ~ In (EMakedirs "./batch_data") t).
Proof.
  intros run. split; [| split; [| split]].
  - intros Hcols. unfold run, exec, cell, Ex8.batch_data_cell.
    unfold bind at 1. cbn [call no_failure].
    unfold bind at 1. unfold df_select. fold (has_feature_columns diabetes).
    rewrite Hcols. reflexivity.
  - intros Hcols Hrows. unfold run, exec, cell, Ex8.batch_data_cell.
    unfold bind at 1. cbn [call no_failure].
    unfold bind at 1. unfold df_select. fold (has_feature_columns diabetes).
    rewrite Hcols. cbn [lift_result].
    unfold bind at 1. cbn [call shift no_failure].
    unfold bind at 1. unfold df_sample. cbn [df_rows]. rewrite length_map.
    rewrite (proj2 (Nat.ltb_lt _ _) Hrows). reflexivity.
  - exact batch_data_completes.
  - intros o t r Hrun Hshort.
    destruct (batch_data_stops_early o t r Hrun Hshort) as (Hr & [-> | ->]);
      (split; [exact Hr |]); (split; [reflexivity |]);
      intros Hin; simpl in Hin; intuition discriminate.
Qed.

End BatchDataNeeds.

Lemma batch_data_needs_columns_and_rows_witness :
  let few := mkDataFrame ("PatientID" :: feature_columns ++ ["Diabetic"])
               (map (fun i => [float_of_nat i; 1; 100; 70; 30; 25; 21.5; 0.5; 40; 0]%float)
                  (seq 0 60)) in
  has_feature_columns few = true
  /\ List.length (df_rows few) = 60
  /\ exec (Ex8.batch_data_cell few (rev (seq 0 60)) example_format) no_failure
     = ([ECall "pd.read_csv"; ECall "DataFrame.sample"], Raise ValueError).
Proof.
  intros few.
  destruct (batch_data_needs_columns_and_rows few (rev (seq 0 60)) example_format)
    as (_ & Hfew & _).
  split; [reflexivity |]. split; [reflexivity |].
  apply Hfew; [reflexivity | vm_compute; lia].
Defined.

(** ** Listing the registered models (Exercises 3, 4, 5, 7) *)

Module Listing.

(** A registered model, as far as the listing reads it. *)
Record registered_model : Type := mkModel {
  model_name : string;
  model_version : nat;
  model_tags : dict string;
  model_properties : dict string
}.

(** [print(a, b, ...)]: the texts joined by single spaces; the store is
    what has been printed so far, one entry per call of [print]. *)
Definition print (parts : list string) : M (list string) unit :=
  out <- get ;; put (out ++ [String.concat " " parts]).

Definition tab : string := String (ascii_of_nat 9) EmptyString.

(** [for key in d], for a dictionary held in insertion order. *)
Definition keys {A} (d : dict A) : list string := map fst d.

Definition list_models_cell (models : list registered_model) : M (list string) unit :=
  models <- call (ECall "Model.list") models ;;
  for_each models (fun model =>
    print [model_name model; "version:"; str_of_nat (model_version model)] ;;
    for_each (keys (model_tags model)) (fun tag_name =>
      tag <- lift_result (dict_get (model_tags model) tag_name) ;;
      print [tab; tag_name; ":"; tag]) ;;
    for_each (keys (model_properties model)) (fun prop_name =>
      prop <- lift_result (dict_get (model_properties model) prop_name) ;;
      print [tab; prop_name; ":"; prop]) ;;
    print [newline]).

(** The line printed for an entry of a dictionary. *)
Definition entry_line (entry : string * string) : string :=
  String.concat " " [tab; fst entry; ":"; snd entry].

(** What is printed for a model. *)
Definition model_lines (model : registered_model) : list string :=
  [String.concat " " [model_name model; "version:"; str_of_nat (model_version model)]]
  ++ map entry_line (model_tags model)
  ++ map entry_line (model_properties model)
  ++ [newline].

(** A dictionary holds one value per key. *)
Definition well_formed (model : registered_model) : Prop :=
  NoDup (keys (model_tags model)) /\ NoDup (keys (model_properties model)).

End Listing.

Lemma dict_get_entry {A} (d : dict A) (key : string) (x : A) :
  NoDup (map fst d) -> In (key, x) d -> dict_get d key = Ok x.
Proof.
  induction d as [| [k y] rest IH]; intros Hnd Hin; simpl; [contradiction |].
  inversion Hnd as [| ? ? Hk Hrest]; subst.
  destruct Hin as [Heq | Hin].
  - inversion Heq; subst. rewrite String.eqb_refl. reflexivity.
  - destruct (String.eqb k key) eqn:Hkey.
    + apply String.eqb_eq in Hkey. subst k. exfalso. apply Hk.
      apply in_map_iff. exists (key, x). auto.
    + apply IH; assumption.
Qed.

(** A loop whose body only prints makes no call and appends its lines. *)
Lemma for_each_prints {A} (body : A -> M (list string) unit) (line : A -> string)
    (xs : list A) :
  (forall x, In x xs -> forall o out, body x o out = ([], out ++ [line x], Ok tt)) ->
  forall o out, for_each xs body o out = ([], out ++ map line xs, Ok tt).
Proof.
  induction xs as [| x rest IH]; intros Hbody o out; simpl.
  - rewrite app_nil_r. reflexivity.
  - unfold bind. rewrite (Hbody x (or_introl eq_refl)).
    rewrite IH by (intros y Hy; apply Hbody; right; exact Hy).
    rewrite <- app_assoc. reflexivity.
Qed.

Lemma entries_printed (d : dict string) o out :
  NoDup (Listing.keys d) ->
  for_each (Listing.keys d) (fun key =>
      x <- lift_result (dict_get d key) ;;
      Listing.print [Listing.tab; key; ":"; x]) o out
  = ([], out ++ map Listing.entry_line d, Ok tt).
Proof.
  intros Hnd.
  assert (Hloop : forall o out,
             for_each (Listing.keys d) (fun key =>
                 x <- lift_result (dict_get d key) ;;
                 Listing.print [Listing.tab; key; ":"; x]) o out
             = ([], out ++ map (fun key => match dict_get d key with
                                           | Ok x => Listing.entry_line (key, x)
                                           | Raise _ => ""
                                           end) (Listing.keys d), Ok tt)).
  { apply for_each_prints. intros key Hkey o' out'.
    unfold Listing.keys in Hkey. apply in_map_iff in Hkey as ([k x] & Hk & Hin).
    simpl in Hk. subst k.
    rewrite (dict_get_entry d key x Hnd Hin). reflexivity. }
  rewrite Hloop.
  assert (Hmap : map (fun key => match dict_get d key with
                                 | Ok x => Listing.entry_line (key, x)
                                 | Raise _ => ""
                                 end) (Listing.keys d)
                 = map Listing.entry_line d).
  { unfold Listing.keys. rewrite map_map.
    apply map_ext_in. intros [k x] Hin. simpl.
    rewrite (dict_get_entry d k x Hnd Hin). reflexivity. }
  rewrite Hmap. reflexivity.
Qed.

(** X12.  The cell that lists the registered models, once [Model.list]
    has returned, prints for each model in turn a line with its name and
    version, one line per tag, one line per property and an empty line
    (the dictionaries holding one value per key, as Python's do); it
    makes no other call and it does not fail: every key it looks up is
    a key of the dictionary it is iterating. *)
Theorem models_listing_prints_every_entry
    (models : list Listing.registered_model) (o : oracle) (out : list string) :
  Forall Listing.well_formed models ->
  o 0 = None ->
  Listing.list_models_cell models o out
  = ([ECall "Model.list"], out ++ flat_map Listing.model_lines models, Ok tt).
Proof.
  intros Hwf H0. unfold Listing.list_models_cell.
  unfold bind at 1. unfold call at 1. rewrite H0.
  generalize (shift (List.length [ECall "Model.list"]) o). intros o'.
  assert (Hloop : forall o1 out1,
             for_each models (fun model =>
               Listing.print [Listing.model_name model; "version:";
                              str_of_nat (Listing.model_version model)] ;;
               for_each (Listing.keys (Listing.model_tags model)) (fun tag_name =>
                 tag <- lift_result (dict_get (Listing.model_tags model) tag_name) ;;
                 Listing.print [Listing.tab; tag_name; ":"; tag]) ;;
               for_each (Listing.keys (Listing.model_properties model)) (fun prop_name =>
                 prop <- lift_result (dict_get (Listing.model_properties model) prop_name) ;;
                 Listing.print [Listing.tab; prop_name; ":"; prop]) ;;
               Listing.print [newline]) o1 out1
             = ([], out1 ++ flat_map Listing.model_lines models, Ok tt)).
  { induction Hwf as [| model rest [Htags Hprops] _ IH]; intros o1 out1.
    - simpl. rewrite app_nil_r. reflexivity.
    - cbn [for_each flat_map].
      unfold bind at 1. unfold bind at 1.
      unfold Listing.print at 1. unfold bind at 1. cbn [get put].
      cbn [app List.length].
      unfold bind at 1. rewrite (entries_printed _ _ _ Htags).
      cbn [app List.length].
      unfold bind at 1. rewrite (entries_printed _ _ _ Hprops).
      cbn [app List.length].
      unfold Listing.print at 1. unfold bind at 1. cbn [get put].
      cbn [app List.length].
      rewrite IH. unfold Listing.model_lines.
      cbn [app]. rewrite <- !app_assoc. reflexivity. }
  rewrite Hloop. reflexivity.
Qed.

Lemma models_listing_prints_every_entry_witness :
  let model := Listing.mkModel "diabetes_model" 3 [("Training context", "Pipeline")]
                 [("AUC", "0.848"); ("Accuracy", "0.774")] in
  Listing.list_models_cell [model] no_failure []
  = ([ECall "Model.list"],
     ["diabetes_model version: 3";
      Listing.entry_line ("Training context", "Pipeline");
      Listing.entry_line ("AUC", "0.848");
      Listing.entry_line ("Accuracy", "0.774");
      newline],
     Ok tt).
Proof.
  intros model.
  assert (Hwf : Forall Listing.well_formed [model]).
  { repeat constructor; simpl; intuition discriminate. }
  exact (models_listing_prints_every_entry [model] no_failure [] Hwf eq_refl).
Defined.

(** ** Reading the results back (Exercise 8) *)

(** [s.split(c)]: the pieces of [s] between the occurrences of [c]. *)
Fixpoint split_from (c : ascii) (s cur : string) : list string :=
  match s with
  | EmptyString => [cur]
  | String a rest =>
      if Ascii.eqb a c then cur :: split_from c rest ""
      else split_from c rest (cur ++ String a EmptyString)
  end.

Definition split_on (c : ascii) (s : string) : list string := split_from c s "".

Fixpoint count_char (c : ascii) (s : string) : nat :=
  match s with
  | EmptyString => 0
  | String a rest => (if Ascii.eqb a c then 1 else 0) + count_char c rest
  end.

Definition colon : ascii := ":"%char.

Lemma split_from_length (c : ascii) (s cur : string) :
  List.length (split_from c s cur) = S (count_char c s).
Proof.
  revert cur. induction s as [| a s IH]; intros cur; simpl; [reflexivity |].
  destruct (Ascii.eqb a c); simpl; rewrite IH; reflexivity.
Qed.

Lemma split_from_free (c : ascii) (s cur : string) :
  count_char c s = 0 -> split_from c s cur = [(cur ++ s)%string].
Proof.
  revert cur. induction s as [| a s IH]; intros cur Hs; simpl in *.
  - rewrite append_nil_r. reflexivity.
  - destruct (Ascii.eqb a c); [discriminate |].
    rewrite (IH _ Hs), append_assoc. reflexivity.
Qed.

Lemma split_from_first (c : ascii) (s rest cur : string) :
  count_char c s = 0 ->
  split_from c (s ++ String c rest) cur = (cur ++ s)%string :: split_from c rest "".
Proof.
  revert cur. induction s as [| a s IH]; intros cur Hs; simpl in *.
  - rewrite Ascii.eqb_refl, append_nil_r. reflexivity.
  - destruct (Ascii.eqb a c); [discriminate |].
    rewrite (IH _ Hs), append_assoc. reflexivity.
Qed.

Lemma count_char_append (c : ascii) (s1 s2 : string) :
  count_char c (s1 ++ s2) = count_char c s1 + count_char c s2.
Proof. induction s1 as [| a s1 IH]; simpl; [reflexivity | rewrite IH; lia]. Qed.

(** X13.  A line of [results.txt] splits at [":"], the delimiter the
    notebook reads the file back with, into exactly two fields when
    neither the base name of the file nor the text of the prediction
    holds a colon: the base name, and the prediction after one space.
    A colon in the base name gives the line more than two fields. *)
Theorem result_line_splits_in_two
    (prediction : Type) (str : prediction -> string) (file_name : string) (p : prediction) :
  let name := snd (os_path_split file_name) in
  let line := result_line prediction str (file_name, p) in
  (count_char colon name = 0 -> count_char colon (str p) = 0 ->
     split_on colon line = [name; (" " ++ str p)%string])
  /\ List.length (split_on colon line)
     = 2 + count_char colon name + count_char colon (str p).
Proof.
  intros name line. unfold line, result_line, split_on. cbn [fst snd]. fold name.
  split.
  - intros Hname Hp.
    change (name ++ ": " ++ str p)%string
      with (name ++ String colon (" " ++ str p))%string.
    rewrite (split_from_first colon name _ "" Hname).
    rewrite split_from_free by exact Hp. reflexivity.
  - rewrite split_from_length.
    change (name ++ ": " ++ str p)%string
      with (name ++ String colon (String " "%char (str p)))%string.
    rewrite count_char_append. simpl. lia.
Qed.

Lemma result_line_splits_in_two_witness :
  count_char colon (snd (os_path_split "batch_data/17.csv")) = 0
  /\ count_char colon (str_of_nat 1) = 0
  /\ split_on colon (result_line nat str_of_nat ("batch_data/17.csv", 1))
     = ["17.csv"; " 1"].
Proof.
  split; [reflexivity |]. split; [reflexivity |].
  exact (proj1 (result_line_splits_in_two nat str_of_nat "batch_data/17.csv" 1)
           eq_refl eq_refl).
Defined.

(** ** The model file of the pipeline scripts, for any command line
    (Exercise 7) *)

(** A call that creates no folder, saves no model and does not signal
    completion. *)
Definition saves_nothing (ev : event) : Prop :=
  match ev with
  | EMakedirs _ | EJoblibDump _ | ERunComplete => False
  | _ => True
  end.

Lemma train_diabetes_saves_nothing (argv : list arg) :
  stops_short saves_nothing (Ex7.train_diabetes argv).
Proof. unfold Ex7.train_diabetes. stops_short ltac:(exact I). Qed.

(** X14.  Whatever its command line, a run of the pipeline's
    registration script that completes has loaded and registered
    [model.pkl] of the folder given as [--model_folder], under the name
    [diabetes_model], and with a folder given and no call failing it
    does complete.  The training script is to save that file in the
    folder given as [--output_folder], and both folders default to
    [diabetes_model]; but, whatever its command line and whatever the
    platform does, no run of the training script creates a folder, saves
    a file, signals completion or returns: with a folder given and no
    call failing it ends with [NameError] at [os.makedirs], after
    fitting the model. *)
Theorem model_file_is_in_the_given_folder :
  (forall argv o t,
     exec (Ex7.register_diabetes argv) o = (t, Ok tt) ->
     exists folder,
       model_folder_of argv = Ok folder
       /\ t = [ERunGetContext; EJoblibLoad (folder ++ "/model.pkl");
               EModelRegister (folder ++ "/model.pkl") "diabetes_model";
               ERunComplete])
  /\ (forall folder,
        exec (Ex7.register_diabetes [AStr "--model_folder"; AStr folder]) no_failure
        = ([ERunGetContext; EJoblibLoad (folder ++ "/model.pkl");
            EModelRegister (folder ++ "/model.pkl") "diabetes_model"; ERunComplete],
           Ok tt))
  /\ (forall argv o t r,
        exec (Ex7.train_diabetes argv) o = (t, r) ->
        is_ok r = false
        /\ (forall p, ~ In (EMakedirs p) t)
        /\ (forall p, ~ In (EJoblibDump p) t)
        /\ ~ In ERunComplete t)
  /\ (forall folder,
        exec (Ex7.train_diabetes [AStr "--output_folder"; AStr folder]) no_failure
        = ([ERunGetContext; ECall "Dataset.get_by_name"; ECall "to_pandas_dataframe";
            ECall "diabetes[features].values"; ECall "diabetes['Diabetic'].values";
            ERunLog "Regularization Rate" (VFloat 0.01);
            ELogisticRegression (1 / 0.01) "liblinear"; ECall "LogisticRegression.fit"],
           Raise NameError))
  /\ output_folder_of [] = Ok "diabetes_model"
  /\ model_folder_of [] = Ok "diabetes_model"
  /\ (forall folder,
        output_folder_of [AStr "--output_folder"; AStr folder] = Ok folder
        /\ model_folder_of [AStr "--model_folder"; AStr folder] = Ok folder).
Proof.
  split; [| split; [| split; [| split; [| split; [| split]]]]]; try reflexivity.
  - intros argv o t Hrun. unfold exec in Hrun.
    destruct (Ex7.register_diabetes argv o tt) as [[t' v'] r'] eqn:H.
    inversion Hrun; subst t' r'. clear Hrun.
    unfold Ex7.register_diabetes in H.
    bind_step H. apply lift_result_inv in Hc as (-> & -> & Hps).
    bind_step H. apply lift_result_inv in Hc as (-> & -> & Hfolder).
    do 3 bind_step H.
    apply call_ok_inv in H as (-> & -> & _ & _).
    match goal with Hf : Ok ?f = arg_str_default _ "--model_folder" _ |- _ =>
      exists f end.
    split; [| reflexivity].
    unfold model_folder_of. rewrite <- Hps. symmetry. exact Hfolder.
  - intros argv o t r Hrun. unfold exec in Hrun.
    destruct (Ex7.train_diabetes argv o tt) as [[t' v'] r'] eqn:H.
    inversion Hrun; subst t' r'. clear Hrun.
    destruct (train_diabetes_saves_nothing argv _ _ _ _ _ H) as [Hall Hr].
    rewrite Forall_forall in Hall.
    split; [exact Hr |].
    split; [intros p Hp; exact (Hall _ Hp) |].
    split; [intros p Hp; exact (Hall _ Hp) | intros Hp; exact (Hall _ Hp)].
  - intros folder. split; reflexivity.
Qed.

(** ** The batch scoring step and its script (Exercise 8) *)

Definition is_genfromtxt (ev : event) : bool :=
  match ev with
  | ECall name => String.eqb name "np.genfromtxt"
  | _ => false
  end.

Lemma filter_genfromtxt (files : list string) :
  filter is_genfromtxt (map (fun _ => ECall "np.genfromtxt") files)
  = map (fun _ => ECall "np.genfromtxt") files.
Proof. induction files as [| f files IH]; simpl; [reflexivity | f_equal; exact IH]. Qed.

Lemma no_genfromtxt_in_writes {A} (line : A -> string) (path : string) (xs : list A) :
  filter is_genfromtxt (map (fun x => EWrite path (line x)) xs) = [].
Proof. induction xs as [| x xs IH]; simpl; [reflexivity | exact IH]. Qed.

(** X15.  The batch scoring step hands its script the data reference
    [batch_data] as [--input_dir], and the reference is its one input:
    wherever the platform places the data for the run, that folder is
    the one the script logs as its input folder and scans for [*.csv];
    with no call failing, the script logs the number of files matched
    there and reads each of them once before it asks for predictions. *)
Theorem batch_step_scans_the_mounted_folder
    (prediction : Type) (model_path : string) (glob : string -> list string)
    (genfromtxt : string -> list float) (predict : list (list float) -> list prediction)
    (str : prediction -> string)
    (default_datastore : string) (cpu_cluster : compute) (mount : data_ref -> string) :
  let step := Ex8.batch_score_step default_datastore cpu_cluster in
  let folder := mount (Ex8.input_dir default_datastore) in
  let files := glob (os_path_join folder "*.csv") in
  let run := exec (Ex8.batch_diabetes prediction model_path glob genfromtxt predict str
                     (Ex7.step_argv mount step)) no_failure in
  inputs step = [Ex8.input_dir default_datastore]
  /\ script_name step = "batch_diabetes.py"
  /\ argument_of "--input_dir" (arguments step)
     = Some (SData (Ex8.input_dir default_datastore))
  /\ input_dir_of (Ex7.step_argv mount step) = Ok folder
  /\ nth_error (fst run) 1 = Some (ERunLog "Input Folder" (VStr folder))
  /\ nth_error (fst run) 5
     = Some (ERunLog "File Count" (VInt (Z.of_nat (List.length files))))
  /\ List.length (filter is_genfromtxt (fst run)) = List.length files
  /\ (forall i, nth_error (fst run) i = Some (ECall "model.predict") ->
        i = 7 + List.length files).
Proof.
  intros step folder files run.
  assert (Hdir : input_dir_of (Ex7.step_argv mount step) = Ok folder) by reflexivity.
  pose proof (batch_diabetes_no_failure prediction model_path glob genfromtxt predict str
                (Ex7.step_argv mount step) folder Hdir) as Hrun.
  cbv zeta in Hrun. fold files run in Hrun.
  do 4 (split; [reflexivity |]).
  rewrite Hrun. cbn [fst]. unfold scoring_calls. fold files.
  split; [reflexivity |]. split; [reflexivity |]. split.
  - rewrite !filter_app, filter_genfromtxt, no_genfromtxt_in_writes.
    rewrite !length_app, length_map.
    destruct (_ <=? _)%nat; simpl; lia.
  - intros i Hi.
    rewrite <- !app_assoc in Hi.
    destruct (Nat.lt_ge_cases i 6) as [Hlt | Hge].
    { rewrite nth_error_app1 in Hi by (simpl; lia).
      do 6 (destruct i as [| i]; [discriminate Hi |]). simpl in Hlt. lia. }
    rewrite nth_error_app2 in Hi by (simpl; lia). cbn [List.length] in Hi.
    destruct (Nat.lt_ge_cases (i - 6) (List.length files)) as [Hlt | Hge'].
    { rewrite nth_error_app1 in Hi by (rewrite length_map; exact Hlt).
      apply nth_error_In in Hi. apply in_map_iff in Hi as (f & Hf & _). discriminate. }
    rewrite nth_error_app2 in Hi by (rewrite length_map; exact Hge').
    rewrite length_map in Hi.
    remember (i - 6 - List.length files) as k eqn:Hk.
    destruct k as [| [| k]]; [discriminate Hi | lia |].
    exfalso. cbn [app nth_error] in Hi.
    destruct k as [| [| k]]; try discriminate Hi.
    cbn [nth_error] in Hi.
    apply nth_error_In in Hi. apply in_app_or in Hi as [Hi | Hi].
    + apply in_map_iff in Hi as (fp & Hfp & _). discriminate.
    + destruct (_ <=? _)%nat; simpl in Hi; intuition discriminate.
Qed.

(** ** A saved model has its metrics (Exercises 3, 4, 5) *)

Section SavedModel.
Variables acc auc : float.

(** Whatever fails, the calls of the shared block are an initial part
    of the calls it makes when it returns. *)
Lemma train_and_evaluate_runs (imports : list string) (reg : float) o (v : unit)
    t v' r :
  Training.train_and_evaluate acc auc imports reg o v = (t, v', r) ->
  exists n, t = firstn n (train_and_evaluate_calls acc auc reg).
Proof.
  unfold Training.train_and_evaluate, name_lookup.
  generalize (existsb (String.eqb "os") imports) as os_bound. intros os_bound.
  unfold train_and_evaluate_calls, calls, for_each, bind, call, lift_result, ret, raise,
    shift, py_truediv. simpl.
  destruct (o 0); simpl; [intros H; inversion H; exists 1; reflexivity |].
  destruct (o 1); simpl; [intros H; inversion H; exists 2; reflexivity |].
  destruct (o 2); simpl; [intros H; inversion H; exists 3; reflexivity |].
  destruct (o 3); simpl; [intros H; inversion H; exists 4; reflexivity |].
  destruct (PrimFloat.eqb reg 0); simpl; [intros H; inversion H; exists 4; reflexivity |].
  destruct (o 4); simpl; [intros H; inversion H; exists 5; reflexivity |].
  destruct (o 5); simpl; [intros H; inversion H; exists 6; reflexivity |].
  destruct (o 6); simpl; [intros H; inversion H; exists 7; reflexivity |].
  destruct (o 7); simpl; [intros H; inversion H; exists 8; reflexivity |].
  destruct (o 8); simpl; [intros H; inversion H; exists 9; reflexivity |].
  destruct (o 9); simpl; [intros H; inversion H; exists 10; reflexivity |].
  destruct (o 10); simpl; [intros H; inversion H; exists 11; reflexivity |].
  destruct (o 11); simpl; [intros H; inversion H; exists 12; reflexivity |].
  destruct (o 12); simpl; [intros H; inversion H; exists 13; reflexivity |].
  destruct (o 13); simpl; [intros H; inversion H; exists 14; reflexivity |].
  destruct (o 14); simpl; [intros H; inversion H; exists 15; reflexivity |].
  destruct (o 15); simpl; [intros H; inversion H; exists 16; reflexivity |].
  destruct (o 16); simpl; [intros H; inversion H; exists 17; reflexivity |].
  destruct (o 17); simpl; [intros H; inversion H; exists 18; reflexivity |].
  destruct (o 18); simpl; [intros H; inversion H; exists 19; reflexivity |].
  destruct (o 19); simpl; [intros H; inversion H; exists 20; reflexivity |].
  destruct (o 20); simpl; [intros H; inversion H; exists 21; reflexivity |].
  destruct os_bound; simpl; [| intros H; inversion H; exists 21; reflexivity].
  destruct (o 21); simpl; [intros H; inversion H; exists 22; reflexivity |].
  destruct (o 22); simpl; [intros H; inversion H; exists 23; reflexivity |].
  intros H; inversion H; exists 24; reflexivity.
Qed.

(** In the calls [t], a model is saved only as
    [outputs/diabetes_model.pkl], and only after the accuracy, the AUC
    and the ROC image have been logged. *)
Definition saved_after_metrics (t : trace) : Prop :=
  forall j p, nth_error t j = Some (EJoblibDump p) ->
    p = "outputs/diabetes_model.pkl"
    /\ exists i1 i2 i3,
         i1 < i2 /\ i2 < i3 /\ i3 < j
         /\ nth_error t i1 = Some (ERunLog "Accuracy" (VFloat acc))
         /\ nth_error t i2 = Some (ERunLog "AUC" (VFloat auc))
         /\ nth_error t i3 = Some (ERunLogImage "ROC").

Definition saves_after_metrics {V A} (c : M V A) : Prop :=
  forall o v t v' r, c o v = (t, v', r) -> saved_after_metrics t.

Definition not_dump (ev : event) : Prop := forall p, ev <> EJoblibDump p.

Lemma saves_after_quiet_part {V A B} (c : M V A) (f : A -> M V B) :
  emits not_dump c -> (forall a, saves_after_metrics (f a)) ->
  saves_after_metrics (bind c f).
Proof.
  intros Hc Hf o v t v' r H j p Hj.
  destruct (bind_inv _ _ _ _ _ _ _ H) as [(t1 & v1 & a & t2 & H1 & H2 & ->) | (e & H1 & ->)].
  - pose proof (Hc _ _ _ _ _ H1) as Hquiet.
    destruct (Nat.lt_ge_cases j (List.length t1)) as [Hlt | Hge].
    + rewrite nth_error_app1 in Hj by exact Hlt.
      apply nth_error_In in Hj.
      exfalso. exact (proj1 (Forall_forall _ _) Hquiet _ Hj p eq_refl).
    + rewrite nth_error_app2 in Hj by exact Hge.
      destruct (Hf a _ _ _ _ _ H2 _ p Hj) as (Hp & i1 & i2 & i3 & H12 & H23 & H3j & Hacc
                                               & Hauc & Hroc).
      split; [exact Hp |].
      exists (List.length t1 + i1), (List.length t1 + i2), (List.length t1 + i3).
      repeat split; try lia;
        rewrite nth_error_app2 by lia;
        match goal with
        | |- nth_error _ (?n + ?i - ?n) = _ => replace (n + i - n) with i by lia
        end; assumption.
  - pose proof (Hc _ _ _ _ _ H1) as Hquiet.
    apply nth_error_In in Hj.
    exfalso. exact (proj1 (Forall_forall _ _) Hquiet _ Hj p eq_refl).
Qed.

Lemma saves_after_lift {V A B} (x : result A) (f : A -> M V B) :
  (forall a, saves_after_metrics (f a)) -> saves_after_metrics (bind (lift_result x) f).
Proof.
  intros Hf. apply saves_after_quiet_part; [| exact Hf].
  intros o v t v' r H. apply lift_result_inv in H as (-> & _). constructor.
Qed.

Lemma train_and_evaluate_saves_after (imports : list string) (reg : float) :
  saves_after_metrics (Training.train_and_evaluate acc auc imports reg).
Proof.
  intros o v t v' r H j p Hj.
  destruct (train_and_evaluate_runs imports reg o v t v' r H) as [n ->].
  rewrite nth_error_firstn in Hj.
  destruct (j <? n)%nat eqn:Hjn; [| discriminate].
  apply Nat.ltb_lt in Hjn.
  assert (Hplace : j = 22 /\ p = "outputs/diabetes_model.pkl").
  { unfold train_and_evaluate_calls in Hj.
    do 24 (destruct j as [| j]; [simpl in Hj; try discriminate Hj;
                                 inversion Hj; auto |]).
    simpl in Hj. destruct j; discriminate Hj. }
  destruct Hplace as [-> ->]. split; [reflexivity |].
  exists 8, 11, 19.
  repeat split; try lia; rewrite nth_error_firstn;
    match goal with
    | |- (if (?i <? n)%nat then _ else _) = _ =>
        replace (i <? n)%nat with true by (symmetry; apply Nat.ltb_lt; lia)
    end; reflexivity.
Qed.

Ltac not_dump := intros ?; discriminate.

Ltac saves_after :=
  cbv zeta;
  repeat first
    [ apply saves_after_lift; intros ?
    | apply train_and_evaluate_saves_after
    | apply saves_after_quiet_part; [emits_with ltac:(not_dump) | intros ?] ].

(** X16.  In every run of a training script of Exercises 3 to 5,
    whatever call fails: if the model has been saved, it has been saved
    as [outputs/diabetes_model.pkl], the script is the data-folder
    version of Exercise 3 (the one version that imports [os]), and the
    accuracy, the AUC and the ROC image, in this order, were logged
    before the save.  A model file in the outputs of a run therefore
    comes with its metrics, also when the run failed after saving it. *)
Theorem model_is_saved_after_its_metrics
    (script : list arg -> M unit unit) (argv : list arg)
    (o : oracle) (t : trace) (r : result unit) :
  In script (evaluating_scripts acc auc) ->
  exec (script argv) o = (t, r) ->
  forall j p, nth_error t j = Some (EJoblibDump p) ->
    p = "outputs/diabetes_model.pkl"
    /\ script = Ex3.diabetes_training_datafolder acc auc
    /\ exists i1 i2 i3,
         i1 < i2 /\ i2 < i3 /\ i3 < j
         /\ nth_error t i1 = Some (ERunLog "Accuracy" (VFloat acc))
         /\ nth_error t i2 = Some (ERunLog "AUC" (VFloat auc))
         /\ nth_error t i3 = Some (ERunLogImage "ROC").
Proof.
  intros Hin Hrun j p Hj. unfold exec in Hrun.
  destruct (script argv o tt) as [[t' v'] r'] eqn:H.
  inversion Hrun; subst t' r'. clear Hrun.
  assert (Hscript : saves_after_metrics (script argv)).
  { unfold evaluating_scripts in Hin. simpl in Hin.
    destruct Hin as [<- | [<- | [<- | [<- | [<- | []]]]]].
    - unfold Ex3.diabetes_training_fixed. saves_after.
    - unfold Ex3.diabetes_training_estimator. saves_after.
    - unfold Ex3.diabetes_training_datafolder. saves_after.
    - unfold Ex4.diabetes_training. saves_after.
    - unfold Ex5.diabetes_training. saves_after. }
  destruct (Hscript _ _ _ _ _ H j p Hj) as [Hp Hbefore].
  split; [exact Hp |]. split; [| exact Hbefore].
  assert (Hstops : stops_short not_dump (script argv) -> False).
  { intros Hs. destruct (Hs _ _ _ _ _ H) as [Hall _].
    apply nth_error_In in Hj.
    exact (proj1 (Forall_forall _ _) Hall _ Hj p eq_refl). }
  unfold evaluating_scripts in Hin. simpl in Hin.
  destruct Hin as [<- | [<- | [<- | [<- | [<- | []]]]]]; try reflexivity;
    exfalso; apply Hstops.
  - unfold Ex3.diabetes_training_fixed, Training.train_and_evaluate.
    stops_short ltac:(not_dump).
  - unfold Ex3.diabetes_training_estimator, Training.train_and_evaluate.
    stops_short ltac:(not_dump).
  - unfold Ex4.diabetes_training, Training.train_and_evaluate.
    stops_short ltac:(not_dump).
  - unfold Ex5.diabetes_training, Training.train_and_evaluate.
    stops_short ltac:(not_dump).
Qed.

End SavedModel.

(** A failure of the platform while the run is being completed. *)
Definition ServiceException : exn :=
  mkExn ["ServiceException"; "AzureMLException"; "Exception"; "BaseException"; "object"]
        (Some "Failed to complete the run.").

Lemma model_is_saved_after_its_metrics_witness :
  let script := Ex3.diabetes_training_datafolder 0.774 0.848 in
  let argv := [AStr "--regularization"; AFloat 0.1;
               AStr "--data-folder"; AStr "/mnt/diabetes"] in
  let run := exec (script argv) (fail_at 25 ServiceException) in
  snd run = Raise ServiceException
  /\ nth_error (fst run) 24 = Some (EJoblibDump "outputs/diabetes_model.pkl")
  /\ exists i1 i2 i3,
       i1 < i2 /\ i2 < i3 /\ i3 < 24
       /\ nth_error (fst run) i1 = Some (ERunLog "Accuracy" (VFloat 0.774))
       /\ nth_error (fst run) i2 = Some (ERunLog "AUC" (VFloat 0.848))
       /\ nth_error (fst run) i3 = Some (ERunLogImage "ROC").
Proof.
  intros script argv run.
  split; [reflexivity |]. split; [reflexivity |].
  refine (proj2 (proj2 (model_is_saved_after_its_metrics 0.774 0.848 script argv
                          (fail_at 25 ServiceException) (fst run) (snd run) _ eq_refl
                          24 "outputs/diabetes_model.pkl" eq_refl))).
  simpl. tauto.
Defined.
